(** * Semantic matching, insight aggregation and query routing

    A shallow embedding of the three FastAPI servers of the repository
    ([backend/servers/resume_server.py], [job_server.py] and
    [aggregator_server.py]) and the properties of their matching engine,
    insight aggregation and keyword router.

    Modelling conventions.
    - A Python [str] is a [string]; [in] on strings is the substring test,
      [lower] folds the ASCII letters and [strip] removes ASCII white
      space.
    - A Python [float] is the rational it denotes ([Q]).  The scores that
      reach the sort are finite (scikit-learn rejects non-finite input), and
      on finite floats [<] and [==] are those of the rationals.
    - [Optional[T]] is [option T]; a [dict] keeps its insertion order and is
      an association list with unique keys.
    - The sentence-transformer ([model.encode]) and scikit-learn's
      [cosine_similarity] are external: they are Section variables, total
      on the stored data (every stored embedding has the model's
      dimension).
    - A data file is the list it holds, oldest record first: both servers
      append a new record at the end. *)

From Stdlib Require Import List String Ascii Bool Arith ZArith QArith Lia.
From Stdlib Require Import DecimalString.
From Stdlib Require DecimalNat.
From Stdlib Require Import Sorted Permutation.
Import ListNotations.

Open Scope string_scope.
Open Scope list_scope.
Open Scope nat_scope.

(* ================================================================== *)
(** ** Python built-ins used by the servers *)

Module Py.

(** The line feed of the ["\n"] escapes. *)
Definition LF : string := String (ascii_of_nat 10) "".

Definition lower_char (c : ascii) : ascii :=
  let n := nat_of_ascii c in
  if (65 <=? n) && (n <=? 90) then ascii_of_nat (n + 32) else c.

(** [s.lower()] *)
Fixpoint lower (s : string) : string :=
  match s with
  | EmptyString => EmptyString
  | String c s' => String (lower_char c) (lower s')
  end.

(** [word in text] on strings. *)
Fixpoint contains (word text : string) : bool :=
  if prefix word text then true
  else match text with
       | EmptyString => false
       | String _ text' => contains word text'
       end.

(** [any(word in text for word in words)] *)
Definition any_in (words : list string) (text : string) : bool :=
  existsb (fun word => contains word text) words.

(** [l[:k]]: a negative [k] counts from the end of the list. *)
Definition slice_to {A : Type} (l : list A) (k : Z) : list A :=
  if (k <? 0)%Z
  then firstn (Z.to_nat (Z.of_nat (List.length l) + k)) l
  else firstn (Z.to_nat k) l.

(** [s[:n]] on strings, for a literal [n >= 0]. *)
Fixpoint str_take (n : nat) (s : string) : string :=
  match n, s with
  | S n', String c s' => String c (str_take n' s')
  | _, _ => EmptyString
  end.

(** [sep.join(l)] *)
Fixpoint join (sep : string) (l : list string) : string :=
  match l with
  | [] => ""
  | [s] => s
  | s :: l' => (s ++ sep ++ join sep l')%string
  end.

(** [if o:] on an [Optional[str]]: [None] and the empty string are both
    false; a true one is handed on. *)
Definition truthy (o : option string) : option string :=
  match o with
  | Some (String _ _ as s) => Some s
  | _ => None
  end.

(** [for i, x in enumerate(l, start)] *)
Definition enumerate {A : Type} (start : nat) (l : list A) : list (nat * A) :=
  combine (seq start (List.length l)) l.

(** [str(n)] and [f"{n}"] on a natural number. *)
Definition str_of_nat (n : nat) : string :=
  DecimalString.NilEmpty.string_of_uint (Nat.to_uint n).

Definition is_upper (c : ascii) : bool :=
  let n := nat_of_ascii c in (65 <=? n) && (n <=? 90).

Definition is_lower (c : ascii) : bool :=
  let n := nat_of_ascii c in (97 <=? n) && (n <=? 122).

Definition upper_char (c : ascii) : ascii :=
  if is_lower c then ascii_of_nat (nat_of_ascii c - 32) else c.

(** [s.title()]: a letter that follows a letter is lowered, any other
    letter is raised. *)
Fixpoint title_from (previous_is_cased : bool) (s : string) : string :=
  match s with
  | EmptyString => EmptyString
  | String c s' =>
      let cased := is_upper c || is_lower c in
      String (if cased
              then if previous_is_cased then lower_char c else upper_char c
              else c)
             (title_from cased s')
  end.

Definition title (s : string) : string := title_from false s.

(** [x < y] on finite floats. *)
Definition float_lt (x y : Q) : bool := negb (Qle_bool y x).

(** [l.sort(key=key, reverse=True)] and [sorted(l, key=key, reverse=True)]:
    a stable sort, largest key first; elements whose keys compare equal keep
    their relative order, also under [reverse=True]. *)
Section Sort.
Variables (A K : Type) (key : A -> K) (lt : K -> K -> bool).

Fixpoint insert_desc (x : A) (l : list A) : list A :=
  match l with
  | [] => [x]
  | y :: l' =>
      if lt (key x) (key y) then y :: insert_desc x l' else x :: y :: l'
  end.

Definition sort_desc (l : list A) : list A :=
  fold_right insert_desc [] l.
End Sort.

Arguments insert_desc {A K} key lt x l.
Arguments sort_desc {A K} key lt l.

(** A [dict]: keys in insertion order, each key once. *)
Definition dict (V : Type) : Type := list (string * V).

(** [d.get(k, default)] *)
Fixpoint dict_get {V : Type} (d : dict V) (k : string) (default : V) : V :=
  match d with
  | [] => default
  | (k', v) :: d' => if String.eqb k k' then v else dict_get d' k default
  end.

(** [d[k] = v]: an existing key keeps its place, a new one goes last. *)
Fixpoint dict_set {V : Type} (d : dict V) (k : string) (v : V) : dict V :=
  match d with
  | [] => [(k, v)]
  | (k', v') :: d' =>
      if String.eqb k k' then (k', v) :: d' else (k', v') :: dict_set d' k v
  end.

(** [d[k] += 1] for a key that [d] holds. *)
Definition dict_incr (d : dict nat) (k : string) : dict nat :=
  dict_set d k (dict_get d k 0 + 1).

(** [k in d] *)
Definition dict_mem {V : Type} (d : dict V) (k : string) : bool :=
  existsb (fun kv => String.eqb k (fst kv)) d.

(** [sum(d.values())] *)
Definition dict_total (d : dict nat) : nat :=
  fold_right (fun kv acc => snd kv + acc) 0 d.

(** [d[k]], [None] where Python raises [KeyError]. *)
Fixpoint dict_find {V : Type} (d : dict V) (k : string) : option V :=
  match d with
  | [] => None
  | (k', v) :: d' => if String.eqb k k' then Some v else dict_find d' k
  end.

(** [s.split(sep)] for a one-character separator: never an empty list. *)
Fixpoint split_char (sep : ascii) (s : string) : list string :=
  match s with
  | EmptyString => [EmptyString]
  | String c s' =>
      if Ascii.eqb c sep then EmptyString :: split_char sep s'
      else match split_char sep s' with
           | piece :: pieces => String c piece :: pieces
           | [] => [String c EmptyString]
           end
  end.

(** [c.isspace()] on the ASCII range: tab to carriage return, the four
    separators 28 to 31, and the space. *)
Definition is_space (c : ascii) : bool :=
  let n := nat_of_ascii c in
  ((9 <=? n) && (n <=? 13)) || ((28 <=? n) && (n <=? 31)) || (n =? 32).

Fixpoint lstrip (s : string) : string :=
  match s with
  | EmptyString => EmptyString
  | String c s' => if is_space c then lstrip s' else s
  end.

Fixpoint rstrip (s : string) : string :=
  match s with
  | EmptyString => EmptyString
  | String c s' =>
      match rstrip s' with
      | EmptyString => if is_space c then EmptyString else String c EmptyString
      | kept => String c kept
      end
  end.

(** [s.strip()] *)
Definition strip (s : string) : string := rstrip (lstrip s).

(** [s[n:]] on strings, for a literal [n >= 0]. *)
Fixpoint str_drop (n : nat) (s : string) : string :=
  match n, s with
  | S n', String _ s' => str_drop n' s'
  | _, _ => s
  end.

End Py.

Import Py.

(* ================================================================== *)
(** ** resume_server.py *)

Module ResumeServer.

Record Resume := {
  id : string;
  user_id : string;
  name : string;
  email : string;
  skills : list string;
  experience : string;
  education : string;
  raw_text : string;
  embedding : option (list Q)
}.

Record ResumeInsight := {
  total_resumes : nat;
  top_skills : list string;
  experience_levels : dict nat;
  education_backgrounds : list string
}.

Record MatchRequest := {
  job_description : string;
  top_k : Z;
  exclude_user_id : option string
}.

(** One entry of the ["matches"] list. *)
Record Match := {
  resume_id : string;
  match_name : string;
  match_skills : list string;
  similarity_score : Q;
  experience_snippet : string
}.

(** The reply of [/match-candidates]: a key the reply does not carry is
    [None]. *)
Record MatchResponse := {
  matches : list Match;
  message : option string;
  total_candidates : option nat
}.

(** What [parse_resume_text] returns. *)
Record ParsedResume := {
  parsed_name : string;
  parsed_email : string;
  parsed_skills : list string;
  parsed_experience : string;
  parsed_education : string
}.

(** The data file: [None] when it is missing or unreadable. *)
Definition load_resumes (file : option (list Resume)) : list Resume :=
  match file with
  | Some data => data
  | None => []
  end.

(** [text[:n] + "..." if len(text) > n else text] *)
Definition snippet (n : nat) (text : string) : string :=
  if n <? String.length text then (str_take n text ++ "...")%string else text.

(** [r for r in resumes if r.user_id != excluded] *)
Definition without_user (excluded : string) (resumes : list Resume)
  : list Resume :=
  filter (fun r => negb (String.eqb (user_id r) excluded)) resumes.

(** [# Filter out excluded user] *)
Definition filter_excluded (exclude_user_id : option string)
           (resumes : list Resume) : list Resume :=
  match truthy exclude_user_id with
  | Some excluded => without_user excluded resumes
  | None => resumes
  end.

(** The three experience buckets, decided top-down. *)
Definition experience_bucket (r : Resume) : string :=
  let exp_text := lower (experience r) in
  if any_in ["senior"; "lead"; "manager"; "director"] exp_text then "Senior"
  else if any_in ["years"; "experience"] exp_text
          && negb (any_in ["entry"; "junior"; "intern"] exp_text) then "Mid"
  else "Entry".

(** The variables of the loop of [parse_resume_text]. *)
Record ParseState := {
  current_section : string;
  seen_email : string;
  seen_skills : list string;
  seen_experience : string;
  seen_education : string
}.

(** The bullet ["•"] is one character of three UTF-8 bytes. *)
Definition bullet : string := "•".

(** One round of the loop of [parse_resume_text], on a raw line. *)
Definition parse_line (st : ParseState) (raw : string) : ParseState :=
  let line := strip raw in
  if String.eqb line "" then st
  else
    let email :=
      if contains "@" line && contains "." line then line else seen_email st in
    if any_in ["skill"; "technical"] (lower line) then
      {| current_section := "skills"; seen_email := email;
         seen_skills := seen_skills st;
         seen_experience := seen_experience st;
         seen_education := seen_education st |}
    else if any_in ["experience"; "work"; "employment"] (lower line) then
      {| current_section := "experience"; seen_email := email;
         seen_skills := seen_skills st;
         seen_experience := seen_experience st;
         seen_education := seen_education st |}
    else if any_in ["education"; "degree"; "university"] (lower line) then
      {| current_section := "education"; seen_email := email;
         seen_skills := seen_skills st;
         seen_experience := seen_experience st;
         seen_education := seen_education st |}
    else if String.eqb (current_section st) "skills" then
      let skills :=
        if contains "," line then
          seen_skills st ++ map strip (split_char "," line)
        else if prefix bullet line then
          seen_skills st ++ [strip (str_drop (String.length bullet) line)]
        else if prefix "-" line then
          seen_skills st ++ [strip (str_drop 1 line)]
        else seen_skills st in
      {| current_section := current_section st; seen_email := email;
         seen_skills := skills;
         seen_experience := seen_experience st;
         seen_education := seen_education st |}
    else if String.eqb (current_section st) "experience" then
      {| current_section := current_section st; seen_email := email;
         seen_skills := seen_skills st;
         seen_experience := (seen_experience st ++ line ++ " ")%string;
         seen_education := seen_education st |}
    else if String.eqb (current_section st) "education" then
      {| current_section := current_section st; seen_email := email;
         seen_skills := seen_skills st;
         seen_experience := seen_experience st;
         seen_education := (seen_education st ++ line ++ " ")%string |}
    else
      {| current_section := current_section st; seen_email := email;
         seen_skills := seen_skills st;
         seen_experience := seen_experience st;
         seen_education := seen_education st |}.

Definition parse_start : ParseState :=
  {| current_section := ""; seen_email := ""; seen_skills := [];
     seen_experience := ""; seen_education := "" |}.

Section WithModel.
(** [model.encode], [cosine_similarity(...)[0][0]] and the iteration order
    of [list(set(...))], which depends on the process's string hashing. *)
Variable encode : string -> list Q.
Variable cosine_similarity : list Q -> list Q -> Q.
Variable list_of_set : list string -> list string.

Definition mk_match (job_embedding : list Q) (resume : Resume)
           (e : list Q) : Match :=
  {| resume_id := id resume;
     match_name := name resume;
     match_skills := skills resume;
     similarity_score := cosine_similarity job_embedding e;
     experience_snippet := snippet 200 (experience resume) |}.

(** The body of the similarity loop, for one resume. *)
Definition scored (job_embedding : list Q) (resume : Resume) : list Match :=
  match embedding resume with
  | Some ((_ :: _) as e) => [mk_match job_embedding resume e]
  | _ => []
  end.

(** [# Calculate similarities] *)
Definition similarities (job_embedding : list Q) (resumes : list Resume)
  : list Match :=
  fold_left (fun matches resume => matches ++ scored job_embedding resume)
            resumes [].

Definition parse_resume_text (text : string) : ParsedResume :=
  let lines := split_char (ascii_of_nat 10) text in
  let name := match lines with
              | first :: _ => first
              | [] => "Unknown"
              end in
  let st := fold_left parse_line lines parse_start in
  {| parsed_name := name;
     parsed_email := seen_email st;
     parsed_skills := match seen_skills st with
                      | [] => ["General"]
                      | skills => list_of_set skills
                      end;
     parsed_experience := strip (seen_experience st);
     parsed_education := strip (seen_education st) |}.

(** [upload_resume], from the text and the fields that the PDF extraction
    and [parse_resume_text] produced: the owner's earlier resume is dropped
    and the new one goes last.  The result is the data file as saved. *)
Definition upload_resume (file : option (list Resume))
           (new_id user : string) (text : string) (parsed : ParsedResume)
  : option (list Resume) :=
  let embedding := encode text in
  let resume :=
    {| id := new_id;
       user_id := user;
       name := parsed_name parsed;
       email := parsed_email parsed;
       skills := parsed_skills parsed;
       experience := parsed_experience parsed;
       education := parsed_education parsed;
       raw_text := text;
       embedding := Some embedding |} in
  let resumes := load_resumes file in
  let resumes := without_user user resumes in
  Some (resumes ++ [resume]).

Definition match_candidates (file : option (list Resume))
           (request : MatchRequest) : MatchResponse :=
  let resumes := load_resumes file in
  match resumes with
  | [] => {| matches := [];
             message := Some "No resumes available";
             total_candidates := None |}
  | _ :: _ =>
      let resumes := filter_excluded (exclude_user_id request) resumes in
      let job_embedding := encode (job_description request) in
      let matches := similarities job_embedding resumes in
      let matches := sort_desc similarity_score float_lt matches in
      {| matches := slice_to matches (top_k request);
         message := None;
         total_candidates := Some (List.length resumes) |}
  end.

Definition get_resume_insights (file : option (list Resume))
  : ResumeInsight :=
  let resumes := load_resumes file in
  match resumes with
  | [] => {| total_resumes := 0;
             top_skills := [];
             experience_levels := [];
             education_backgrounds := [] |}
  | _ :: _ =>
      let all_skills := flat_map skills resumes in
      let skill_counts :=
        fold_left (fun counts skill =>
                     dict_set counts skill (dict_get counts skill 0 + 1))
                  all_skills [] in
      let top_skills :=
        map fst (slice_to (sort_desc snd Nat.ltb skill_counts) 10) in
      let experience_levels :=
        fold_left (fun levels resume =>
                     dict_incr levels (experience_bucket resume))
                  resumes [("Entry", 0); ("Mid", 0); ("Senior", 0)] in
      let education_backgrounds :=
        list_of_set
          (map (fun r => snippet 50 (education r))
               (filter (fun r => negb (String.eqb (education r) ""))
                       resumes)) in
      {| total_resumes := List.length resumes;
         top_skills := top_skills;
         experience_levels := experience_levels;
         education_backgrounds := slice_to education_backgrounds 10 |}
  end.
End WithModel.

End ResumeServer.

(* ================================================================== *)
(** ** job_server.py *)

Module JobServer.

Record JobPosting := {
  id : string;
  employer_id : string;
  title : string;
  company : string;
  description : string;
  requirements : list string;
  location : string;
  salary_range : option string;
  job_type : string;
  embedding : option (list Q)
}.

Record JobInsight := {
  total_jobs : nat;
  top_companies : list string;
  popular_skills : list string;
  job_types : dict nat;
  locations : list string
}.

Record JobMatchRequest := {
  resume_text : string;
  top_k : Z;
  exclude_employer_id : option string
}.

Record JobSubmission := {
  submitted_employer_id : string;
  submitted_title : string;
  submitted_company : string;
  submitted_description : string;
  submitted_requirements : list string;
  submitted_location : string;
  submitted_salary_range : option string;
  submitted_job_type : string
}.

(** One entry of the ["matches"] list. *)
Record Match := {
  job_id : string;
  match_title : string;
  match_company : string;
  match_location : string;
  similarity_score : Q;
  description_snippet : string;
  match_requirements : list string;
  match_salary_range : option string
}.

(** The reply of [/match-jobs]: a key the reply does not carry is [None];
    [total_jobs_considered] is its ["total_jobs"] key. *)
Record MatchResponse := {
  matches : list Match;
  message : option string;
  total_jobs_considered : option nat
}.

(** The data file: [None] when it is missing or unreadable. *)
Definition load_jobs (file : option (list JobPosting)) : list JobPosting :=
  match file with
  | Some data => data
  | None => []
  end.

Definition snippet (n : nat) (text : string) : string :=
  if n <? String.length text then (str_take n text ++ "...")%string else text.

Definition common_skills : list string :=
  ["python"; "java"; "javascript"; "react"; "node.js"; "sql"; "aws"; "docker";
   "kubernetes"; "git"; "machine learning"; "data analysis";
   "project management"; "communication"; "leadership"; "problem solving";
   "teamwork"; "agile"; "scrum"].

Definition extract_skills_from_job (description : string)
           (requirements : list string) : list string :=
  let text := lower (description ++ " " ++ join " " requirements)%string in
  fold_left (fun found_skills skill =>
               if contains skill text
               then found_skills ++ [Py.title skill]
               else found_skills)
            common_skills [].

(** [j for j in jobs if j.employer_id != excluded] *)
Definition without_employer (excluded : string) (jobs : list JobPosting)
  : list JobPosting :=
  filter (fun j => negb (String.eqb (employer_id j) excluded)) jobs.

(** [# Filter out jobs from excluded employer] *)
Definition filter_excluded (exclude_employer_id : option string)
           (jobs : list JobPosting) : list JobPosting :=
  match truthy exclude_employer_id with
  | Some excluded => without_employer excluded jobs
  | None => jobs
  end.

(** One entry of the ["jobs"] list of [/jobs]. *)
Record JobSummary := {
  summary_id : string;
  summary_title : string;
  summary_company : string;
  summary_location : string;
  summary_job_type : string;
  summary_salary_range : option string
}.

Definition summary (job : JobPosting) : JobSummary :=
  {| summary_id := id job;
     summary_title := title job;
     summary_company := company job;
     summary_location := location job;
     summary_job_type := job_type job;
     summary_salary_range := salary_range job |}.

Definition get_all_jobs (file : option (list JobPosting))
           (wanted : option string) : list JobSummary :=
  let jobs := load_jobs file in
  let jobs :=
    match truthy wanted with
    | Some employer =>
        filter (fun job => String.eqb (employer_id job) employer) jobs
    | None => jobs
    end in
  map summary jobs.

(** [counts[k] = counts.get(k, 0) + 1] *)
Definition count_one (counts : dict nat) (k : string) : dict nat :=
  dict_set counts k (dict_get counts k 0 + 1).

Section WithModel.
Variable encode : string -> list Q.
Variable cosine_similarity : list Q -> list Q -> Q.
Variable list_of_set : list string -> list string.

Definition mk_match (resume_embedding : list Q) (job : JobPosting)
           (e : list Q) : Match :=
  {| job_id := id job;
     match_title := title job;
     match_company := company job;
     match_location := location job;
     similarity_score := cosine_similarity resume_embedding e;
     description_snippet := snippet 200 (description job);
     match_requirements := slice_to (requirements job) 5;
     match_salary_range := salary_range job |}.

(** The body of the similarity loop, for one job. *)
Definition scored (resume_embedding : list Q) (job : JobPosting)
  : list Match :=
  match embedding job with
  | Some ((_ :: _) as e) => [mk_match resume_embedding job e]
  | _ => []
  end.

(** [# Calculate similarities] *)
Definition similarities (resume_embedding : list Q) (jobs : list JobPosting)
  : list Match :=
  fold_left (fun matches job => matches ++ scored resume_embedding job)
            jobs [].

(** [post_job]: the new posting goes last.  The result is the data file as
    saved. *)
Definition post_job (file : option (list JobPosting)) (new_id : string)
           (job_data : JobSubmission) : option (list JobPosting) :=
  let job_text :=
    (submitted_title job_data ++ " " ++ submitted_description job_data
     ++ " " ++ join " " (submitted_requirements job_data))%string in
  let embedding := encode job_text in
  let job :=
    {| id := new_id;
       employer_id := submitted_employer_id job_data;
       title := submitted_title job_data;
       company := submitted_company job_data;
       description := submitted_description job_data;
       requirements := submitted_requirements job_data;
       location := submitted_location job_data;
       salary_range := submitted_salary_range job_data;
       job_type := submitted_job_type job_data;
       embedding := Some embedding |} in
  let jobs := load_jobs file in
  Some (jobs ++ [job]).

Definition match_jobs (file : option (list JobPosting))
           (request : JobMatchRequest) : MatchResponse :=
  let jobs := load_jobs file in
  match jobs with
  | [] => {| matches := [];
             message := Some "No jobs available";
             total_jobs_considered := None |}
  | _ :: _ =>
      let jobs := filter_excluded (exclude_employer_id request) jobs in
      let resume_embedding := encode (resume_text request) in
      let matches := similarities resume_embedding jobs in
      let matches := sort_desc similarity_score float_lt matches in
      {| matches := slice_to matches (top_k request);
         message := None;
         total_jobs_considered := Some (List.length jobs) |}
  end.

Definition get_job_insights (file : option (list JobPosting)) : JobInsight :=
  let jobs := load_jobs file in
  match jobs with
  | [] => {| total_jobs := 0;
             top_companies := [];
             popular_skills := [];
             job_types := [];
             locations := [] |}
  | _ :: _ =>
      let company_counts := fold_left count_one (map company jobs) [] in
      let top_companies :=
        map fst (slice_to (sort_desc snd Nat.ltb company_counts) 10) in
      let all_skills :=
        flat_map (fun job => extract_skills_from_job (description job)
                                                     (requirements job))
                 jobs in
      let skill_counts := fold_left count_one all_skills [] in
      let popular_skills :=
        map fst (slice_to (sort_desc snd Nat.ltb skill_counts) 10) in
      let job_types := fold_left count_one (map job_type jobs) [] in
      let locations := slice_to (list_of_set (map location jobs)) 10 in
      {| total_jobs := List.length jobs;
         top_companies := top_companies;
         popular_skills := popular_skills;
         job_types := job_types;
         locations := locations |}
  end.
End WithModel.

End JobServer.

(* ================================================================== *)
(** ** aggregator_server.py *)

Module Aggregator.

Record ChatQuery := {
  user_id : string;
  user_type : string;
  query : string;
  context : option (dict string)
}.

(** What [call_resume_server] and [call_job_server] hand back: the JSON
    object of the endpoint, or an object of another shape (the
    [{"error": ...}] of a failed call, a validation error), which has none
    of the endpoint's keys. *)
Inductive reply (A : Type) : Type :=
| Json (body : A)
| Other (body : string).

Arguments Json {A} body.
Arguments Other {A} body.

(** The [data] field of a [ChatResponse]. *)
Inductive ChatData : Type :=
| JobMatches (job_matches : reply JobServer.MatchResponse)
| CandidateMatches (candidate_matches : reply ResumeServer.MatchResponse)
| SkillInsights (job_insights : reply JobServer.JobInsight)
                (resume_insights : reply ResumeServer.ResumeInsight)
| MarketInsights (job_insights : reply JobServer.JobInsight)
| TalentInsights (resume_insights : reply ResumeServer.ResumeInsight).

Record ChatResponse := {
  response : string;
  data : option ChatData;
  suggestions : list string
}.

(** The [{"intent": ..., "type": ...}] of the two parsers. *)
Record Intent := {
  intent : string;
  type : string
}.

Definition parse_job_seeker_query (query : string) : Intent :=
  let query_lower := lower query in
  if any_in ["job"; "position"; "role"; "opportunity"] query_lower then
    if any_in ["best"; "top"; "recommend"; "suitable"] query_lower then
      {| intent := "find_jobs"; type := "recommendation" |}
    else if any_in ["how many"; "count"] query_lower then
      {| intent := "job_stats"; type := "count" |}
    else
      {| intent := "general"; type := "help" |}
  else if any_in ["skill"; "improve"; "missing"; "gap"] query_lower then
    {| intent := "skill_analysis"; type := "improvement" |}
  else if any_in ["market"; "trend"; "popular"; "demand"] query_lower then
    {| intent := "market_insights"; type := "trends" |}
  else if any_in ["resume"; "cv"; "profile"] query_lower then
    {| intent := "resume_feedback"; type := "analysis" |}
  else
    {| intent := "general"; type := "help" |}.

Definition parse_employer_query (query : string) : Intent :=
  let query_lower := lower query in
  if any_in ["candidate"; "applicant"; "resume"] query_lower then
    if any_in ["best"; "top"; "recommend"; "suitable"] query_lower then
      {| intent := "find_candidates"; type := "recommendation" |}
    else if any_in ["how many"; "count"] query_lower then
      {| intent := "candidate_stats"; type := "count" |}
    else
      {| intent := "general"; type := "help" |}
  else if any_in ["skill"; "talent"; "expertise"] query_lower then
    {| intent := "skill_analysis"; type := "market" |}
  else if any_in ["job"; "position"; "posting"] query_lower then
    {| intent := "job_management"; type := "analysis" |}
  else
    {| intent := "general"; type := "help" |}.

(** The parser [handle_chat_query] runs for a user type, if any. *)
Definition route (user_type query : string) : option Intent :=
  if String.eqb user_type "job_seeker" then Some (parse_job_seeker_query query)
  else if String.eqb user_type "employer" then Some (parse_employer_query query)
  else None.

Definition default_response (user_type : string) : ChatResponse :=
  {| response := "I'm here to help! I can assist with job matching, skill analysis, and market insights. What would you like to know?";
     data := None;
     suggestions :=
       [ if String.eqb user_type "job_seeker"
         then "Find me suitable jobs" else "Show me qualified candidates";
         "Analyze market trends";
         "Get skill recommendations" ] |}.

Definition job_suggestions : list string :=
  ["Tell me more about the first job";
   "What skills should I improve?";
   "Show me remote opportunities"].

Definition no_job_suggestions : list string :=
  ["Upload my resume"; "View market trends"; "Get career advice"].

Definition candidate_suggestions : list string :=
  ["Show me more details about candidate 1";
   "Filter by specific skills";
   "View candidate portfolios"].

Definition no_candidate_suggestions : list string :=
  ["Post a new job"; "View talent market insights"; "Adjust job requirements"].

Section WithServers.
(** The two servers behind [call_resume_server] and [call_job_server],
    and the [:.2f] format of a float. *)
Variable match_candidates_endpoint :
  ResumeServer.MatchRequest -> reply ResumeServer.MatchResponse.
Variable match_jobs_endpoint :
  JobServer.JobMatchRequest -> reply JobServer.MatchResponse.
Variable resume_insights_endpoint : reply ResumeServer.ResumeInsight.
Variable job_insights_endpoint : reply JobServer.JobInsight.
Variable format_2f : Q -> string.

Definition job_lines (text : string) (numbered : nat * JobServer.Match)
  : string :=
  let (i, job) := numbered in
  (text
   ++ str_of_nat i ++ ". **" ++ JobServer.match_title job ++ "** at "
   ++ JobServer.match_company job ++ LF
   ++ "   📍 " ++ JobServer.match_location job ++ " | Match Score: "
   ++ format_2f (JobServer.similarity_score job) ++ LF
   ++ "   " ++ JobServer.description_snippet job ++ LF ++ LF)%string.

Definition candidate_lines (text : string)
           (numbered : nat * ResumeServer.Match) : string :=
  let (i, candidate) := numbered in
  (text
   ++ str_of_nat i ++ ". **" ++ ResumeServer.match_name candidate ++ "**" ++ LF
   ++ "   🎯 Match Score: "
   ++ format_2f (ResumeServer.similarity_score candidate) ++ LF
   ++ "   💼 Skills: "
   ++ join ", " (slice_to (ResumeServer.match_skills candidate) 4) ++ LF
   ++ "   📝 " ++ ResumeServer.experience_snippet candidate ++ LF ++ LF)%string.

Definition skill_line (text : string) (numbered : nat * string) : string :=
  let (i, skill) := numbered in
  (text ++ str_of_nat i ++ ". " ++ skill ++ LF)%string.

Definition level_line (text : string) (item : string * nat) : string :=
  let (level, count) := item in
  (text ++ "• " ++ level ++ ": " ++ str_of_nat count ++ " candidates" ++ LF)%string.

(** [query.context.get(key, "") if query.context else otherwise] *)
Definition context_get (q : ChatQuery) (key otherwise : string) : string :=
  match context q with
  | Some ((_ :: _) as c) => dict_get c key ""
  | _ => otherwise
  end.

Definition find_jobs (q : ChatQuery) : ChatResponse :=
  let resume_data :=
    match_candidates_endpoint
      {| ResumeServer.job_description := "general software development";
         ResumeServer.top_k := 5;
         ResumeServer.exclude_user_id := Some (user_id q) |} in
  let job_matches :=
    match_jobs_endpoint
      {| JobServer.resume_text := context_get q "resume_text" "";
         JobServer.top_k := 5;
         JobServer.exclude_employer_id := None |} in
  match job_matches with
  | Json body =>
      let found := JobServer.matches body in
      let response_text :=
        ("I found " ++ str_of_nat (List.length found)
         ++ " great job opportunities for you:" ++ LF ++ LF)%string in
      {| response :=
           fold_left job_lines (enumerate 1 (slice_to found 3)) response_text;
         data := Some (JobMatches job_matches);
         suggestions := job_suggestions |}
  | Other _ =>
      {| response := "I couldn't find any job matches right now. Try uploading your resume first!";
         data := None;
         suggestions := no_job_suggestions |}
  end.

Definition find_candidates (q : ChatQuery) : ChatResponse :=
  let job_context := context_get q "job_description" "software developer" in
  let candidate_matches :=
    match_candidates_endpoint
      {| ResumeServer.job_description := job_context;
         ResumeServer.top_k := 5;
         ResumeServer.exclude_user_id := Some (user_id q) |} in
  match candidate_matches with
  | Json body =>
      let found := ResumeServer.matches body in
      let response_text :=
        ("I found " ++ str_of_nat (List.length found)
         ++ " qualified candidates:" ++ LF ++ LF)%string in
      {| response :=
           fold_left candidate_lines (enumerate 1 (slice_to found 3))
                     response_text;
         data := Some (CandidateMatches candidate_matches);
         suggestions := candidate_suggestions |}
  | Other _ =>
      {| response := "No matching candidates found. Try posting a job description first!";
         data := None;
         suggestions := no_candidate_suggestions |}
  end.

Definition seeker_skill_analysis : ChatResponse :=
  let job_insights := job_insights_endpoint in
  let resume_insights := resume_insights_endpoint in
  let response_text :=
    ("Based on current market trends, here are the most in-demand skills:"
     ++ LF ++ LF)%string in
  let response_text :=
    match job_insights with
    | Json body =>
        fold_left skill_line
                  (enumerate 1 (slice_to (JobServer.popular_skills body) 5))
                  response_text
    | Other _ => response_text
    end in
  let response_text :=
    (response_text ++ LF
     ++ "Consider developing these skills to improve your job prospects!")%string in
  {| response := response_text;
     data := Some (SkillInsights job_insights resume_insights);
     suggestions :=
       ["Find jobs requiring these skills";
        "Show me learning resources";
        "Analyze my current skills"] |}.

Definition market_insights : ChatResponse :=
  let job_insights := job_insights_endpoint in
  let total_jobs :=
    match job_insights with
    | Json body => JobServer.total_jobs body
    | Other _ => 0
    end in
  let top_companies :=
    match job_insights with
    | Json body => JobServer.top_companies body
    | Other _ => []
    end in
  let locations :=
    match job_insights with
    | Json body => JobServer.locations body
    | Other _ => []
    end in
  {| response :=
       ("📊 **Current Job Market Overview:**" ++ LF ++ LF
        ++ "• Total active positions: " ++ str_of_nat total_jobs ++ LF
        ++ "• Top hiring companies: "
        ++ join ", " (slice_to top_companies 3) ++ LF
        ++ "• Popular locations: "
        ++ join ", " (slice_to locations 3) ++ LF)%string;
     data := Some (MarketInsights job_insights);
     suggestions :=
       ["Show me jobs at top companies";
        "Find remote opportunities";
        "What skills are trending?"] |}.

Definition employer_skill_analysis : ChatResponse :=
  let resume_insights := resume_insights_endpoint in
  let response_text := ("📈 **Talent Pool Analysis:**" ++ LF ++ LF)%string in
  let response_text :=
    match resume_insights with
    | Json body =>
        fold_left skill_line
                  (enumerate 1 (slice_to (ResumeServer.top_skills body) 5))
                  (response_text
                   ++ "Most common skills in candidate pool:" ++ LF)%string
    | Other _ => response_text
    end in
  let response_text :=
    match resume_insights with
    | Json body =>
        fold_left level_line (ResumeServer.experience_levels body)
                  (response_text ++ LF
                   ++ "**Experience Distribution:**" ++ LF)%string
    | Other _ => response_text
    end in
  {| response := response_text;
     data := Some (TalentInsights resume_insights);
     suggestions :=
       ["Find candidates with specific skills";
        "Post job for entry-level candidates";
        "View market salary trends"] |}.

Definition handle_chat_query (q : ChatQuery) : ChatResponse :=
  if String.eqb (user_type q) "job_seeker" then
    let intent_data := parse_job_seeker_query (query q) in
    if String.eqb (intent intent_data) "find_jobs" then find_jobs q
    else if String.eqb (intent intent_data) "skill_analysis" then
      seeker_skill_analysis
    else if String.eqb (intent intent_data) "market_insights" then
      market_insights
    else default_response (user_type q)
  else if String.eqb (user_type q) "employer" then
    let intent_data := parse_employer_query (query q) in
    if String.eqb (intent intent_data) "find_candidates" then
      find_candidates q
    else if String.eqb (intent intent_data) "skill_analysis" then
      employer_skill_analysis
    else default_response (user_type q)
  else default_response (user_type q).
End WithServers.

End Aggregator.

(* ================================================================== *)
(** ** mcp_client.py: the mock authentication and workflow services *)

Module Client.

(** An entry of [MockAuth.users]. *)
Record User := {
  user_id : string;
  email : string;
  password : string;
  user_type : string;
  created_at : string
}.

(** An entry of [MockAuth.sessions], also the ["user"] of a login. *)
Record Session := {
  session_user_id : string;
  session_email : string;
  session_user_type : string
}.

Record MockAuth := {
  users : dict User;
  sessions : dict Session
}.

(** [MockAuth()] *)
Definition new_auth : MockAuth := {| users := []; sessions := [] |}.

Inductive RegisterResult : Type :=
| Registered (user_id : string)
| NotRegistered (error : string).

Inductive LoginResult : Type :=
| LoggedIn (session_token : string) (user : Session)
| NotLoggedIn (error : string).

Inductive SessionResult : Type :=
| ValidSession (user : Session)
| NoSession (error : string).

Definition register_user (self : MockAuth) (email password user_type : string)
  : MockAuth * RegisterResult :=
  if dict_mem (users self) email then
    (self, NotRegistered "User already exists")
  else
    let user_id := ("user_" ++ str_of_nat (List.length (users self) + 1))%string in
    ({| users :=
          dict_set (users self) email
                   {| user_id := user_id;
                      email := email;
                      password := password;
                      user_type := user_type;
                      created_at := "2024-01-01" |};
        sessions := sessions self |},
     Registered user_id).

Definition login_user (self : MockAuth) (email password : string)
  : MockAuth * LoginResult :=
  match dict_find (users self) email with
  | None => (self, NotLoggedIn "User not found")
  | Some user =>
      if negb (String.eqb (Client.password user) password) then
        (self, NotLoggedIn "Invalid password")
      else
        let session_token :=
          ("session_" ++ user_id user ++ "_"
           ++ str_of_nat (List.length (sessions self)))%string in
        let session :=
          {| session_user_id := user_id user;
             session_email := email;
             session_user_type := Client.user_type user |} in
        ({| users := users self;
            sessions := dict_set (sessions self) session_token session |},
         LoggedIn session_token session)
  end.

Definition validate_session (self : MockAuth) (session_token : string)
  : SessionResult :=
  match dict_find (sessions self) session_token with
  | Some user => ValidSession user
  | None => NoSession "Invalid session"
  end.

(** An entry of [MockWorkflowOrchestrator.workflows]; a step is a dict. *)
Record Workflow := {
  workflow_name : string;
  steps : list (dict string);
  workflow_created_at : string
}.

Record StepResult := {
  step_name : string;
  status : string;
  output : string
}.

Record ExecutionRecord := {
  execution_id : string;
  workflow_id : string;
  input_data : dict string;
  results : list StepResult;
  execution_status : string;
  executed_at : string
}.

Record MockWorkflowOrchestrator := {
  workflows : dict Workflow;
  execution_history : list ExecutionRecord
}.

(** [MockWorkflowOrchestrator()] *)
Definition new_orchestrator : MockWorkflowOrchestrator :=
  {| workflows := []; execution_history := [] |}.

Definition create_workflow (self : MockWorkflowOrchestrator) (name : string)
           (steps : list (dict string)) : MockWorkflowOrchestrator * string :=
  let workflow_id :=
    ("workflow_" ++ str_of_nat (List.length (workflows self) + 1))%string in
  ({| workflows :=
        dict_set (workflows self) workflow_id
                 {| workflow_name := name;
                    steps := steps;
                    workflow_created_at := "2024-01-01" |};
      execution_history := execution_history self |},
   workflow_id).

Inductive ExecutionResult : Type :=
| Executed (execution_id : string) (results : list StepResult)
| NotExecuted (error : string)
| KeyError (key : string).

(** The loop over the steps: [None] when a step has no ["name"], where
    [step["name"]] raises. *)
Fixpoint mock_results (steps : list (dict string)) : option (list StepResult) :=
  match steps with
  | [] => Some []
  | step :: steps' =>
      match dict_find step "name" with
      | None => None
      | Some name =>
          match mock_results steps' with
          | None => None
          | Some results =>
              Some ({| step_name := name;
                       status := "completed";
                       output := ("Mock output for " ++ name)%string |}
                      :: results)
          end
      end
  end.

Definition execute_workflow (self : MockWorkflowOrchestrator)
           (workflow_id : string) (input_data : dict string)
  : MockWorkflowOrchestrator * ExecutionResult :=
  match dict_find (workflows self) workflow_id with
  | None => (self, NotExecuted "Workflow not found")
  | Some workflow =>
      let execution_id :=
        ("exec_" ++ str_of_nat (List.length (execution_history self) + 1))%string in
      match mock_results (steps workflow) with
      | None => (self, KeyError "name")
      | Some results =>
          let execution_record :=
            {| execution_id := execution_id;
               Client.workflow_id := workflow_id;
               Client.input_data := input_data;
               Client.results := results;
               execution_status := "completed";
               executed_at := "2024-01-01" |} in
          ({| workflows := workflows self;
              execution_history := execution_history self ++ [execution_record] |},
           Executed execution_id results)
      end
  end.

End Client.

(* ================================================================== *)
(** ** The three servers wired together *)

Module System.

(** The two data files. *)
Record Stores := {
  resumes_file : option (list ResumeServer.Resume);
  jobs_file : option (list JobServer.JobPosting)
}.

Section WithModel.
Variable encode : string -> list Q.
Variable cosine_similarity : list Q -> list Q -> Q.
Variable list_of_set : list string -> list string.
Variable format_2f : Q -> string.

(** [/chat] when both providers answer. *)
Definition chat (st : Stores) (q : Aggregator.ChatQuery)
  : Aggregator.ChatResponse :=
  Aggregator.handle_chat_query
    (fun request =>
       Aggregator.Json
         (ResumeServer.match_candidates encode cosine_similarity
                                        (resumes_file st) request))
    (fun request =>
       Aggregator.Json
         (JobServer.match_jobs encode cosine_similarity
                               (jobs_file st) request))
    (Aggregator.Json
       (ResumeServer.get_resume_insights list_of_set (resumes_file st)))
    (Aggregator.Json
       (JobServer.get_job_insights list_of_set (jobs_file st)))
    format_2f q.
End WithModel.

End System.

(* ================================================================== *)
(** ** Order of occurrence in a list *)

(** [Before x y l]: an occurrence of [x] in [l] comes before one of [y]. *)
Definition Before {A : Type} (x y : A) (l : list A) : Prop :=
  exists l1 l2 l3, l = l1 ++ x :: l2 ++ y :: l3.

(** [from_resume cos q r m]: the entry [m] is the one the similarity loop
    builds from the resume [r]; likewise [from_job]. *)
Definition from_resume (cosine_similarity : list Q -> list Q -> Q)
           (job_embedding : list Q) (r : ResumeServer.Resume)
           (m : ResumeServer.Match) : Prop :=
  exists e, ResumeServer.embedding r = Some e
            /\ m = ResumeServer.mk_match cosine_similarity job_embedding r e.

Definition from_job (cosine_similarity : list Q -> list Q -> Q)
           (resume_embedding : list Q) (j : JobServer.JobPosting)
           (m : JobServer.Match) : Prop :=
  exists e, JobServer.embedding j = Some e
            /\ m = JobServer.mk_match cosine_similarity resume_embedding j e.

(* ================================================================== *)
(** ** Sample data *)

Module Sample.

(** A stand-in model: every text embeds to the same unit vector, and the
    similarity of two vectors is their inner product. *)
Definition encode (text : string) : list Q := [1%Q].

Definition cosine_similarity (u v : list Q) : Q :=
  fold_right (fun p acc => (fst p * snd p + acc)%Q) 0%Q (combine u v).

Definition list_of_set (l : list string) : list string :=
  nodup string_dec l.

Definition resume (rid owner who exp : string) (emb : option (list Q))
  : ResumeServer.Resume :=
  {| ResumeServer.id := rid;
     ResumeServer.user_id := owner;
     ResumeServer.name := who;
     ResumeServer.email := "";
     ResumeServer.skills := ["Python"; "SQL"];
     ResumeServer.experience := exp;
     ResumeServer.education := "BSc Computer Science";
     ResumeServer.raw_text := exp;
     ResumeServer.embedding := emb |}.

Definition alice := resume "r1" "u1" "Alice" "Senior engineer" (Some [1%Q]).
Definition bob := resume "r2" "u2" "Bob" "3 years of experience" (Some [(1#2)%Q]).
Definition carol := resume "r3" "u3" "Carol" "Summer intern" None.
Definition dana := resume "r4" "" "Dana" "Team lead" (Some [1%Q]).

Definition job (jid owner what : string) (emb : option (list Q))
  : JobServer.JobPosting :=
  {| JobServer.id := jid;
     JobServer.employer_id := owner;
     JobServer.title := what;
     JobServer.company := "Acme";
     JobServer.description := "Python and SQL";
     JobServer.requirements := ["python"; "sql"];
     JobServer.location := "Remote";
     JobServer.salary_range := None;
     JobServer.job_type := "Full-time";
     JobServer.embedding := emb |}.

Definition backend := job "j1" "e1" "Backend Engineer" (Some [1%Q]).
Definition analyst := job "j2" "e2" "Data Analyst" (Some [(1#2)%Q]).
Definition draft := job "j3" "e3" "Draft posting" None.
Definition orphan := job "j4" "" "Orphan posting" (Some [1%Q]).

Definition candidates_request (k : Z) (excluded : option string)
  : ResumeServer.MatchRequest :=
  {| ResumeServer.job_description := "backend engineer";
     ResumeServer.top_k := k;
     ResumeServer.exclude_user_id := excluded |}.

Definition jobs_request (k : Z) (excluded : option string)
  : JobServer.JobMatchRequest :=
  {| JobServer.resume_text := "python developer";
     JobServer.top_k := k;
     JobServer.exclude_employer_id := excluded |}.

End Sample.

(* ================================================================== *)
(** * Properties *)

(** ** Lists, slices and the stable sort *)

Section ListFacts.
Context {A : Type}.

Lemma slice_to_prefix (l : list A) (k : Z) :
  exists n, slice_to l k = firstn n l.
Proof. unfold slice_to; destruct (k <? 0)%Z; eauto. Qed.

Lemma slice_to_zero (l : list A) : slice_to l 0 = [].
Proof. reflexivity. Qed.

Lemma slice_to_nil (k : Z) : slice_to (@nil A) k = [].
Proof.
  destruct (slice_to_prefix [] k) as [n ->]; apply firstn_nil.
Qed.

Lemma length_slice_to (l : list A) (k : Z) :
  List.length (slice_to l k)
  = if (k <? 0)%Z
    then Z.to_nat (Z.of_nat (List.length l) + k)
    else Nat.min (Z.to_nat k) (List.length l).
Proof.
  unfold slice_to; destruct (k <? 0)%Z eqn:E; rewrite length_firstn; auto.
  apply Z.ltb_lt in E; lia.
Qed.

Lemma In_firstn (n : nat) (l : list A) (x : A) :
  In x (firstn n l) -> In x l.
Proof.
  intros H; rewrite <- (firstn_skipn n l); apply in_or_app; now left.
Qed.

Lemma In_slice_to (l : list A) (k : Z) (x : A) :
  In x (slice_to l k) -> In x l.
Proof.
  destruct (slice_to_prefix l k) as [n ->]; apply In_firstn.
Qed.

Lemma Before_cons (x y a : A) (l : list A) :
  Before x y (a :: l) <-> (a = x /\ In y l) \/ Before x y l.
Proof.
  split.
  - intros (l1 & l2 & l3 & E); destruct l1 as [|a' l1]; simpl in E.
    + injection E as -> ->; left; split; auto.
      apply in_or_app; right; now left.
    + injection E as -> ->; right; now exists l1, l2, l3.
  - intros [[-> Hy] | (l1 & l2 & l3 & ->)].
    + apply in_split in Hy as (l2 & l3 & ->); now exists [], l2, l3.
    + now exists (a :: l1), l2, l3.
Qed.

Lemma Before_nil (x y : A) : ~ Before x y [].
Proof. intros (l1 & l2 & l3 & E); now destruct l1. Qed.

Lemma Before_app_l (x y : A) (l l' : list A) :
  Before x y l -> Before x y (l ++ l').
Proof.
  intros (l1 & l2 & l3 & ->); exists l1, l2, (l3 ++ l').
  now rewrite <- !app_assoc, <- !app_comm_cons, <- app_assoc.
Qed.

Lemma Before_firstn (x y : A) (n : nat) (l : list A) :
  Before x y (firstn n l) -> Before x y l.
Proof.
  intros H; rewrite <- (firstn_skipn n l); now apply Before_app_l.
Qed.

Lemma Before_slice_to (x y : A) (l : list A) (k : Z) :
  Before x y (slice_to l k) -> Before x y l.
Proof.
  destruct (slice_to_prefix l k) as [n ->]; apply Before_firstn.
Qed.

Lemma Before_last (x y : A) (l : list A) :
  In x l -> Before x y (l ++ [y]).
Proof.
  intros H; apply in_split in H as (l1 & l2 & ->).
  exists l1, l2, []; now rewrite <- app_assoc.
Qed.

Lemma Before_kept (p : A -> bool) (x y : A) (l : list A) :
  Before x y l -> p x = true -> p y = true -> Before x y (filter p l).
Proof.
  intros (l1 & l2 & l3 & ->) Hx Hy.
  exists (filter p l1), (filter p l2), (filter p l3).
  rewrite filter_app; simpl; rewrite Hx, filter_app; simpl; now rewrite Hy.
Qed.

Lemma Before_filter (p : A -> bool) (x y : A) (l : list A) :
  Before x y (filter p l) -> Before x y l.
Proof.
  induction l as [|a l IH]; simpl; [easy|].
  destruct (p a); rewrite !Before_cons.
  - intros [[-> Hy] | H]; [left | right; auto].
    split; auto; now apply filter_In in Hy.
  - intros H; right; auto.
Qed.

End ListFacts.

Section LoopFacts.
Context {A B : Type}.

Lemma loop_append (f : A -> list B) (l : list A) (init : list B) :
  fold_left (fun acc x => acc ++ f x) l init = init ++ flat_map f l.
Proof.
  revert init; induction l as [|a l IH]; intros init; simpl.
  - now rewrite app_nil_r.
  - now rewrite IH, app_assoc.
Qed.

Lemma flat_map_nil (f : A -> list B) (l : list A) :
  (forall x, In x l -> f x = []) -> flat_map f l = [].
Proof.
  induction l as [|a l IH]; simpl; intros H; auto.
  rewrite H, IH; auto.
Qed.

(** A loop body that appends at most one entry per element keeps the
    elements' order. *)
Lemma Before_flat_map (f : A -> list B) (x y : B) (l : list A) :
  (forall a, List.length (f a) <= 1) ->
  Before x y (flat_map f l) ->
  exists a b, Before a b l /\ In x (f a) /\ In y (f b).
Proof.
  intros Hf; induction l as [|a l IH]; simpl.
  - intros H; destruct (Before_nil _ _ H).
  - specialize (Hf a) as Ha; destruct (f a) as [|b [|c t]] eqn:E.
    + simpl; intros H; destruct (IH H) as (a1 & a2 & H12 & H1 & H2).
      exists a1, a2; split; auto; apply Before_cons; now right.
    + simpl; rewrite Before_cons; intros [[-> Hy] | H].
      * apply in_flat_map in Hy as (a2 & Hin & Hy).
        exists a, a2; rewrite E; repeat split; simpl; auto.
        apply Before_cons; left; auto.
      * destruct (IH H) as (a1 & a2 & H12 & H1 & H2).
        exists a1, a2; split; auto; apply Before_cons; now right.
    + simpl in Ha; lia.
Qed.
End LoopFacts.

Section SortFacts.
Context {A K : Type} (key : A -> K) (lt : K -> K -> bool).

(** [ge a b]: the key of [a] is not below the key of [b]. *)
Definition ge (a b : A) : Prop := lt (key a) (key b) = false.

Lemma In_insert_desc (a x : A) (l : list A) :
  In x (insert_desc key lt a l) <-> x = a \/ In x l.
Proof.
  induction l as [|b l IH]; simpl.
  - intuition.
  - destruct (lt (key a) (key b)); simpl; rewrite ?IH; intuition.
Qed.

Lemma In_sort_desc (x : A) (l : list A) :
  In x (sort_desc key lt l) <-> In x l.
Proof.
  induction l as [|a l IH]; simpl; [tauto|].
  rewrite In_insert_desc, IH; intuition.
Qed.

Lemma length_insert_desc (a : A) (l : list A) :
  List.length (insert_desc key lt a l) = S (List.length l).
Proof.
  induction l as [|b l IH]; simpl; auto.
  destruct (lt (key a) (key b)); simpl; auto.
Qed.

Lemma length_sort_desc (l : list A) :
  List.length (sort_desc key lt l) = List.length l.
Proof.
  induction l as [|a l IH]; simpl; auto.
  now rewrite length_insert_desc, IH.
Qed.

(** Where an element lands relative to the others when it is inserted. *)
Lemma Before_insert_desc (x y a : A) (l : list A) :
  Before x y (insert_desc key lt a l) ->
  Before x y l
  \/ (x = a /\ In y l)
  \/ (y = a /\ In x l /\ lt (key a) (key x) = true).
Proof.
  induction l as [|b l IH]; simpl.
  - rewrite Before_cons; intros [[_ []] | H]; destruct (Before_nil _ _ H).
  - destruct (lt (key a) (key b)) eqn:E; rewrite Before_cons.
    + intros [[-> Hy] | H].
      * apply In_insert_desc in Hy as [-> | Hy].
        -- right; right; simpl; auto.
        -- left; apply Before_cons; auto.
      * destruct (IH H) as [H' | [[-> Hy] | (-> & Hx & Hlt)]].
        -- left; apply Before_cons; auto.
        -- right; left; simpl; auto.
        -- right; right; simpl; auto.
    + intros [[-> Hy] | H]; auto.
Qed.

(** Stability: two entries that the sort leaves in the order [x], [y]
    although the key of [y] is not below the key of [x] were already in
    that order. *)
Lemma Before_sort_desc (x y : A) (l : list A) :
  Before x y (sort_desc key lt l) ->
  lt (key y) (key x) = false ->
  Before x y l.
Proof.
  intros H Hxy; induction l as [|a l IH]; auto.
  change (Before x y (insert_desc key lt a (sort_desc key lt l))) in H.
  apply Before_insert_desc in H as [H | [[-> Hy] | (-> & _ & Hlt)]].
  - apply Before_cons; auto.
  - apply Before_cons; left; split; auto; now apply In_sort_desc.
  - congruence.
Qed.

Section Ordered.
Hypothesis lt_asym : forall x y, lt x y = true -> lt y x = false.
Hypothesis lt_negtrans :
  forall x y z, lt x y = false -> lt y z = false -> lt x z = false.

Lemma insert_desc_sorted (a : A) (l : list A) :
  StronglySorted ge l -> StronglySorted ge (insert_desc key lt a l).
Proof.
  induction 1 as [|b l Hs IH Hb]; simpl.
  - repeat constructor.
  - destruct (lt (key a) (key b)) eqn:E.
    + constructor; auto.
      apply Forall_forall; intros z Hz.
      apply In_insert_desc in Hz as [-> | Hz].
      * now apply lt_asym.
      * rewrite Forall_forall in Hb; auto.
    + constructor; [now constructor|].
      constructor; auto.
      eapply Forall_impl; [|exact Hb].
      intros z Hz; unfold ge in *; eauto.
Qed.

Lemma sort_desc_sorted (l : list A) :
  StronglySorted ge (sort_desc key lt l).
Proof.
  induction l as [|a l IH]; simpl; [constructor|].
  now apply insert_desc_sorted.
Qed.
End Ordered.
End SortFacts.

Lemma StronglySorted_firstn {A : Type} (R : A -> A -> Prop) (n : nat)
      (l : list A) :
  StronglySorted R l -> StronglySorted R (firstn n l).
Proof.
  intros H; revert n; induction H as [|a l Hs IH Ha]; intros [|n]; simpl;
    try constructor; auto.
  apply Forall_forall; intros x Hx; apply In_firstn in Hx.
  rewrite Forall_forall in Ha; auto.
Qed.

Lemma StronglySorted_slice_to {A : Type} (R : A -> A -> Prop) (l : list A)
      (k : Z) :
  StronglySorted R l -> StronglySorted R (slice_to l k).
Proof.
  destruct (slice_to_prefix l k) as [n ->]; apply StronglySorted_firstn.
Qed.

(** ** The order of floats *)

Lemma float_lt_false (x y : Q) : float_lt x y = false <-> (y <= x)%Q.
Proof.
  unfold float_lt; rewrite negb_false_iff; apply Qle_bool_iff.
Qed.

Lemma float_lt_asym (x y : Q) : float_lt x y = true -> float_lt y x = false.
Proof.
  intros H; apply float_lt_false.
  destruct (Qlt_le_dec y x) as [Hlt | Hle]; auto.
  apply Qlt_le_weak, float_lt_false in Hlt; congruence.
Qed.

Lemma float_lt_negtrans (x y z : Q) :
  float_lt x y = false -> float_lt y z = false -> float_lt x z = false.
Proof.
  rewrite !float_lt_false; intros H1 H2; now apply Qle_trans with y.
Qed.

Lemma float_lt_eq (x y : Q) : (x == y)%Q -> float_lt y x = false.
Proof.
  intros H; apply float_lt_false; rewrite H; apply Qle_refl.
Qed.

(** ** The match endpoints, step by step *)

Section ResumeMatchFacts.
Import ResumeServer.
Variable encode : string -> list Q.
Variable cosine_similarity : list Q -> list Q -> Q.

Lemma resume_scored_length (q : list Q) (r : Resume) :
  List.length (scored cosine_similarity q r) <= 1.
Proof. unfold scored; destruct (embedding r) as [[|]|]; simpl; lia. Qed.

Lemma resume_scored_from (q : list Q) (r : Resume) (m : Match) :
  In m (scored cosine_similarity q r) -> from_resume cosine_similarity q r m.
Proof.
  unfold scored, from_resume; destruct (embedding r) as [[|x e]|]; simpl;
    try tauto.
  intros [<- | []]; eexists; split; reflexivity.
Qed.

Lemma resume_scored_absent (q : list Q) (r : Resume) :
  embedding r = None \/ embedding r = Some [] ->
  scored cosine_similarity q r = [].
Proof. unfold scored; intros [-> | ->]; reflexivity. Qed.

Lemma resume_similarities (q : list Q) (resumes : list Resume) :
  similarities cosine_similarity q resumes
  = flat_map (scored cosine_similarity q) resumes.
Proof. unfold similarities; now rewrite loop_append. Qed.

Lemma match_candidates_empty (file : option (list Resume))
      (request : MatchRequest) :
  load_resumes file = [] ->
  match_candidates encode cosine_similarity file request
  = {| matches := [];
       message := Some "No resumes available";
       total_candidates := None |}.
Proof. unfold match_candidates; now intros ->. Qed.

Lemma match_candidates_nonempty (file : option (list Resume))
      (request : MatchRequest) :
  load_resumes file <> [] ->
  let considered :=
    filter_excluded (exclude_user_id request) (load_resumes file) in
  match_candidates encode cosine_similarity file request
  = {| matches :=
         slice_to
           (sort_desc similarity_score float_lt
              (flat_map
                 (scored cosine_similarity (encode (job_description request)))
                 considered))
           (top_k request);
       message := None;
       total_candidates := Some (List.length considered) |}.
Proof.
  unfold match_candidates; destruct (load_resumes file) as [|r l]; [easy|].
  intros _; simpl; now rewrite resume_similarities.
Qed.

Lemma filter_excluded_nil (x : option string) : filter_excluded x [] = [].
Proof. unfold filter_excluded; now destruct (truthy x). Qed.

Lemma match_candidates_matches (file : option (list Resume))
      (request : MatchRequest) :
  matches (match_candidates encode cosine_similarity file request)
  = slice_to
      (sort_desc similarity_score float_lt
         (flat_map
            (scored cosine_similarity (encode (job_description request)))
            (filter_excluded (exclude_user_id request) (load_resumes file))))
      (top_k request).
Proof.
  destruct (load_resumes file) as [|r l] eqn:E.
  - rewrite match_candidates_empty, filter_excluded_nil by auto; simpl.
    now rewrite slice_to_nil.
  - rewrite match_candidates_nonempty, E by (rewrite E; easy); reflexivity.
Qed.

Lemma Before_filter_excluded (x : option string) (r1 r2 : Resume)
      (l : list Resume) :
  Before r1 r2 (filter_excluded x l) -> Before r1 r2 l.
Proof.
  unfold filter_excluded, without_user; destruct (truthy x); auto.
  apply Before_filter.
Qed.

Lemma In_filter_excluded (x : string) (r : Resume) (l : list Resume) :
  x <> "" ->
  In r (filter_excluded (Some x) l) <-> In r l /\ user_id r <> x.
Proof.
  intros Hx; unfold filter_excluded, without_user.
  destruct x as [|c x]; [easy|]; simpl truthy; cbv iota.
  rewrite filter_In, negb_true_iff, String.eqb_neq; tauto.
Qed.
End ResumeMatchFacts.

Section JobMatchFacts.
Import JobServer.
Variable encode : string -> list Q.
Variable cosine_similarity : list Q -> list Q -> Q.

Lemma job_scored_length (q : list Q) (j : JobPosting) :
  List.length (scored cosine_similarity q j) <= 1.
Proof. unfold scored; destruct (embedding j) as [[|]|]; simpl; lia. Qed.

Lemma job_scored_from (q : list Q) (j : JobPosting) (m : Match) :
  In m (scored cosine_similarity q j) -> from_job cosine_similarity q j m.
Proof.
  unfold scored, from_job; destruct (embedding j) as [[|x e]|]; simpl;
    try tauto.
  intros [<- | []]; eexists; split; reflexivity.
Qed.

Lemma job_scored_absent (q : list Q) (j : JobPosting) :
  embedding j = None \/ embedding j = Some [] ->
  scored cosine_similarity q j = [].
Proof. unfold scored; intros [-> | ->]; reflexivity. Qed.

Lemma job_similarities (q : list Q) (jobs : list JobPosting) :
  similarities cosine_similarity q jobs
  = flat_map (scored cosine_similarity q) jobs.
Proof. unfold similarities; now rewrite loop_append. Qed.

Lemma match_jobs_empty (file : option (list JobPosting))
      (request : JobMatchRequest) :
  load_jobs file = [] ->
  match_jobs encode cosine_similarity file request
  = {| matches := [];
       message := Some "No jobs available";
       total_jobs_considered := None |}.
Proof. unfold match_jobs; now intros ->. Qed.

Lemma match_jobs_nonempty (file : option (list JobPosting))
      (request : JobMatchRequest) :
  load_jobs file <> [] ->
  let considered :=
    filter_excluded (exclude_employer_id request) (load_jobs file) in
  match_jobs encode cosine_similarity file request
  = {| matches :=
         slice_to
           (sort_desc similarity_score float_lt
              (flat_map
                 (scored cosine_similarity (encode (resume_text request)))
                 considered))
           (top_k request);
       message := None;
       total_jobs_considered := Some (List.length considered) |}.
Proof.
  unfold match_jobs; destruct (load_jobs file) as [|j l]; [easy|].
  intros _; simpl; now rewrite job_similarities.
Qed.

Lemma job_filter_excluded_nil (x : option string) :
  filter_excluded x [] = [].
Proof. unfold filter_excluded; now destruct (truthy x). Qed.

Lemma match_jobs_matches (file : option (list JobPosting))
      (request : JobMatchRequest) :
  matches (match_jobs encode cosine_similarity file request)
  = slice_to
      (sort_desc similarity_score float_lt
         (flat_map
            (scored cosine_similarity (encode (resume_text request)))
            (filter_excluded (exclude_employer_id request) (load_jobs file))))
      (top_k request).
Proof.
  destruct (load_jobs file) as [|j l] eqn:E.
  - rewrite match_jobs_empty, job_filter_excluded_nil by auto; simpl.
    now rewrite slice_to_nil.
  - rewrite match_jobs_nonempty, E by (rewrite E; easy); reflexivity.
Qed.

Lemma Before_job_filter_excluded (x : option string) (j1 j2 : JobPosting)
      (l : list JobPosting) :
  Before j1 j2 (filter_excluded x l) -> Before j1 j2 l.
Proof.
  unfold filter_excluded, without_employer; destruct (truthy x); auto.
  apply Before_filter.
Qed.

Lemma In_job_filter_excluded (x : string) (j : JobPosting)
      (l : list JobPosting) :
  x <> "" ->
  In j (filter_excluded (Some x) l) <-> In j l /\ employer_id j <> x.
Proof.
  intros Hx; unfold filter_excluded, without_employer.
  destruct x as [|c x]; [easy|]; simpl truthy; cbv iota.
  rewrite filter_In, negb_true_iff, String.eqb_neq; tauto.
Qed.
End JobMatchFacts.

(** ** Counting into a dict *)

Lemma dict_get_set {V : Type} (d : dict V) (k k' : string) (v default : V) :
  dict_get (dict_set d k v) k' default
  = if String.eqb k' k then v else dict_get d k' default.
Proof.
  induction d as [|[k0 v0] d IH]; simpl; auto.
  destruct (String.eqb k k0) eqn:E; simpl.
  - apply String.eqb_eq in E as ->; now destruct (String.eqb k' k0).
  - rewrite IH; destruct (String.eqb k' k0) eqn:E'; auto.
    apply String.eqb_eq in E' as ->.
    now rewrite String.eqb_sym, E.
Qed.

Lemma dict_total_incr (d : dict nat) (k : string) :
  dict_total (dict_incr d k) = S (dict_total d).
Proof.
  unfold dict_incr; induction d as [|[k0 v0] d IH]; simpl; auto.
  destruct (String.eqb k k0); simpl; lia.
Qed.

Lemma dict_keys_set {V : Type} (d : dict V) (k : string) (v : V) :
  In k (map fst d) -> map fst (dict_set d k v) = map fst d.
Proof.
  induction d as [|[k0 v0] d IH]; simpl; [easy|].
  destruct (String.eqb k k0) eqn:E; simpl; auto.
  intros [-> | H]; [now rewrite String.eqb_refl in E | now rewrite IH].
Qed.

Section Tally.
Context {A : Type} (bucket : A -> string).

(** The counting loop [for x in l: d[bucket(x)] += 1]. *)
Let tally (l : list A) (d : dict nat) : dict nat :=
  fold_left (fun d x => dict_incr d (bucket x)) l d.

Lemma tally_total (l : list A) (d : dict nat) :
  dict_total (tally l d) = dict_total d + List.length l.
Proof.
  subst tally; revert d; induction l as [|a l IH]; intros d; simpl; [lia|].
  rewrite IH, dict_total_incr; lia.
Qed.

Lemma tally_get (l : list A) (d : dict nat) (b : string) :
  dict_get (tally l d) b 0
  = dict_get d b 0
    + List.length (filter (fun x => String.eqb (bucket x) b) l).
Proof.
  subst tally; revert d; induction l as [|a l IH]; intros d; simpl; [lia|].
  rewrite IH; unfold dict_incr; rewrite dict_get_set, (String.eqb_sym b).
  destruct (String.eqb (bucket a) b) eqn:E; simpl; try lia.
  apply String.eqb_eq in E as ->; lia.
Qed.

Lemma tally_keys (l : list A) (d : dict nat) :
  (forall x, In x l -> In (bucket x) (map fst d)) ->
  map fst (tally l d) = map fst d.
Proof.
  subst tally; revert d; induction l as [|a l IH]; intros d H; simpl; auto.
  assert (E : map fst (dict_incr d (bucket a)) = map fst d)
    by (apply dict_keys_set, H; now left).
  rewrite IH, E; auto.
  intros x Hx; rewrite E; apply H; now right.
Qed.
End Tally.

Lemma experience_bucket_cases (r : ResumeServer.Resume) :
  In (ResumeServer.experience_bucket r) ["Entry"; "Mid"; "Senior"].
Proof.
  unfold ResumeServer.experience_bucket.
  destruct (any_in _ _); [simpl; auto|].
  destruct (any_in _ _ && _); simpl; auto.
Qed.

Section InsightFacts.
Variable list_of_set : list string -> list string.

Lemma resume_insights_nonempty (file : option (list ResumeServer.Resume)) :
  ResumeServer.load_resumes file <> [] ->
  let resumes := ResumeServer.load_resumes file in
  ResumeServer.total_resumes
    (ResumeServer.get_resume_insights list_of_set file)
  = List.length resumes
  /\ ResumeServer.experience_levels
       (ResumeServer.get_resume_insights list_of_set file)
     = fold_left (fun d r => dict_incr d (ResumeServer.experience_bucket r))
                 resumes [("Entry", 0); ("Mid", 0); ("Senior", 0)].
Proof.
  unfold ResumeServer.get_resume_insights.
  destruct (ResumeServer.load_resumes file); [easy|]; split; reflexivity.
Qed.

Lemma job_insights_nonempty (file : option (list JobServer.JobPosting)) :
  JobServer.load_jobs file <> [] ->
  let jobs := JobServer.load_jobs file in
  JobServer.total_jobs (JobServer.get_job_insights list_of_set file)
  = List.length jobs
  /\ JobServer.job_types (JobServer.get_job_insights list_of_set file)
     = fold_left (fun d j => dict_incr d (JobServer.job_type j)) jobs [].
Proof.
  unfold JobServer.get_job_insights.
  destruct (JobServer.load_jobs file) as [|j l]; [easy|]; split;
    [reflexivity|].
  cbv beta iota zeta; unfold JobServer.job_types.
  generalize (j :: l) (@nil (string * nat)); intros jobs.
  induction jobs as [|a jobs IH]; intros d; simpl; auto.
Qed.
End InsightFacts.

(** ** The order of a collection is the order of insertion *)

Lemma post_job_appends :
  forall (encode : string -> list Q) (file : option (list JobServer.JobPosting))
         (new_id : string) (job_data : JobServer.JobSubmission),
  exists job,
    JobServer.load_jobs (JobServer.post_job encode file new_id job_data)
    = JobServer.load_jobs file ++ [job]
    /\ JobServer.id job = new_id
    /\ forall older, In older (JobServer.load_jobs file) ->
         Before older job
                (JobServer.load_jobs
                   (JobServer.post_job encode file new_id job_data)).
Proof.
  intros; eexists; split; [reflexivity | split; [reflexivity |]].
  intros older H; now apply Before_last.
Qed.

Lemma post_job_keeps_order :
  forall (encode : string -> list Q) (file : option (list JobServer.JobPosting))
         (new_id : string) (job_data : JobServer.JobSubmission)
         (a b : JobServer.JobPosting),
    Before a b (JobServer.load_jobs file) ->
    Before a b (JobServer.load_jobs
                  (JobServer.post_job encode file new_id job_data)).
Proof. intros; now apply Before_app_l. Qed.

Lemma upload_resume_appends :
  forall (encode : string -> list Q)
         (file : option (list ResumeServer.Resume))
         (new_id user text : string) (parsed : ResumeServer.ParsedResume),
  exists resume,
    ResumeServer.load_resumes
      (ResumeServer.upload_resume encode file new_id user text parsed)
    = ResumeServer.without_user user (ResumeServer.load_resumes file)
      ++ [resume]
    /\ ResumeServer.id resume = new_id
    /\ ResumeServer.user_id resume = user
    /\ forall older,
         In older (ResumeServer.load_resumes file) ->
         ResumeServer.user_id older <> user ->
         Before older resume
                (ResumeServer.load_resumes
                   (ResumeServer.upload_resume encode file new_id user text
                                               parsed)).
Proof.
  intros; eexists; repeat split.
  intros older H Hne; apply Before_last, filter_In; split; auto.
  now apply negb_true_iff, String.eqb_neq.
Qed.

Lemma upload_resume_keeps_order :
  forall (encode : string -> list Q)
         (file : option (list ResumeServer.Resume))
         (new_id user text : string) (parsed : ResumeServer.ParsedResume)
         (a b : ResumeServer.Resume),
    Before a b (ResumeServer.load_resumes file) ->
    ResumeServer.user_id a <> user ->
    ResumeServer.user_id b <> user ->
    Before a b (ResumeServer.load_resumes
                  (ResumeServer.upload_resume encode file new_id user text
                                              parsed)).
Proof.
  intros encode file new_id user text parsed a b H Ha Hb.
  apply Before_app_l, Before_kept; auto;
    now apply negb_true_iff, String.eqb_neq.
Qed.

(* ================================================================== *)
(** * The claims *)

(** ** Matching engine *)

(** C1.  The code departs from the claim on a negative [top_k]: the slice
    [matches[:top_k]] then drops the last [|top_k|] ranked entries and keeps
    the others.  With two embedded records and [top_k = -1], whatever the
    model, [/match-candidates] and [/match-jobs] each return one entry, not
    the empty list. *)
Theorem negative_top_k_returns_entries :
  forall (encode : string -> list Q)
         (cosine_similarity : list Q -> list Q -> Q),
    List.length
      (ResumeServer.matches
         (ResumeServer.match_candidates encode cosine_similarity
            (Some [Sample.alice; Sample.bob])
            (Sample.candidates_request (-1) None))) = 1
    /\ List.length
         (JobServer.matches
            (JobServer.match_jobs encode cosine_similarity
               (Some [Sample.backend; Sample.analyst])
               (Sample.jobs_request (-1) None))) = 1.
Proof.
  intros encode cosine_similarity; split.
  - rewrite match_candidates_matches, length_slice_to, length_sort_desc.
    reflexivity.
  - rewrite match_jobs_matches, length_slice_to, length_sort_desc.
    reflexivity.
Qed.

(** With [top_k = 0] the result list is empty, on every store. *)
Lemma zero_top_k_returns_nothing :
  forall (encode : string -> list Q)
         (cosine_similarity : list Q -> list Q -> Q)
         (file : option (list ResumeServer.Resume))
         (jfile : option (list JobServer.JobPosting))
         (text : string) (excluded : option string),
    ResumeServer.matches
      (ResumeServer.match_candidates encode cosine_similarity file
         {| ResumeServer.job_description := text;
            ResumeServer.top_k := 0;
            ResumeServer.exclude_user_id := excluded |}) = []
    /\ JobServer.matches
         (JobServer.match_jobs encode cosine_similarity jfile
            {| JobServer.resume_text := text;
               JobServer.top_k := 0;
               JobServer.exclude_employer_id := excluded |}) = [].
Proof.
  intros; now rewrite match_candidates_matches, match_jobs_matches.
Qed.

(** C2, as the code has it.  When no record has an embedding the loop skips
    (absent, or present and empty), the result list is empty.  On an empty
    collection the reply carries the message of the early return and no
    total; on a non-empty one it carries the number of records left by the
    owner filter. *)
Theorem match_without_embeddings :
  forall (encode : string -> list Q)
         (cosine_similarity : list Q -> list Q -> Q)
         (file : option (list ResumeServer.Resume))
         (request : ResumeServer.MatchRequest)
         (jfile : option (list JobServer.JobPosting))
         (jrequest : JobServer.JobMatchRequest),
    (forall r, In r (ResumeServer.load_resumes file) ->
               ResumeServer.embedding r = None
               \/ ResumeServer.embedding r = Some []) ->
    (forall j, In j (JobServer.load_jobs jfile) ->
               JobServer.embedding j = None
               \/ JobServer.embedding j = Some []) ->
    ResumeServer.match_candidates encode cosine_similarity file request
    = match ResumeServer.load_resumes file with
      | [] => {| ResumeServer.matches := [];
                 ResumeServer.message := Some "No resumes available";
                 ResumeServer.total_candidates := None |}
      | resumes =>
          {| ResumeServer.matches := [];
             ResumeServer.message := None;
             ResumeServer.total_candidates :=
               Some (List.length
                       (ResumeServer.filter_excluded
                          (ResumeServer.exclude_user_id request) resumes)) |}
      end
    /\ JobServer.match_jobs encode cosine_similarity jfile jrequest
       = match JobServer.load_jobs jfile with
         | [] => {| JobServer.matches := [];
                    JobServer.message := Some "No jobs available";
                    JobServer.total_jobs_considered := None |}
         | jobs =>
             {| JobServer.matches := [];
                JobServer.message := None;
                JobServer.total_jobs_considered :=
                  Some (List.length
                          (JobServer.filter_excluded
                             (JobServer.exclude_employer_id jrequest) jobs)) |}
         end.
Proof.
  intros encode cosine_similarity file request jfile jrequest Hr Hj; split.
  - destruct (ResumeServer.load_resumes file) as [|r l] eqn:E.
    + now apply match_candidates_empty.
    + rewrite match_candidates_nonempty, E by (rewrite E; easy).
      cbv zeta; f_equal.
      replace (flat_map _ _) with (@nil ResumeServer.Match);
        [apply slice_to_nil|].
      symmetry; apply flat_map_nil; intros x Hx.
      apply resume_scored_absent, Hr.
      unfold ResumeServer.filter_excluded, ResumeServer.without_user in Hx.
      destruct (truthy _); auto; now apply filter_In in Hx.
  - destruct (JobServer.load_jobs jfile) as [|j l] eqn:E.
    + now apply match_jobs_empty.
    + rewrite match_jobs_nonempty, E by (rewrite E; easy).
      cbv zeta; f_equal.
      replace (flat_map _ _) with (@nil JobServer.Match);
        [apply slice_to_nil|].
      symmetry; apply flat_map_nil; intros x Hx.
      apply job_scored_absent, Hj.
      unfold JobServer.filter_excluded, JobServer.without_employer in Hx.
      destruct (truthy _); auto; now apply filter_In in Hx.
Qed.

Lemma match_without_embeddings_witness :
  (forall r, In r (ResumeServer.load_resumes (Some [Sample.carol])) ->
             ResumeServer.embedding r = None
             \/ ResumeServer.embedding r = Some [])
  /\ (forall j, In j (JobServer.load_jobs (Some [Sample.draft])) ->
                JobServer.embedding j = None
                \/ JobServer.embedding j = Some [])
  /\ ResumeServer.match_candidates Sample.encode Sample.cosine_similarity
       (Some [Sample.carol]) (Sample.candidates_request 5 (Some "u1"))
     = {| ResumeServer.matches := [];
          ResumeServer.message := None;
          ResumeServer.total_candidates := Some 1 |}
  /\ JobServer.match_jobs Sample.encode Sample.cosine_similarity
       (Some [Sample.draft]) (Sample.jobs_request 5 None)
     = {| JobServer.matches := [];
          JobServer.message := None;
          JobServer.total_jobs_considered := Some 1 |}.
Proof.
  assert (Hr : forall r, In r (ResumeServer.load_resumes (Some [Sample.carol]))
                         -> ResumeServer.embedding r = None
                            \/ ResumeServer.embedding r = Some [])
    by (intros r [<- | []]; left; reflexivity).
  assert (Hj : forall j, In j (JobServer.load_jobs (Some [Sample.draft]))
                         -> JobServer.embedding j = None
                            \/ JobServer.embedding j = Some [])
    by (intros j [<- | []]; left; reflexivity).
  split; [exact Hr | split; [exact Hj |]].
  exact (match_without_embeddings Sample.encode Sample.cosine_similarity
           (Some [Sample.carol]) (Sample.candidates_request 5 (Some "u1"))
           (Some [Sample.draft]) (Sample.jobs_request 5 None) Hr Hj).
Defined.

(** C2 as stated fails on the empty store: the reply of [/match-candidates]
    is [{"matches": [], "message": "No resumes available"}], which has no
    ["total_candidates"] key, so it is not [{matches: [], total_candidates:
    0}]. *)
Lemma empty_store_reply_has_no_total :
  ~ (let reply :=
       ResumeServer.match_candidates Sample.encode Sample.cosine_similarity
         (Some []) (Sample.candidates_request 5 None) in
     ResumeServer.matches reply = []
     /\ ResumeServer.total_candidates reply = Some 0).
Proof. intros [_ H]; discriminate H. Qed.

(** C3, as the code has it.  For a non-empty excluded owner id, every entry
    of the result list is built from a stored record of another owner, and
    the total of a non-empty collection is the number of records of other
    owners (an empty collection's reply has no total). *)
Theorem excluded_owner_is_left_out :
  forall (encode : string -> list Q)
         (cosine_similarity : list Q -> list Q -> Q)
         (file : option (list ResumeServer.Resume))
         (request : ResumeServer.MatchRequest)
         (jfile : option (list JobServer.JobPosting))
         (jrequest : JobServer.JobMatchRequest)
         (X Y : string),
    X <> "" ->
    Y <> "" ->
    ResumeServer.exclude_user_id request = Some X ->
    JobServer.exclude_employer_id jrequest = Some Y ->
    let reply :=
      ResumeServer.match_candidates encode cosine_similarity file request in
    let jreply :=
      JobServer.match_jobs encode cosine_similarity jfile jrequest in
    (forall m, In m (ResumeServer.matches reply) ->
       exists r, In r (ResumeServer.load_resumes file)
                 /\ ResumeServer.user_id r <> X
                 /\ from_resume cosine_similarity
                      (encode (ResumeServer.job_description request)) r m)
    /\ ResumeServer.total_candidates reply
       = match ResumeServer.load_resumes file with
         | [] => None
         | resumes =>
             Some (List.length
                     (filter (fun r => negb (String.eqb (ResumeServer.user_id r) X))
                             resumes))
         end
    /\ (forall m, In m (JobServer.matches jreply) ->
          exists j, In j (JobServer.load_jobs jfile)
                    /\ JobServer.employer_id j <> Y
                    /\ from_job cosine_similarity
                         (encode (JobServer.resume_text jrequest)) j m)
    /\ JobServer.total_jobs_considered jreply
       = match JobServer.load_jobs jfile with
         | [] => None
         | jobs =>
             Some (List.length
                     (filter (fun j => negb (String.eqb (JobServer.employer_id j) Y))
                             jobs))
         end.
Proof.
  intros encode cosine_similarity file request jfile jrequest X Y HX HY EX EY
         reply jreply.
  repeat split.
  - intros m Hm; subst reply; rewrite match_candidates_matches in Hm.
    apply In_slice_to, In_sort_desc, in_flat_map in Hm as (r & Hr & Hm).
    rewrite EX in Hr; apply In_filter_excluded in Hr as [Hr Hne]; auto.
    exists r; repeat split; auto; now apply resume_scored_from.
  - subst reply; destruct (ResumeServer.load_resumes file) as [|r l] eqn:E.
    + now rewrite match_candidates_empty.
    + rewrite match_candidates_nonempty, E, EX by (rewrite E; easy).
      destruct X; [easy | reflexivity].
  - intros m Hm; subst jreply; rewrite match_jobs_matches in Hm.
    apply In_slice_to, In_sort_desc, in_flat_map in Hm as (j & Hj & Hm).
    rewrite EY in Hj; apply In_job_filter_excluded in Hj as [Hj Hne]; auto.
    exists j; repeat split; auto; now apply job_scored_from.
  - subst jreply; destruct (JobServer.load_jobs jfile) as [|j l] eqn:E.
    + now rewrite match_jobs_empty.
    + rewrite match_jobs_nonempty, E, EY by (rewrite E; easy).
      destruct Y; [easy | reflexivity].
Qed.

Lemma excluded_owner_is_left_out_witness :
  "u1" <> "" /\ "e1" <> ""
  /\ ResumeServer.total_candidates
       (ResumeServer.match_candidates Sample.encode Sample.cosine_similarity
          (Some [Sample.alice; Sample.bob; Sample.carol])
          (Sample.candidates_request 5 (Some "u1"))) = Some 2
  /\ JobServer.total_jobs_considered
       (JobServer.match_jobs Sample.encode Sample.cosine_similarity
          (Some [Sample.backend; Sample.analyst; Sample.draft])
          (Sample.jobs_request 5 (Some "e1"))) = Some 2
  /\ (forall m,
         In m (ResumeServer.matches
                 (ResumeServer.match_candidates
                    Sample.encode Sample.cosine_similarity
                    (Some [Sample.alice; Sample.bob; Sample.carol])
                    (Sample.candidates_request 5 (Some "u1")))) ->
         exists r, In r [Sample.alice; Sample.bob; Sample.carol]
                   /\ ResumeServer.user_id r <> "u1"
                   /\ from_resume Sample.cosine_similarity
                        (Sample.encode "backend engineer") r m).
Proof.
  assert (H1 : "u1" <> "") by discriminate.
  assert (H2 : "e1" <> "") by discriminate.
  destruct (excluded_owner_is_left_out
              Sample.encode Sample.cosine_similarity
              (Some [Sample.alice; Sample.bob; Sample.carol])
              (Sample.candidates_request 5 (Some "u1"))
              (Some [Sample.backend; Sample.analyst; Sample.draft])
              (Sample.jobs_request 5 (Some "e1"))
              "u1" "e1" H1 H2 eq_refl eq_refl) as (Hm & Ht & _ & Hjt).
  repeat split; auto.
Defined.

(** C3 as stated fails for the excluded id [""], which is not absent: the
    only stored resume belongs to owner [""], it is returned and counted. *)
Lemma blank_excluded_owner_is_kept :
  ~ (let reply :=
       ResumeServer.match_candidates Sample.encode Sample.cosine_similarity
         (Some [Sample.dana]) (Sample.candidates_request 5 (Some "")) in
     (forall m, In m (ResumeServer.matches reply) ->
        exists r, In r [Sample.dana]
                  /\ ResumeServer.user_id r <> ""
                  /\ from_resume Sample.cosine_similarity
                       (Sample.encode "backend engineer") r m)
     /\ ResumeServer.total_candidates reply
        = Some (List.length
                  (filter (fun r => negb (String.eqb (ResumeServer.user_id r) ""))
                          [Sample.dana]))).
Proof.
  intros [Hm Ht].
  destruct (Hm (ResumeServer.mk_match Sample.cosine_similarity
                  (Sample.encode "backend engineer") Sample.dana [1%Q]))
    as (r & [<- | []] & Hne & _).
  - left; reflexivity.
  - apply Hne; reflexivity.
Qed.

Lemma StronglySorted_weaken {A : Type} (R R' : A -> A -> Prop) (l : list A) :
  (forall a b, R a b -> R' a b) -> StronglySorted R l -> StronglySorted R' l.
Proof.
  intros H; induction 1 as [|a l Hs IH Ha]; constructor; auto.
  revert Ha; apply Forall_impl; intros b; apply H.
Qed.

(** C4.  The result list is non-increasing in the similarity score, and two
    of its entries with equal scores stand in the order in which their
    records stand in the collection, which is the order of insertion.  The
    reply is a function of the stored collection and the request, so a
    repeated call returns the same list. *)
Theorem matches_ranked_stably :
  forall (encode : string -> list Q)
         (cosine_similarity : list Q -> list Q -> Q)
         (file : option (list ResumeServer.Resume))
         (request : ResumeServer.MatchRequest)
         (jfile : option (list JobServer.JobPosting))
         (jrequest : JobServer.JobMatchRequest),
    let found :=
      ResumeServer.matches
        (ResumeServer.match_candidates encode cosine_similarity file request) in
    let jfound :=
      JobServer.matches
        (JobServer.match_jobs encode cosine_similarity jfile jrequest) in
    StronglySorted
      (fun a b => ResumeServer.similarity_score b
                  <= ResumeServer.similarity_score a)%Q found
    /\ (forall x y,
          Before x y found ->
          (ResumeServer.similarity_score x == ResumeServer.similarity_score y)%Q ->
          exists r1 r2,
            Before r1 r2 (ResumeServer.load_resumes file)
            /\ from_resume cosine_similarity
                 (encode (ResumeServer.job_description request)) r1 x
            /\ from_resume cosine_similarity
                 (encode (ResumeServer.job_description request)) r2 y)
    /\ StronglySorted
         (fun a b => JobServer.similarity_score b
                     <= JobServer.similarity_score a)%Q jfound
    /\ (forall x y,
          Before x y jfound ->
          (JobServer.similarity_score x == JobServer.similarity_score y)%Q ->
          exists j1 j2,
            Before j1 j2 (JobServer.load_jobs jfile)
            /\ from_job cosine_similarity
                 (encode (JobServer.resume_text jrequest)) j1 x
            /\ from_job cosine_similarity
                 (encode (JobServer.resume_text jrequest)) j2 y).
Proof.
  intros encode cosine_similarity file request jfile jrequest found jfound.
  subst found jfound; rewrite match_candidates_matches, match_jobs_matches.
  repeat split.
  - apply StronglySorted_slice_to.
    eapply StronglySorted_weaken;
      [| apply sort_desc_sorted; [apply float_lt_asym | apply float_lt_negtrans]].
    intros a b H; now apply float_lt_false.
  - intros x y H E.
    apply Before_slice_to, Before_sort_desc in H; [| now apply float_lt_eq].
    apply Before_flat_map in H as (r1 & r2 & H & H1 & H2);
      [| apply resume_scored_length].
    exists r1, r2; repeat split.
    + now apply Before_filter_excluded in H.
    + now apply resume_scored_from.
    + now apply resume_scored_from.
  - apply StronglySorted_slice_to.
    eapply StronglySorted_weaken;
      [| apply sort_desc_sorted; [apply float_lt_asym | apply float_lt_negtrans]].
    intros a b H; now apply float_lt_false.
  - intros x y H E.
    apply Before_slice_to, Before_sort_desc in H; [| now apply float_lt_eq].
    apply Before_flat_map in H as (j1 & j2 & H & H1 & H2);
      [| apply job_scored_length].
    exists j1, j2; repeat split.
    + now apply Before_job_filter_excluded in H.
    + now apply job_scored_from.
    + now apply job_scored_from.
Qed.

(** Alice and Dana tie at score 1 and Bob scores 1/2: the tie keeps the
    order of the collection, whichever of the two was stored first. *)
Example ranked_ties_keep_order :
  map ResumeServer.match_name
      (ResumeServer.matches
         (ResumeServer.match_candidates Sample.encode Sample.cosine_similarity
            (Some [Sample.bob; Sample.alice; Sample.carol; Sample.dana])
            (Sample.candidates_request 10 None)))
  = ["Alice"; "Dana"; "Bob"]
  /\ map ResumeServer.match_name
         (ResumeServer.matches
            (ResumeServer.match_candidates Sample.encode Sample.cosine_similarity
               (Some [Sample.dana; Sample.bob; Sample.alice])
               (Sample.candidates_request 2 None)))
     = ["Dana"; "Alice"].
Proof. split; reflexivity. Qed.

(** ** Records without an embedding *)

Section AbsentEmbedding.
Variable cosine_similarity : list Q -> list Q -> Q.

Lemma resume_filter_excluded_insert
      (x : option string) (l1 l2 : list ResumeServer.Resume)
      (r : ResumeServer.Resume) :
  truthy x <> Some (ResumeServer.user_id r) ->
  ResumeServer.filter_excluded x (l1 ++ r :: l2)
  = ResumeServer.filter_excluded x l1
    ++ r :: ResumeServer.filter_excluded x l2
  /\ ResumeServer.filter_excluded x (l1 ++ l2)
     = ResumeServer.filter_excluded x l1 ++ ResumeServer.filter_excluded x l2.
Proof.
  unfold ResumeServer.filter_excluded, ResumeServer.without_user.
  destruct (truthy x) as [s|]; auto.
  intros H; rewrite !filter_app; simpl.
  destruct (String.eqb (ResumeServer.user_id r) s) eqn:E; simpl; auto.
  apply String.eqb_eq in E; congruence.
Qed.

Lemma resume_scored_skips
      (q : list Q) (x : option string) (l1 l2 : list ResumeServer.Resume)
      (r : ResumeServer.Resume) :
  ResumeServer.embedding r = None ->
  flat_map (ResumeServer.scored cosine_similarity q)
           (ResumeServer.filter_excluded x (l1 ++ r :: l2))
  = flat_map (ResumeServer.scored cosine_similarity q)
             (ResumeServer.filter_excluded x (l1 ++ l2)).
Proof.
  intros H; unfold ResumeServer.filter_excluded, ResumeServer.without_user.
  assert (E : ResumeServer.scored cosine_similarity q r = [])
    by (apply resume_scored_absent; auto).
  destruct (truthy x) as [s|]; rewrite ?filter_app, !flat_map_app; simpl;
    [destruct (negb _); simpl|]; now rewrite ?E.
Qed.

Lemma job_filter_excluded_insert
      (x : option string) (l1 l2 : list JobServer.JobPosting)
      (j : JobServer.JobPosting) :
  truthy x <> Some (JobServer.employer_id j) ->
  JobServer.filter_excluded x (l1 ++ j :: l2)
  = JobServer.filter_excluded x l1 ++ j :: JobServer.filter_excluded x l2
  /\ JobServer.filter_excluded x (l1 ++ l2)
     = JobServer.filter_excluded x l1 ++ JobServer.filter_excluded x l2.
Proof.
  unfold JobServer.filter_excluded, JobServer.without_employer.
  destruct (truthy x) as [s|]; auto.
  intros H; rewrite !filter_app; simpl.
  destruct (String.eqb (JobServer.employer_id j) s) eqn:E; simpl; auto.
  apply String.eqb_eq in E; congruence.
Qed.

Lemma job_scored_skips
      (q : list Q) (x : option string) (l1 l2 : list JobServer.JobPosting)
      (j : JobServer.JobPosting) :
  JobServer.embedding j = None ->
  flat_map (JobServer.scored cosine_similarity q)
           (JobServer.filter_excluded x (l1 ++ j :: l2))
  = flat_map (JobServer.scored cosine_similarity q)
             (JobServer.filter_excluded x (l1 ++ l2)).
Proof.
  intros H; unfold JobServer.filter_excluded, JobServer.without_employer.
  assert (E : JobServer.scored cosine_similarity q j = [])
    by (apply job_scored_absent; auto).
  destruct (truthy x) as [s|]; rewrite ?filter_app, !flat_map_app; simpl;
    [destruct (negb _); simpl|]; now rewrite ?E.
Qed.
End AbsentEmbedding.

Lemma length_insert {A : Type} (l1 l2 : list A) (a : A) :
  List.length (l1 ++ a :: l2) = S (List.length (l1 ++ l2)).
Proof. rewrite !length_app; simpl; lia. Qed.

(** C5.  A record with an absent embedding changes no result list: the
    matches are those of the collection without it.  It is counted all the
    same: in the total of the match call (when the request does not exclude
    its owner), in [total_resumes] / [total_jobs], and in one bucket of the
    experience-level and job-type distributions. *)
Theorem absent_embedding_counted_not_ranked :
  forall (encode : string -> list Q)
         (cosine_similarity : list Q -> list Q -> Q)
         (list_of_set : list string -> list string)
         (l1 l2 : list ResumeServer.Resume) (r : ResumeServer.Resume)
         (request : ResumeServer.MatchRequest)
         (k1 k2 : list JobServer.JobPosting) (j : JobServer.JobPosting)
         (jrequest : JobServer.JobMatchRequest),
    ResumeServer.embedding r = None ->
    JobServer.embedding j = None ->
    truthy (ResumeServer.exclude_user_id request)
    <> Some (ResumeServer.user_id r) ->
    truthy (JobServer.exclude_employer_id jrequest)
    <> Some (JobServer.employer_id j) ->
    let reply file :=
      ResumeServer.match_candidates encode cosine_similarity file request in
    let insights :=
      ResumeServer.get_resume_insights list_of_set (Some (l1 ++ r :: l2)) in
    let jreply file :=
      JobServer.match_jobs encode cosine_similarity file jrequest in
    let jinsights :=
      JobServer.get_job_insights list_of_set (Some (k1 ++ j :: k2)) in
    (ResumeServer.matches (reply (Some (l1 ++ r :: l2)))
     = ResumeServer.matches (reply (Some (l1 ++ l2)))
     /\ ResumeServer.total_candidates (reply (Some (l1 ++ r :: l2)))
        = Some (S (List.length
                     (ResumeServer.filter_excluded
                        (ResumeServer.exclude_user_id request) (l1 ++ l2))))
     /\ ResumeServer.total_resumes insights = S (List.length (l1 ++ l2))
     /\ dict_total (ResumeServer.experience_levels insights)
        = S (List.length (l1 ++ l2)))
    /\ (JobServer.matches (jreply (Some (k1 ++ j :: k2)))
        = JobServer.matches (jreply (Some (k1 ++ k2)))
        /\ JobServer.total_jobs_considered (jreply (Some (k1 ++ j :: k2)))
           = Some (S (List.length
                        (JobServer.filter_excluded
                           (JobServer.exclude_employer_id jrequest) (k1 ++ k2))))
        /\ JobServer.total_jobs jinsights = S (List.length (k1 ++ k2))
        /\ dict_total (JobServer.job_types jinsights)
           = S (List.length (k1 ++ k2))).
Proof.
  intros encode cosine_similarity list_of_set l1 l2 r request k1 k2 j jrequest
         Hr Hj Xr Xj reply insights jreply jinsights.
  assert (Nr : ResumeServer.load_resumes (Some (l1 ++ r :: l2)) <> [])
    by (simpl; now destruct l1).
  assert (Nj : JobServer.load_jobs (Some (k1 ++ j :: k2)) <> [])
    by (simpl; now destruct k1).
  split; repeat split.
  - subst reply; cbv beta; rewrite !match_candidates_matches; simpl.
    now rewrite resume_scored_skips.
  - subst reply; cbv beta; rewrite match_candidates_nonempty by exact Nr.
    simpl; destruct (resume_filter_excluded_insert _ l1 l2 r Xr) as [-> ->].
    now rewrite length_insert.
  - subst insights.
    destruct (resume_insights_nonempty list_of_set _ Nr) as [-> _].
    apply length_insert.
  - subst insights.
    destruct (resume_insights_nonempty list_of_set _ Nr) as [_ ->].
    rewrite tally_total; simpl; apply length_insert.
  - subst jreply; cbv beta; rewrite !match_jobs_matches; simpl.
    now rewrite job_scored_skips.
  - subst jreply; cbv beta; rewrite match_jobs_nonempty by exact Nj.
    simpl; destruct (job_filter_excluded_insert _ k1 k2 j Xj) as [-> ->].
    now rewrite length_insert.
  - subst jinsights.
    destruct (job_insights_nonempty list_of_set _ Nj) as [-> _].
    apply length_insert.
  - subst jinsights.
    destruct (job_insights_nonempty list_of_set _ Nj) as [_ ->].
    rewrite tally_total; simpl; apply length_insert.
Qed.

Lemma absent_embedding_counted_not_ranked_witness :
  ResumeServer.embedding Sample.carol = None
  /\ JobServer.embedding Sample.draft = None
  /\ ResumeServer.matches
       (ResumeServer.match_candidates Sample.encode Sample.cosine_similarity
          (Some ([Sample.alice] ++ Sample.carol :: [Sample.bob]))
          (Sample.candidates_request 5 None))
     = ResumeServer.matches
         (ResumeServer.match_candidates Sample.encode Sample.cosine_similarity
            (Some ([Sample.alice] ++ [Sample.bob]))
            (Sample.candidates_request 5 None))
  /\ ResumeServer.total_candidates
       (ResumeServer.match_candidates Sample.encode Sample.cosine_similarity
          (Some ([Sample.alice] ++ Sample.carol :: [Sample.bob]))
          (Sample.candidates_request 5 None)) = Some 3
  /\ dict_total
       (ResumeServer.experience_levels
          (ResumeServer.get_resume_insights Sample.list_of_set
             (Some ([Sample.alice] ++ Sample.carol :: [Sample.bob])))) = 3
  /\ JobServer.total_jobs_considered
       (JobServer.match_jobs Sample.encode Sample.cosine_similarity
          (Some ([Sample.backend] ++ Sample.draft :: [Sample.analyst]))
          (Sample.jobs_request 5 None)) = Some 3
  /\ dict_total
       (JobServer.job_types
          (JobServer.get_job_insights Sample.list_of_set
             (Some ([Sample.backend] ++ Sample.draft :: [Sample.analyst])))) = 3.
Proof.
  assert (Xr : truthy (ResumeServer.exclude_user_id
                         (Sample.candidates_request 5 None))
               <> Some (ResumeServer.user_id Sample.carol)) by discriminate.
  assert (Xj : truthy (JobServer.exclude_employer_id
                         (Sample.jobs_request 5 None))
               <> Some (JobServer.employer_id Sample.draft)) by discriminate.
  destruct (absent_embedding_counted_not_ranked
              Sample.encode Sample.cosine_similarity Sample.list_of_set
              [Sample.alice] [Sample.bob] Sample.carol
              (Sample.candidates_request 5 None)
              [Sample.backend] [Sample.analyst] Sample.draft
              (Sample.jobs_request 5 None)
              eq_refl eq_refl Xr Xj)
    as ((Hm & Ht & _ & Hd) & (_ & Hjt & _ & Hjd)).
  repeat split; auto.
Defined.

Lemma length_flat_map_le {A B : Type} (f : A -> list B) (l : list A) :
  (forall a, List.length (f a) <= 1) ->
  List.length (flat_map f l) <= List.length l.
Proof.
  intros H; induction l as [|a l IH]; simpl; auto.
  rewrite length_app; specialize (H a); lia.
Qed.

Lemma slice_to_all {A : Type} (l : list A) (k : Z) :
  (Z.of_nat (List.length l) <= k)%Z -> slice_to l k = l.
Proof.
  intros H; unfold slice_to.
  destruct (k <? 0)%Z eqn:E; [apply Z.ltb_lt in E; lia|].
  apply firstn_all2; lia.
Qed.

(** C10.  An excluded id [""] excludes nothing: the reply is the reply of
    the same call without an excluded id, the total of a non-empty
    collection is its full length, and with [top_k] at least that length
    every record with an embedding has its entry in the result list, the
    records of owner [""] too. *)
Theorem blank_exclusion_excludes_nothing :
  forall (encode : string -> list Q)
         (cosine_similarity : list Q -> list Q -> Q)
         (file : option (list ResumeServer.Resume))
         (jfile : option (list JobServer.JobPosting))
         (text : string) (k : Z),
    ResumeServer.load_resumes file <> [] ->
    JobServer.load_jobs jfile <> [] ->
    let reply excluded :=
      ResumeServer.match_candidates encode cosine_similarity file
        {| ResumeServer.job_description := text;
           ResumeServer.top_k := k;
           ResumeServer.exclude_user_id := excluded |} in
    let jreply excluded :=
      JobServer.match_jobs encode cosine_similarity jfile
        {| JobServer.resume_text := text;
           JobServer.top_k := k;
           JobServer.exclude_employer_id := excluded |} in
    (reply (Some "") = reply None
     /\ ResumeServer.total_candidates (reply (Some ""))
        = Some (List.length (ResumeServer.load_resumes file))
     /\ (forall r x e,
           In r (ResumeServer.load_resumes file) ->
           ResumeServer.user_id r = "" ->
           ResumeServer.embedding r = Some (x :: e) ->
           (Z.of_nat (List.length (ResumeServer.load_resumes file)) <= k)%Z ->
           In (ResumeServer.mk_match cosine_similarity (encode text) r (x :: e))
              (ResumeServer.matches (reply (Some "")))))
    /\ (jreply (Some "") = jreply None
        /\ JobServer.total_jobs_considered (jreply (Some ""))
           = Some (List.length (JobServer.load_jobs jfile))
        /\ (forall j x e,
              In j (JobServer.load_jobs jfile) ->
              JobServer.employer_id j = "" ->
              JobServer.embedding j = Some (x :: e) ->
              (Z.of_nat (List.length (JobServer.load_jobs jfile)) <= k)%Z ->
              In (JobServer.mk_match cosine_similarity (encode text) j (x :: e))
                 (JobServer.matches (jreply (Some ""))))).
Proof.
  intros encode cosine_similarity file jfile text k Nr Nj reply jreply.
  split; repeat split.
  - subst reply; cbv beta; now rewrite match_candidates_nonempty.
  - intros r x e Hin _ He Hk; subst reply; cbv beta.
    rewrite match_candidates_matches; simpl.
    unfold ResumeServer.filter_excluded; simpl.
    rewrite slice_to_all.
    + apply In_sort_desc, in_flat_map; exists r; split; auto.
      unfold ResumeServer.scored; rewrite He; now left.
    + rewrite length_sort_desc.
      pose proof (length_flat_map_le
                    (ResumeServer.scored cosine_similarity (encode text))
                    (ResumeServer.load_resumes file)
                    (resume_scored_length cosine_similarity (encode text))).
      lia.
  - subst jreply; cbv beta; now rewrite match_jobs_nonempty.
  - intros j x e Hin _ He Hk; subst jreply; cbv beta.
    rewrite match_jobs_matches; simpl.
    unfold JobServer.filter_excluded; simpl.
    rewrite slice_to_all.
    + apply In_sort_desc, in_flat_map; exists j; split; auto.
      unfold JobServer.scored; rewrite He; now left.
    + rewrite length_sort_desc.
      pose proof (length_flat_map_le
                    (JobServer.scored cosine_similarity (encode text))
                    (JobServer.load_jobs jfile)
                    (job_scored_length cosine_similarity (encode text))).
      lia.
Qed.

Lemma blank_exclusion_excludes_nothing_witness :
  ResumeServer.load_resumes (Some [Sample.dana; Sample.bob]) <> []
  /\ JobServer.load_jobs (Some [Sample.orphan; Sample.analyst]) <> []
  /\ ResumeServer.total_candidates
       (ResumeServer.match_candidates Sample.encode Sample.cosine_similarity
          (Some [Sample.dana; Sample.bob])
          {| ResumeServer.job_description := "backend engineer";
             ResumeServer.top_k := 5;
             ResumeServer.exclude_user_id := Some "" |}) = Some 2
  /\ In (ResumeServer.mk_match Sample.cosine_similarity
           (Sample.encode "backend engineer") Sample.dana [1%Q])
        (ResumeServer.matches
           (ResumeServer.match_candidates Sample.encode Sample.cosine_similarity
              (Some [Sample.dana; Sample.bob])
              {| ResumeServer.job_description := "backend engineer";
                 ResumeServer.top_k := 5;
                 ResumeServer.exclude_user_id := Some "" |}))
  /\ JobServer.total_jobs_considered
       (JobServer.match_jobs Sample.encode Sample.cosine_similarity
          (Some [Sample.orphan; Sample.analyst])
          {| JobServer.resume_text := "backend engineer";
             JobServer.top_k := 5;
             JobServer.exclude_employer_id := Some "" |}) = Some 2.
Proof.
  assert (Nr : ResumeServer.load_resumes (Some [Sample.dana; Sample.bob]) <> [])
    by discriminate.
  assert (Nj : JobServer.load_jobs (Some [Sample.orphan; Sample.analyst]) <> [])
    by discriminate.
  destruct (blank_exclusion_excludes_nothing
              Sample.encode Sample.cosine_similarity
              (Some [Sample.dana; Sample.bob])
              (Some [Sample.orphan; Sample.analyst])
              "backend engineer" 5%Z Nr Nj)
    as ((_ & Ht & Hin) & (_ & Hjt & _)).
  repeat split; auto.
  apply (Hin Sample.dana 1%Q []); simpl; auto; lia.
Defined.

(** ** Query router *)

(** C6, as the code has it.  A query that matches the first rule's keyword
    group and neither of its secondary groups falls through to the general
    intent with sub-intent help, for the job seeker and for the employer;
    the later rules are not tried. *)
Theorem unmatched_secondary_routes_to_general :
  forall seeker_query employer_query : string,
    any_in ["job"; "position"; "role"; "opportunity"]
           (lower seeker_query) = true ->
    any_in ["best"; "top"; "recommend"; "suitable"]
           (lower seeker_query) = false ->
    any_in ["how many"; "count"] (lower seeker_query) = false ->
    any_in ["candidate"; "applicant"; "resume"]
           (lower employer_query) = true ->
    any_in ["best"; "top"; "recommend"; "suitable"]
           (lower employer_query) = false ->
    any_in ["how many"; "count"] (lower employer_query) = false ->
    Aggregator.route "job_seeker" seeker_query
    = Some {| Aggregator.intent := "general"; Aggregator.type := "help" |}
    /\ Aggregator.route "employer" employer_query
       = Some {| Aggregator.intent := "general"; Aggregator.type := "help" |}.
Proof.
  intros qs qe S1 S2 S3 E1 E2 E3.
  unfold Aggregator.route; simpl String.eqb; cbv iota.
  unfold Aggregator.parse_job_seeker_query, Aggregator.parse_employer_query.
  cbv zeta; now rewrite S1, S2, S3, E1, E2, E3.
Qed.

Lemma unmatched_secondary_routes_to_general_witness :
  any_in ["job"; "position"; "role"; "opportunity"]
         (lower "Tell me more about the first job") = true
  /\ any_in ["candidate"; "applicant"; "resume"]
            (lower "Show me qualified candidates") = true
  /\ Aggregator.route "job_seeker" "Tell me more about the first job"
     = Some {| Aggregator.intent := "general"; Aggregator.type := "help" |}
  /\ Aggregator.route "employer" "Show me qualified candidates"
     = Some {| Aggregator.intent := "general"; Aggregator.type := "help" |}.
Proof.
  split; [reflexivity | split; [reflexivity |]].
  exact (unmatched_secondary_routes_to_general
           "Tell me more about the first job" "Show me qualified candidates"
           eq_refl eq_refl eq_refl eq_refl eq_refl eq_refl).
Defined.

(** C6 as stated fails: the employer's query ["Show me qualified
    candidates"] contains ["candidate"] and no word of the two secondary
    groups, and the router does not answer with an intent of the candidate
    rule. *)
Lemma candidate_query_without_secondary_is_general :
  ~ (any_in ["candidate"; "applicant"; "resume"]
            (lower "Show me qualified candidates") = true ->
     any_in ["best"; "top"; "recommend"; "suitable"]
            (lower "Show me qualified candidates") = false ->
     any_in ["how many"; "count"]
            (lower "Show me qualified candidates") = false ->
     Aggregator.intent
       (Aggregator.parse_employer_query "Show me qualified candidates")
     <> "general").
Proof.
  intros H; now apply (H eq_refl eq_refl eq_refl).
Qed.

(** C7.  The employer's query ["how many candidates do we have"] is routed
    to the candidate-statistics intent with sub-intent count, not to
    find_candidates. *)
Theorem how_many_candidates_routes_to_count :
  Aggregator.route "employer" "how many candidates do we have"
  = Some {| Aggregator.intent := "candidate_stats";
            Aggregator.type := "count" |}
  /\ Aggregator.intent
       (Aggregator.parse_employer_query "how many candidates do we have")
     <> "find_candidates".
Proof. split; [reflexivity | discriminate]. Qed.

(** ** Response composer *)

(** C8.  The code departs from the claim: a reply with zero matches still
    has its ["matches"] key, so [handle_chat_query] takes the success
    branch.  On empty stores the find-candidates and find-jobs queries get
    the "I found 0 ..." narrative with the suggestions of the success case,
    not the "no matches" narrative and its suggestions. *)
Theorem zero_matches_get_success_narrative :
  forall (encode : string -> list Q)
         (cosine_similarity : list Q -> list Q -> Q)
         (list_of_set : list string -> list string)
         (format_2f : Q -> string)
         (user : string) (context : option (dict string)),
    let st := {| System.resumes_file := None; System.jobs_file := None |} in
    let chat := System.chat encode cosine_similarity list_of_set format_2f st in
    chat {| Aggregator.user_id := user;
            Aggregator.user_type := "employer";
            Aggregator.query := "best candidates";
            Aggregator.context := context |}
    = {| Aggregator.response :=
           ("I found 0 qualified candidates:" ++ LF ++ LF)%string;
         Aggregator.data :=
           Some (Aggregator.CandidateMatches
                   (Aggregator.Json
                      {| ResumeServer.matches := [];
                         ResumeServer.message := Some "No resumes available";
                         ResumeServer.total_candidates := None |}));
         Aggregator.suggestions := Aggregator.candidate_suggestions |}
    /\ chat {| Aggregator.user_id := user;
               Aggregator.user_type := "job_seeker";
               Aggregator.query := "best jobs";
               Aggregator.context := context |}
       = {| Aggregator.response :=
              ("I found 0 great job opportunities for you:" ++ LF ++ LF)%string;
            Aggregator.data :=
              Some (Aggregator.JobMatches
                      (Aggregator.Json
                         {| JobServer.matches := [];
                            JobServer.message := Some "No jobs available";
                            JobServer.total_jobs_considered := None |}));
            Aggregator.suggestions := Aggregator.job_suggestions |}.
Proof. intros; split; reflexivity. Qed.

(** ** Insight aggregation *)

Lemma experience_bucket_first_match (r : ResumeServer.Resume) :
  let exp_text := lower (ResumeServer.experience r) in
  let senior := any_in ["senior"; "lead"; "manager"; "director"] exp_text in
  let mid := any_in ["years"; "experience"] exp_text in
  let junior := any_in ["entry"; "junior"; "intern"] exp_text in
  ResumeServer.experience_bucket r
  = if senior then "Senior"
    else if mid && negb junior then "Mid"
    else "Entry".
Proof. reflexivity. Qed.

(** C9, as the code has it.  On a non-empty collection the experience-level
    mapping has exactly the keys Entry, Mid and Senior, also when a count is
    zero; the count of a bucket is the number of records that the top-down
    rules ([experience_bucket]: Senior first, then Mid, else Entry) put in
    it, and the counts add up to the number of records. *)
Theorem experience_levels_partition :
  forall (list_of_set : list string -> list string)
         (file : option (list ResumeServer.Resume)),
    ResumeServer.load_resumes file <> [] ->
    let resumes := ResumeServer.load_resumes file in
    let levels :=
      ResumeServer.experience_levels
        (ResumeServer.get_resume_insights list_of_set file) in
    map fst levels = ["Entry"; "Mid"; "Senior"]
    /\ (forall r, In r resumes ->
                  In (ResumeServer.experience_bucket r) (map fst levels))
    /\ (forall bucket,
          dict_get levels bucket 0
          = List.length
              (filter (fun r => String.eqb (ResumeServer.experience_bucket r)
                                           bucket)
                      resumes))
    /\ dict_total levels = List.length resumes.
Proof.
  intros list_of_set file N resumes levels.
  destruct (resume_insights_nonempty list_of_set file N) as [_ E].
  subst levels resumes; rewrite E; clear E.
  assert (K : map fst
                (fold_left
                   (fun d r => dict_incr d (ResumeServer.experience_bucket r))
                   (ResumeServer.load_resumes file)
                   [("Entry", 0); ("Mid", 0); ("Senior", 0)])
              = ["Entry"; "Mid"; "Senior"]).
  { rewrite tally_keys; [reflexivity|].
    intros r _; apply experience_bucket_cases. }
  split; [exact K | split; [| split]].
  - intros r _; rewrite K; apply experience_bucket_cases.
  - intros bucket; rewrite tally_get; simpl.
    destruct (String.eqb bucket "Entry") eqn:E1; [|
      destruct (String.eqb bucket "Mid") eqn:E2; [|
        destruct (String.eqb bucket "Senior") eqn:E3]]; auto.
  - now rewrite tally_total.
Qed.

Lemma experience_levels_partition_witness :
  ResumeServer.load_resumes (Some [Sample.alice; Sample.dana]) <> []
  /\ ResumeServer.experience_levels
       (ResumeServer.get_resume_insights Sample.list_of_set
          (Some [Sample.alice; Sample.dana]))
     = [("Entry", 0); ("Mid", 0); ("Senior", 2)]
  /\ dict_total
       (ResumeServer.experience_levels
          (ResumeServer.get_resume_insights Sample.list_of_set
             (Some [Sample.alice; Sample.dana]))) = 2.
Proof.
  assert (N : ResumeServer.load_resumes (Some [Sample.alice; Sample.dana]) <> [])
    by discriminate.
  destruct (experience_levels_partition
              Sample.list_of_set (Some [Sample.alice; Sample.dana]) N)
    as (_ & _ & _ & Ht).
  split; [exact N | split; [reflexivity | exact Ht]].
Defined.

(** C9 as stated fails on the empty collection: the early return of
    [get_resume_insights] hands back an empty mapping, in which none of the
    three buckets appears. *)
Lemma empty_collection_has_no_buckets :
  ~ (let levels :=
       ResumeServer.experience_levels
         (ResumeServer.get_resume_insights Sample.list_of_set (Some [])) in
     dict_mem levels "Entry" = true
     /\ dict_mem levels "Mid" = true
     /\ dict_mem levels "Senior" = true).
Proof. intros [H _]; discriminate H. Qed.

(* ================================================================== *)
(** * Further properties of the code *)

(** ** The matching engine: how many entries, and which *)

(** A record takes part in the ranking when its embedding is a non-empty
    list. *)
Definition ranked_resume (r : ResumeServer.Resume) : bool :=
  match ResumeServer.embedding r with
  | Some (_ :: _) => true
  | _ => false
  end.

Definition ranked_job (j : JobServer.JobPosting) : bool :=
  match JobServer.embedding j with
  | Some (_ :: _) => true
  | _ => false
  end.

Lemma Permutation_insert_desc {A K : Type} (key : A -> K)
      (lt : K -> K -> bool) (a : A) (l : list A) :
  Permutation (insert_desc key lt a l) (a :: l).
Proof.
  induction l as [|b l IH]; simpl; auto.
  destruct (lt (key a) (key b)); auto.
  rewrite IH; apply perm_swap.
Qed.

Lemma Permutation_sort_desc {A K : Type} (key : A -> K)
      (lt : K -> K -> bool) (l : list A) :
  Permutation (sort_desc key lt l) l.
Proof.
  induction l as [|a l IH]; simpl; auto.
  now rewrite Permutation_insert_desc, IH.
Qed.

Lemma StronglySorted_app_inv {A : Type} (R : A -> A -> Prop)
      (l1 l2 : list A) :
  StronglySorted R (l1 ++ l2) ->
  forall x y, In x l1 -> In y l2 -> R x y.
Proof.
  induction l1 as [|a l1 IH]; simpl; intros H x y Hx Hy; [easy|].
  inversion H as [|? ? Hs Ha]; subst.
  destruct Hx as [<- | Hx]; [| now apply IH].
  rewrite Forall_forall in Ha; apply Ha, in_or_app; now right.
Qed.

Lemma ranked_by_score_sorted {A : Type} (score : A -> Q) (l : list A) :
  StronglySorted (fun a b => score b <= score a)%Q
                 (sort_desc score float_lt l).
Proof.
  eapply StronglySorted_weaken;
    [| apply sort_desc_sorted; [apply float_lt_asym | apply float_lt_negtrans]].
  intros a b H; now apply float_lt_false.
Qed.

Lemma top_slice_best {A : Type} (score : A -> Q) (l : list A) (k : Z) :
  exists rest,
    Permutation (slice_to (sort_desc score float_lt l) k ++ rest) l
    /\ forall x y, In x (slice_to (sort_desc score float_lt l) k) ->
                   In y rest -> (score y <= score x)%Q.
Proof.
  destruct (slice_to_prefix (sort_desc score float_lt l) k) as [n ->].
  exists (skipn n (sort_desc score float_lt l)); split.
  - rewrite firstn_skipn; apply Permutation_sort_desc.
  - apply StronglySorted_app_inv; rewrite firstn_skipn.
    apply ranked_by_score_sorted.
Qed.

Lemma length_resume_scored (cosine_similarity : list Q -> list Q -> Q)
      (q : list Q) (l : list ResumeServer.Resume) :
  List.length (flat_map (ResumeServer.scored cosine_similarity q) l)
  = List.length (filter ranked_resume l).
Proof.
  induction l as [|r l IH]; simpl; auto.
  rewrite length_app, IH; unfold ResumeServer.scored, ranked_resume.
  destruct (ResumeServer.embedding r) as [[|x e]|]; reflexivity.
Qed.

Lemma length_job_scored (cosine_similarity : list Q -> list Q -> Q)
      (q : list Q) (l : list JobServer.JobPosting) :
  List.length (flat_map (JobServer.scored cosine_similarity q) l)
  = List.length (filter ranked_job l).
Proof.
  induction l as [|j l IH]; simpl; auto.
  rewrite length_app, IH; unfold JobServer.scored, ranked_job.
  destruct (JobServer.embedding j) as [[|x e]|]; reflexivity.
Qed.

(** X1.  For a non-negative [top_k] the result list has exactly
    [min(top_k, n)] entries, [n] being the number of records that pass the
    owner filter and have a non-empty embedding; so never more than
    [top_k]. *)
Theorem match_result_size :
  forall (encode : string -> list Q)
         (cosine_similarity : list Q -> list Q -> Q)
         (file : option (list ResumeServer.Resume))
         (request : ResumeServer.MatchRequest)
         (jfile : option (list JobServer.JobPosting))
         (jrequest : JobServer.JobMatchRequest),
    (0 <= ResumeServer.top_k request)%Z ->
    (0 <= JobServer.top_k jrequest)%Z ->
    List.length
      (ResumeServer.matches
         (ResumeServer.match_candidates encode cosine_similarity file request))
    = Nat.min (Z.to_nat (ResumeServer.top_k request))
              (List.length
                 (filter ranked_resume
                    (ResumeServer.filter_excluded
                       (ResumeServer.exclude_user_id request)
                       (ResumeServer.load_resumes file))))
    /\ List.length
         (JobServer.matches
            (JobServer.match_jobs encode cosine_similarity jfile jrequest))
       = Nat.min (Z.to_nat (JobServer.top_k jrequest))
                 (List.length
                    (filter ranked_job
                       (JobServer.filter_excluded
                          (JobServer.exclude_employer_id jrequest)
                          (JobServer.load_jobs jfile)))).
Proof.
  intros encode cosine_similarity file request jfile jrequest Hk Hjk; split.
  - rewrite match_candidates_matches, length_slice_to, length_sort_desc,
      length_resume_scored.
    destruct (ResumeServer.top_k request <? 0)%Z eqn:E; auto.
    apply Z.ltb_lt in E; lia.
  - rewrite match_jobs_matches, length_slice_to, length_sort_desc,
      length_job_scored.
    destruct (JobServer.top_k jrequest <? 0)%Z eqn:E; auto.
    apply Z.ltb_lt in E; lia.
Qed.

Lemma match_result_size_witness :
  (0 <= 2)%Z
  /\ List.length
       (ResumeServer.matches
          (ResumeServer.match_candidates Sample.encode Sample.cosine_similarity
             (Some [Sample.alice; Sample.bob; Sample.carol; Sample.dana])
             (Sample.candidates_request 2 None))) = 2
  /\ List.length
       (JobServer.matches
          (JobServer.match_jobs Sample.encode Sample.cosine_similarity
             (Some [Sample.backend; Sample.analyst; Sample.draft])
             (Sample.jobs_request 5 (Some "e1")))) = 1.
Proof.
  assert (H2 : (0 <= 2)%Z) by lia.
  assert (H5 : (0 <= 5)%Z) by lia.
  split; [exact H2 |].
  exact (match_result_size Sample.encode Sample.cosine_similarity
           (Some [Sample.alice; Sample.bob; Sample.carol; Sample.dana])
           (Sample.candidates_request 2 None)
           (Some [Sample.backend; Sample.analyst; Sample.draft])
           (Sample.jobs_request 5 (Some "e1")) H2 H5).
Defined.

(** X2.  The result list holds the best entries: together with the entries
    left out it is a rearrangement of everything the similarity loop
    produced, and no entry left out scores above a returned one. *)
Theorem matches_are_the_best :
  forall (encode : string -> list Q)
         (cosine_similarity : list Q -> list Q -> Q)
         (file : option (list ResumeServer.Resume))
         (request : ResumeServer.MatchRequest)
         (jfile : option (list JobServer.JobPosting))
         (jrequest : JobServer.JobMatchRequest),
    let found :=
      ResumeServer.matches
        (ResumeServer.match_candidates encode cosine_similarity file request) in
    let jfound :=
      JobServer.matches
        (JobServer.match_jobs encode cosine_similarity jfile jrequest) in
    (exists rest,
        Permutation
          (found ++ rest)
          (ResumeServer.similarities cosine_similarity
             (encode (ResumeServer.job_description request))
             (ResumeServer.filter_excluded
                (ResumeServer.exclude_user_id request)
                (ResumeServer.load_resumes file)))
        /\ forall x y, In x found -> In y rest ->
             (ResumeServer.similarity_score y
              <= ResumeServer.similarity_score x)%Q)
    /\ (exists rest,
           Permutation
             (jfound ++ rest)
             (JobServer.similarities cosine_similarity
                (encode (JobServer.resume_text jrequest))
                (JobServer.filter_excluded
                   (JobServer.exclude_employer_id jrequest)
                   (JobServer.load_jobs jfile)))
           /\ forall x y, In x jfound -> In y rest ->
                (JobServer.similarity_score y
                 <= JobServer.similarity_score x)%Q).
Proof.
  intros encode cosine_similarity file request jfile jrequest found jfound.
  subst found jfound; rewrite match_candidates_matches, match_jobs_matches.
  rewrite resume_similarities, job_similarities; split; apply top_slice_best.
Qed.

(** ** What an entry of the result list shows *)








(** ** Storing a resume or a posting *)

Lemma In_without_user (u : string) (r : ResumeServer.Resume)
      (l : list ResumeServer.Resume) :
  In r (ResumeServer.without_user u l) <-> In r l /\ ResumeServer.user_id r <> u.
Proof.
  unfold ResumeServer.without_user.
  now rewrite filter_In, negb_true_iff, String.eqb_neq.
Qed.

Lemma without_user_leaves_none (u : string) (l : list ResumeServer.Resume) :
  filter (fun r => String.eqb (ResumeServer.user_id r) u)
         (ResumeServer.without_user u l) = [].
Proof.
  unfold ResumeServer.without_user; induction l as [|r l IH]; simpl; auto.
  destruct (String.eqb (ResumeServer.user_id r) u) eqn:E; simpl; auto.
  now rewrite E.
Qed.

Lemma upload_resume_stored
      (encode : string -> list Q) (file : option (list ResumeServer.Resume))
      (new_id user text : string) (parsed : ResumeServer.ParsedResume) :
  ResumeServer.load_resumes
    (ResumeServer.upload_resume encode file new_id user text parsed)
  = ResumeServer.without_user user (ResumeServer.load_resumes file)
    ++ [ {| ResumeServer.id := new_id;
            ResumeServer.user_id := user;
            ResumeServer.name := ResumeServer.parsed_name parsed;
            ResumeServer.email := ResumeServer.parsed_email parsed;
            ResumeServer.skills := ResumeServer.parsed_skills parsed;
            ResumeServer.experience := ResumeServer.parsed_experience parsed;
            ResumeServer.education := ResumeServer.parsed_education parsed;
            ResumeServer.raw_text := text;
            ResumeServer.embedding := Some (encode text) |} ].
Proof. reflexivity. Qed.

(** X4.  An upload replaces: afterwards the store holds exactly one resume
    of the uploading user, the new one with its fresh embedding, while the
    resumes of every other user are those it held before. *)
Theorem upload_resume_replaces :
  forall (encode : string -> list Q)
         (file : option (list ResumeServer.Resume))
         (new_id user text : string) (parsed : ResumeServer.ParsedResume),
    let stored :=
      ResumeServer.load_resumes
        (ResumeServer.upload_resume encode file new_id user text parsed) in
    (exists resume,
        filter (fun r => String.eqb (ResumeServer.user_id r) user) stored
        = [resume]
        /\ ResumeServer.id resume = new_id
        /\ ResumeServer.raw_text resume = text
        /\ ResumeServer.embedding resume = Some (encode text)
        /\ ResumeServer.skills resume = ResumeServer.parsed_skills parsed)
    /\ (forall r, ResumeServer.user_id r <> user ->
                  (In r stored <-> In r (ResumeServer.load_resumes file)))
    /\ List.length stored <= S (List.length (ResumeServer.load_resumes file)).
Proof.
  intros encode file new_id user text parsed stored; subst stored.
  rewrite upload_resume_stored; split; [| split].
  - eexists; split.
    + rewrite filter_app, without_user_leaves_none; simpl.
      rewrite String.eqb_refl; reflexivity.
    + repeat split.
  - intros r Hr; rewrite in_app_iff, In_without_user; simpl; split.
    + intros [[H _] | [<- | []]]; auto; now simpl in Hr.
    + intros H; left; auto.
  - rewrite length_app; simpl.
    pose proof (filter_length_le
                  (fun r => negb (String.eqb (ResumeServer.user_id r) user))
                  (ResumeServer.load_resumes file)).
    unfold ResumeServer.without_user; lia.
Qed.

(** An upload: the id handed out, the user, the extracted text and the
    parsed fields. *)
Definition upload : Type :=
  string * string * string * ResumeServer.ParsedResume.

Definition upload_all (encode : string -> list Q)
           (file : option (list ResumeServer.Resume)) (uploads : list upload)
  : option (list ResumeServer.Resume) :=
  fold_left (fun f '(new_id, user, text, parsed) =>
               ResumeServer.upload_resume encode f new_id user text parsed)
            uploads file.

Lemma NoDup_keys_filtered {V K : Type} (key : V -> K) (keep : V -> bool)
      (items : list V) (H : NoDup (map key items)) :
  NoDup (map key (filter keep items)).
Proof.
  revert H; induction items as [|a l IH]; simpl; auto.
  intros H; inversion H as [|? ? Hn Hd]; subst.
  destruct (keep a); simpl; auto.
  constructor; auto.
  intros Hin; apply Hn; apply in_map_iff in Hin as (x & E & Hx).
  apply filter_In in Hx as [Hx _]; rewrite <- E; now apply in_map.
Qed.

Lemma upload_resume_one_per_user
      (encode : string -> list Q) (file : option (list ResumeServer.Resume))
      (new_id user text : string) (parsed : ResumeServer.ParsedResume) :
  NoDup (map ResumeServer.user_id (ResumeServer.load_resumes file)) ->
  NoDup (map ResumeServer.user_id
             (ResumeServer.load_resumes
                (ResumeServer.upload_resume encode file new_id user text
                                            parsed))).
Proof.
  intros H; rewrite upload_resume_stored, map_app; simpl.
  apply NoDup_app_remove_l with (l := []); simpl.
  apply Permutation_NoDup with
    (l := user :: map ResumeServer.user_id
                      (ResumeServer.without_user user
                         (ResumeServer.load_resumes file))).
  - apply Permutation_cons_append.
  - constructor; [| now apply NoDup_keys_filtered].
    intros Hin; apply in_map_iff in Hin as (r & E & Hr).
    apply In_without_user in Hr as [_ Hr]; auto.
Qed.

(** X5.  The store keeps at most one resume per user: if no two stored
    resumes share a user id, no sequence of uploads makes two of them share
    one. *)
Theorem uploads_keep_one_resume_per_user :
  forall (encode : string -> list Q)
         (file : option (list ResumeServer.Resume)) (uploads : list upload),
    NoDup (map ResumeServer.user_id (ResumeServer.load_resumes file)) ->
    NoDup (map ResumeServer.user_id
               (ResumeServer.load_resumes (upload_all encode file uploads))).
Proof.
  intros encode file uploads; revert file.
  induction uploads as [|[[[new_id user] text] parsed] uploads IH];
    intros file H; simpl; auto.
  apply IH, upload_resume_one_per_user, H.
Qed.

Definition sample_parsed : ResumeServer.ParsedResume :=
  {| ResumeServer.parsed_name := "Eve";
     ResumeServer.parsed_email := "eve@example.org";
     ResumeServer.parsed_skills := ["Go"];
     ResumeServer.parsed_experience := "2 years";
     ResumeServer.parsed_education := "MSc" |}.

Lemma uploads_keep_one_resume_per_user_witness :
  NoDup (map ResumeServer.user_id (ResumeServer.load_resumes None))
  /\ map ResumeServer.user_id
         (ResumeServer.load_resumes
            (upload_all Sample.encode None
               [("r1", "u1", "first", sample_parsed);
                ("r2", "u2", "other", sample_parsed);
                ("r3", "u1", "second", sample_parsed)]))
     = ["u2"; "u1"]
  /\ NoDup (map ResumeServer.user_id
              (ResumeServer.load_resumes
                 (upload_all Sample.encode None
                    [("r1", "u1", "first", sample_parsed);
                     ("r2", "u2", "other", sample_parsed);
                     ("r3", "u1", "second", sample_parsed)]))).
Proof.
  assert (H : NoDup (map ResumeServer.user_id (ResumeServer.load_resumes None)))
    by constructor.
  split; [exact H | split; [reflexivity |]].
  exact (uploads_keep_one_resume_per_user Sample.encode None
           [("r1", "u1", "first", sample_parsed);
            ("r2", "u2", "other", sample_parsed);
            ("r3", "u1", "second", sample_parsed)] H).
Defined.

Lemma length_resume_filter_excluded (x : option string)
      (l : list ResumeServer.Resume) :
  List.length (ResumeServer.filter_excluded x l) <= List.length l.
Proof.
  unfold ResumeServer.filter_excluded, ResumeServer.without_user.
  destruct (truthy x); auto; apply filter_length_le.
Qed.

Lemma length_job_filter_excluded (x : option string)
      (l : list JobServer.JobPosting) :
  List.length (JobServer.filter_excluded x l) <= List.length l.
Proof.
  unfold JobServer.filter_excluded, JobServer.without_employer.
  destruct (truthy x); auto; apply filter_length_le.
Qed.

Lemma In_resume_filter_excluded_kept (x : option string)
      (r : ResumeServer.Resume) (l : list ResumeServer.Resume) :
  truthy x <> Some (ResumeServer.user_id r) ->
  In r l -> In r (ResumeServer.filter_excluded x l).
Proof.
  unfold ResumeServer.filter_excluded; destruct (truthy x) as [u|]; auto.
  intros H Hin; apply In_without_user; split; auto; congruence.
Qed.

Lemma In_job_filter_excluded_kept (x : option string)
      (j : JobServer.JobPosting) (l : list JobServer.JobPosting) :
  truthy x <> Some (JobServer.employer_id j) ->
  In j l -> In j (JobServer.filter_excluded x l).
Proof.
  unfold JobServer.filter_excluded, JobServer.without_employer.
  destruct (truthy x) as [u|]; auto.
  intros H Hin; apply filter_In; split; auto.
  apply negb_true_iff, String.eqb_neq; congruence.
Qed.

(** X6.  Upload, then match: when the model embeds the uploaded text to a
    non-empty vector, the request does not exclude the uploader and [top_k]
    exceeds the number of resumes stored before, the result list has an
    entry for the new resume. *)
Theorem uploaded_resume_is_matched :
  forall (encode : string -> list Q)
         (cosine_similarity : list Q -> list Q -> Q)
         (file : option (list ResumeServer.Resume))
         (new_id user text : string) (parsed : ResumeServer.ParsedResume)
         (request : ResumeServer.MatchRequest),
    encode text <> [] ->
    truthy (ResumeServer.exclude_user_id request) <> Some user ->
    (Z.of_nat (List.length (ResumeServer.load_resumes file))
     < ResumeServer.top_k request)%Z ->
    exists m,
      In m (ResumeServer.matches
              (ResumeServer.match_candidates encode cosine_similarity
                 (ResumeServer.upload_resume encode file new_id user text
                                             parsed)
                 request))
      /\ ResumeServer.resume_id m = new_id
      /\ ResumeServer.match_name m = ResumeServer.parsed_name parsed
      /\ ResumeServer.similarity_score m
         = cosine_similarity (encode (ResumeServer.job_description request))
                             (encode text).
Proof.
  intros encode cosine_similarity file new_id user text parsed request
         He Hx Hk.
  rewrite match_candidates_matches, upload_resume_stored.
  set (resume := {| ResumeServer.id := new_id |}).
  set (stored := _ ++ [resume]).
  assert (Hin : In resume (ResumeServer.filter_excluded
                             (ResumeServer.exclude_user_id request) stored)).
  { apply In_resume_filter_excluded_kept; auto.
    subst stored; apply in_or_app; right; now left. }
  assert (Hlen : List.length stored
                 <= S (List.length (ResumeServer.load_resumes file))).
  { subst stored; rewrite length_app; simpl.
    pose proof (filter_length_le
                  (fun r => negb (String.eqb (ResumeServer.user_id r) user))
                  (ResumeServer.load_resumes file)).
    unfold ResumeServer.without_user; lia. }
  rewrite slice_to_all.
  - destruct (encode text) as [|x e] eqn:E; [easy|].
    exists (ResumeServer.mk_match cosine_similarity
              (encode (ResumeServer.job_description request)) resume (x :: e)).
    split; [| repeat split].
    apply In_sort_desc, in_flat_map; exists resume; split; auto.
    unfold ResumeServer.scored; subst resume; simpl; rewrite ?E; now left.
  - rewrite length_sort_desc.
    pose proof (length_flat_map_le
                  (ResumeServer.scored cosine_similarity
                     (encode (ResumeServer.job_description request)))
                  (ResumeServer.filter_excluded
                     (ResumeServer.exclude_user_id request) stored)
                  (resume_scored_length cosine_similarity _)).
    pose proof (length_resume_filter_excluded
                  (ResumeServer.exclude_user_id request) stored).
    lia.
Qed.

Lemma uploaded_resume_is_matched_witness :
  Sample.encode "second" <> []
  /\ exists m,
       In m (ResumeServer.matches
               (ResumeServer.match_candidates
                  Sample.encode Sample.cosine_similarity
                  (ResumeServer.upload_resume Sample.encode
                     (Some [Sample.alice; Sample.bob]) "r9" "u1" "second"
                     sample_parsed)
                  (Sample.candidates_request 3 (Some "u2"))))
       /\ ResumeServer.resume_id m = "r9".
Proof.
  assert (He : Sample.encode "second" <> []) by discriminate.
  assert (Hx : truthy (ResumeServer.exclude_user_id
                         (Sample.candidates_request 3 (Some "u2")))
               <> Some "u1") by discriminate.
  assert (Hk : (Z.of_nat (List.length
                            (ResumeServer.load_resumes
                               (Some [Sample.alice; Sample.bob])))
                < ResumeServer.top_k (Sample.candidates_request 3 (Some "u2")))%Z)
    by (simpl; lia).
  split; [exact He |].
  destruct (uploaded_resume_is_matched
              Sample.encode Sample.cosine_similarity
              (Some [Sample.alice; Sample.bob]) "r9" "u1" "second"
              sample_parsed (Sample.candidates_request 3 (Some "u2"))
              He Hx Hk) as (m & Hm & Hid & _).
  exists m; split; auto.
Defined.

Lemma post_job_stored
      (encode : string -> list Q) (file : option (list JobServer.JobPosting))
      (new_id : string) (job_data : JobServer.JobSubmission) :
  JobServer.load_jobs (JobServer.post_job encode file new_id job_data)
  = JobServer.load_jobs file
    ++ [ {| JobServer.id := new_id;
            JobServer.employer_id := JobServer.submitted_employer_id job_data;
            JobServer.title := JobServer.submitted_title job_data;
            JobServer.company := JobServer.submitted_company job_data;
            JobServer.description := JobServer.submitted_description job_data;
            JobServer.requirements := JobServer.submitted_requirements job_data;
            JobServer.location := JobServer.submitted_location job_data;
            JobServer.salary_range := JobServer.submitted_salary_range job_data;
            JobServer.job_type := JobServer.submitted_job_type job_data;
            JobServer.embedding :=
              Some (encode
                      (JobServer.submitted_title job_data ++ " "
                       ++ JobServer.submitted_description job_data ++ " "
                       ++ join " " (JobServer.submitted_requirements job_data))%string)
         |} ].
Proof. reflexivity. Qed.

(** X7.  Post, then match: when the model embeds the posting's text (title,
    description and requirements, joined by spaces) to a non-empty vector,
    the request does not exclude the employer and [top_k] exceeds the
    number of postings stored before, the result list has an entry for the
    new posting. *)
Theorem posted_job_is_matched :
  forall (encode : string -> list Q)
         (cosine_similarity : list Q -> list Q -> Q)
         (file : option (list JobServer.JobPosting))
         (new_id : string) (job_data : JobServer.JobSubmission)
         (request : JobServer.JobMatchRequest),
    let job_text :=
      (JobServer.submitted_title job_data ++ " "
       ++ JobServer.submitted_description job_data ++ " "
       ++ join " " (JobServer.submitted_requirements job_data))%string in
    encode job_text <> [] ->
    truthy (JobServer.exclude_employer_id request)
    <> Some (JobServer.submitted_employer_id job_data) ->
    (Z.of_nat (List.length (JobServer.load_jobs file))
     < JobServer.top_k request)%Z ->
    exists m,
      In m (JobServer.matches
              (JobServer.match_jobs encode cosine_similarity
                 (JobServer.post_job encode file new_id job_data) request))
      /\ JobServer.job_id m = new_id
      /\ JobServer.match_title m = JobServer.submitted_title job_data
      /\ JobServer.similarity_score m
         = cosine_similarity (encode (JobServer.resume_text request))
                             (encode job_text).
Proof.
  intros encode cosine_similarity file new_id job_data request job_text
         He Hx Hk.
  rewrite match_jobs_matches, post_job_stored; fold job_text.
  set (job := {| JobServer.id := new_id |}).
  set (stored := _ ++ [job]).
  assert (Hin : In job (JobServer.filter_excluded
                          (JobServer.exclude_employer_id request) stored)).
  { apply In_job_filter_excluded_kept; auto.
    subst stored; apply in_or_app; right; now left. }
  assert (Hlen : List.length stored = S (List.length (JobServer.load_jobs file)))
    by (subst stored; rewrite length_app; simpl; lia).
  rewrite slice_to_all.
  - destruct (encode job_text) as [|x e] eqn:E; [easy|].
    exists (JobServer.mk_match cosine_similarity
              (encode (JobServer.resume_text request)) job (x :: e)).
    split; [| repeat split].
    apply In_sort_desc, in_flat_map; exists job; split; auto.
    unfold JobServer.scored; subst job; simpl; rewrite ?E; now left.
  - rewrite length_sort_desc.
    pose proof (length_flat_map_le
                  (JobServer.scored cosine_similarity
                     (encode (JobServer.resume_text request)))
                  (JobServer.filter_excluded
                     (JobServer.exclude_employer_id request) stored)
                  (job_scored_length cosine_similarity _)).
    pose proof (length_job_filter_excluded
                  (JobServer.exclude_employer_id request) stored).
    lia.
Qed.

Definition sample_submission : JobServer.JobSubmission :=
  {| JobServer.submitted_employer_id := "e7";
     JobServer.submitted_title := "Site Reliability Engineer";
     JobServer.submitted_company := "Initech";
     JobServer.submitted_description := "Keep the Kubernetes clusters up";
     JobServer.submitted_requirements := ["docker"; "kubernetes"];
     JobServer.submitted_location := "Berlin";
     JobServer.submitted_salary_range := Some "80k";
     JobServer.submitted_job_type := "Contract" |}.

Lemma posted_job_is_matched_witness :
  exists m,
    In m (JobServer.matches
            (JobServer.match_jobs Sample.encode Sample.cosine_similarity
               (JobServer.post_job Sample.encode (Some [Sample.backend]) "j9"
                                   sample_submission)
               (Sample.jobs_request 2 (Some "e1"))))
    /\ JobServer.job_id m = "j9".
Proof.
  assert (He : Sample.encode
                 (JobServer.submitted_title sample_submission ++ " "
                  ++ JobServer.submitted_description sample_submission ++ " "
                  ++ join " " (JobServer.submitted_requirements
                                 sample_submission))%string <> [])
    by discriminate.
  assert (Hx : truthy (JobServer.exclude_employer_id
                         (Sample.jobs_request 2 (Some "e1")))
               <> Some (JobServer.submitted_employer_id sample_submission))
    by discriminate.
  assert (Hk : (Z.of_nat (List.length
                            (JobServer.load_jobs (Some [Sample.backend])))
                < JobServer.top_k (Sample.jobs_request 2 (Some "e1")))%Z)
    by (simpl; lia).
  destruct (posted_job_is_matched
              Sample.encode Sample.cosine_similarity (Some [Sample.backend])
              "j9" sample_submission (Sample.jobs_request 2 (Some "e1"))
              He Hx Hk) as (m & Hm & Hid & _).
  exists m; split; auto.
Defined.

(** ** Listing the postings *)

(** X8.  The listing [/jobs]: without an employer id, or with the empty id,
    it shows every stored posting, in stored order; with a non-empty id it
    shows exactly the postings of that employer; it never shows more
    entries than there are postings. *)
Theorem jobs_are_listed_by_employer :
  forall (file : option (list JobServer.JobPosting)),
    JobServer.get_all_jobs file (Some "") = JobServer.get_all_jobs file None
    /\ map JobServer.summary_id (JobServer.get_all_jobs file None)
       = map JobServer.id (JobServer.load_jobs file)
    /\ (forall c e s,
          In s (JobServer.get_all_jobs file (Some (String c e)))
          <-> exists job, In job (JobServer.load_jobs file)
                          /\ JobServer.employer_id job = String c e
                          /\ s = JobServer.summary job)
    /\ (forall wanted,
          List.length (JobServer.get_all_jobs file wanted)
          <= List.length (JobServer.load_jobs file)).
Proof.
  intros file; unfold JobServer.get_all_jobs; repeat split.
  - simpl; now rewrite map_map.
  - simpl; rewrite in_map_iff; intros (job & <- & Hj).
    apply filter_In in Hj as [Hj E]; apply String.eqb_eq in E.
    exists job; auto.
  - simpl; intros (job & Hj & E & ->); apply in_map, filter_In; split; auto.
    now apply String.eqb_eq.
  - intros wanted; rewrite length_map.
    destruct (truthy wanted); auto; apply filter_length_le.
Qed.

(** X9.  Post, then list and count: the new posting is the last entry of
    the full listing and of its employer's listing, every other employer's
    listing is as before, and [total_jobs] of the insights grows by one. *)
Theorem posted_job_is_listed_and_counted :
  forall (encode : string -> list Q)
         (list_of_set : list string -> list string)
         (file : option (list JobServer.JobPosting))
         (new_id : string) (job_data : JobServer.JobSubmission),
    let posted := JobServer.post_job encode file new_id job_data in
    let entry :=
      {| JobServer.summary_id := new_id;
         JobServer.summary_title := JobServer.submitted_title job_data;
         JobServer.summary_company := JobServer.submitted_company job_data;
         JobServer.summary_location := JobServer.submitted_location job_data;
         JobServer.summary_job_type := JobServer.submitted_job_type job_data;
         JobServer.summary_salary_range :=
           JobServer.submitted_salary_range job_data |} in
    JobServer.get_all_jobs posted None
    = JobServer.get_all_jobs file None ++ [entry]
    /\ (forall c e,
          JobServer.get_all_jobs posted (Some (String c e))
          = if String.eqb (JobServer.submitted_employer_id job_data)
                          (String c e)
            then JobServer.get_all_jobs file (Some (String c e)) ++ [entry]
            else JobServer.get_all_jobs file (Some (String c e)))
    /\ JobServer.total_jobs (JobServer.get_job_insights list_of_set posted)
       = S (JobServer.total_jobs (JobServer.get_job_insights list_of_set file)).
Proof.
  intros encode list_of_set file new_id job_data posted entry.
  subst posted; split; [| split].
  - unfold JobServer.get_all_jobs; rewrite post_job_stored; simpl.
    now rewrite map_app.
  - intros c e; unfold JobServer.get_all_jobs; rewrite post_job_stored.
    simpl truthy; cbv iota beta zeta; rewrite filter_app, map_app; simpl.
    destruct (String.eqb _ (String c e)); simpl; auto.
    now rewrite app_nil_r.
  - assert (N : JobServer.load_jobs
                  (JobServer.post_job encode file new_id job_data) <> [])
      by (rewrite post_job_stored; now destruct (JobServer.load_jobs file)).
    destruct (job_insights_nonempty list_of_set _ N) as [-> _].
    rewrite post_job_stored, length_app; simpl.
    unfold JobServer.get_job_insights.
    destruct (JobServer.load_jobs file); simpl; lia.
Qed.

(** ** Substrings and lower case *)

Lemma prefix_app (w t : string) :
  prefix w t = true <-> exists post, t = (w ++ post)%string.
Proof.
  revert w; induction t as [|d t IH]; intros [|c w]; simpl.
  - split; [intros _; now exists "" | auto].
  - split; [easy | intros [post E]; discriminate].
  - split; [intros _; now exists (String d t) | auto].
  - destruct (ascii_dec c d) as [<- | N].
    + rewrite IH; split; intros [post E]; exists post; congruence.
    + split; [easy | intros [post E]; congruence].
Qed.

Lemma contains_unfold (w t : string) :
  contains w t
  = if prefix w t then true
    else match t with
         | EmptyString => false
         | String _ t' => contains w t'
         end.
Proof. destruct t; reflexivity. Qed.

Lemma contains_app (w t : string) :
  contains w t = true <-> exists pre post, t = (pre ++ w ++ post)%string.
Proof.
  induction t as [|d t IH]; rewrite contains_unfold.
  - destruct (prefix w "") eqn:E.
    + apply prefix_app in E as [post E]; split; auto.
      intros _; now exists "", post.
    + split; [easy|]; intros (pre & post & H).
      destruct pre; [| discriminate]; simpl in H.
      assert (P : prefix w "" = true) by (apply prefix_app; eauto).
      congruence.
  - destruct (prefix w (String d t)) eqn:E.
    + apply prefix_app in E as [post E]; split; auto.
      intros _; now exists "", post.
    + rewrite IH; split.
      * intros (pre & post & ->); now exists (String d pre), post.
      * intros (pre & post & H); destruct pre as [|c pre]; simpl in H.
        -- assert (P : prefix w (String d t) = true)
             by (apply prefix_app; eauto).
           congruence.
        -- injection H as -> ->; eauto.
Qed.

Lemma str_app_assoc (a b c : string) :
  ((a ++ b) ++ c = a ++ (b ++ c))%string.
Proof. induction a as [|x a IH]; simpl; congruence. Qed.

(** A text that contains a word contains every part of the word. *)
Lemma contains_trans (part word text : string) :
  contains part word = true -> contains word text = true ->
  contains part text = true.
Proof.
  rewrite !contains_app; intros (p1 & q1 & ->) (p2 & q2 & ->).
  exists (p2 ++ p1)%string, (q1 ++ q2)%string.
  now rewrite !str_app_assoc.
Qed.

Lemma lower_char_idem (c : ascii) : lower_char (lower_char c) = lower_char c.
Proof. destruct c as [[] [] [] [] [] [] [] []]; reflexivity. Qed.

Lemma lower_idem (s : string) : lower (lower s) = lower s.
Proof.
  induction s as [|c s IH]; simpl; auto.
  now rewrite lower_char_idem, IH.
Qed.



(** ** The keyword extractor of the job server *)

Lemma extract_loop (text : string) (vocabulary found : list string) :
  fold_left (fun found_skills skill =>
               if contains skill text
               then found_skills ++ [Py.title skill]
               else found_skills)
            vocabulary found
  = found ++ map Py.title (filter (fun skill => contains skill text) vocabulary).
Proof.
  revert found; induction vocabulary as [|k l IH]; intros found; simpl.
  - now rewrite app_nil_r.
  - rewrite IH; destruct (contains k text); simpl; auto.
    now rewrite <- app_assoc.
Qed.

Lemma extract_skills_filter (description : string)
      (requirements : list string) :
  JobServer.extract_skills_from_job description requirements
  = map Py.title
        (filter (fun skill =>
                   contains skill
                     (lower (description ++ " " ++ join " " requirements)%string))
                JobServer.common_skills).
Proof.
  unfold JobServer.extract_skills_from_job; cbv zeta.
  now rewrite extract_loop.
Qed.


Lemma In_extracted (description : string) (requirements : list string)
      (s : string) :
  In s (JobServer.extract_skills_from_job description requirements)
  <-> exists skill,
        In skill JobServer.common_skills
        /\ contains skill
             (lower (description ++ " " ++ join " " requirements)%string) = true
        /\ s = Py.title skill.
Proof.
  rewrite extract_skills_filter, in_map_iff; split.
  - intros (skill & <- & H); apply filter_In in H as [H1 H2]; eauto.
  - intros (skill & H1 & H2 & ->); exists skill; split; auto.
    now apply filter_In.
Qed.




(** X12.  The scan is by substring, so a vocabulary term inside another is
    reported with it: a posting for which "Javascript" is extracted always
    gets "Java" as well. *)
Theorem javascript_brings_java :
  forall (description : string) (requirements : list string),
    In "Javascript"
       (JobServer.extract_skills_from_job description requirements) ->
    In "Java" (JobServer.extract_skills_from_job description requirements).
Proof.
  intros d r H; apply In_extracted in H as (skill & Hin & Hc & E).
  apply In_extracted; exists "java"; split; [| split]; auto.
  - simpl; auto.
  - apply contains_trans with "javascript"; [reflexivity |].
    simpl in Hin.
    repeat (destruct Hin as [<- | Hin]; [try discriminate E; auto |]).
    destruct Hin.
Qed.

Lemma javascript_brings_java_witness :
  In "Javascript"
     (JobServer.extract_skills_from_job "Frontend work in JavaScript" [])
  /\ In "Java"
        (JobServer.extract_skills_from_job "Frontend work in JavaScript" []).
Proof.
  assert (H : In "Javascript"
                 (JobServer.extract_skills_from_job
                    "Frontend work in JavaScript" []))
    by (vm_compute; auto).
  split; [exact H |].
  exact (javascript_brings_java "Frontend work in JavaScript" [] H).
Defined.

(** ** Frequency counts and the "top ten" lists *)

Lemma dict_keys_set_new {V : Type} (d : dict V) (k : string) (v : V) :
  ~ In k (map fst d) -> map fst (dict_set d k v) = map fst d ++ [k].
Proof.
  induction d as [|[k0 v0] d IH]; simpl; auto.
  intros H; destruct (String.eqb k k0) eqn:E.
  - apply String.eqb_eq in E; subst; tauto.
  - simpl; rewrite IH; auto.
Qed.

Lemma dict_get_In {V : Type} (d : dict V) (k : string) (v default : V) :
  NoDup (map fst d) -> In (k, v) d -> dict_get d k default = v.
Proof.
  induction d as [|[k0 v0] d IH]; simpl; [easy|].
  intros H [E | Hin]; inversion H as [|? ? Hn Hd]; subst.
  - injection E as -> ->; now rewrite String.eqb_refl.
  - destruct (String.eqb k k0) eqn:E; auto.
    apply String.eqb_eq in E; subst.
    exfalso; apply Hn; change k0 with (fst (k0, v)); now apply in_map.
Qed.

Lemma count_occ_filter (l : list string) (k : string) :
  List.length (filter (fun x => String.eqb x k) l) = count_occ string_dec l k.
Proof.
  induction l as [|a l IH]; simpl; auto.
  destruct (string_dec a k) as [-> | N].
  - rewrite String.eqb_refl; simpl; auto.
  - apply String.eqb_neq in N; now rewrite N.
Qed.

Section Counting.
Variable keys : list string.

(** The counting loop [for k in keys: counts[k] = counts.get(k, 0) + 1]. *)
Let counted (d : dict nat) : dict nat := fold_left dict_incr keys d.

Lemma counted_get (d : dict nat) (k : string) :
  dict_get (counted d) k 0 = dict_get d k 0 + count_occ string_dec keys k.
Proof.
  subst counted; simpl.
  pose proof (tally_get (fun x : string => x) keys d k) as H.
  rewrite count_occ_filter in H; exact H.
Qed.

Lemma counted_keys (d : dict nat) :
  NoDup (map fst d) ->
  NoDup (map fst (counted d))
  /\ forall k, In k (map fst (counted d)) <-> In k (map fst d) \/ In k keys.
Proof.
  subst counted; simpl; revert d.
  induction keys as [|a l IH]; intros d H; simpl; [tauto|].
  assert (K : NoDup (map fst (dict_incr d a))
              /\ forall k, In k (map fst (dict_incr d a))
                           <-> In k (map fst d) \/ k = a).
  { unfold dict_incr; destruct (in_dec string_dec a (map fst d)) as [Hin | Hn].
    - rewrite dict_keys_set by auto; split; auto.
      intros k; split; auto; intros [H0 | ->]; auto.
    - rewrite dict_keys_set_new by auto; split.
      + apply NoDup_app_remove_l with (l := []); simpl.
        apply Permutation_NoDup with (l := a :: map fst d);
          [apply Permutation_cons_append | now constructor].
      + intros k; rewrite in_app_iff; simpl; intuition. }
  destruct K as [K1 K2]; destruct (IH _ K1) as [I1 I2]; split; auto.
  intros k; rewrite I2, K2; intuition.
Qed.
End Counting.

Lemma nat_lt_asym (x y : nat) : Nat.ltb x y = true -> Nat.ltb y x = false.
Proof. rewrite Nat.ltb_lt, Nat.ltb_ge; lia. Qed.

Lemma nat_lt_negtrans (x y z : nat) :
  Nat.ltb x y = false -> Nat.ltb y z = false -> Nat.ltb x z = false.
Proof. rewrite !Nat.ltb_ge; lia. Qed.

Lemma StronglySorted_map_In {A B : Type} (R : A -> A -> Prop)
      (R' : B -> B -> Prop) (f : A -> B) (l : list A) :
  (forall a b, In a l -> In b l -> R a b -> R' (f a) (f b)) ->
  StronglySorted R l -> StronglySorted R' (map f l).
Proof.
  intros H S; induction S as [|a l S IH Ha]; simpl; constructor.
  - apply IH; intros x y Hx Hy; apply H; now right.
  - rewrite Forall_forall in *; intros y Hy.
    apply in_map_iff in Hy as (b & <- & Hb).
    apply H; simpl; auto.
Qed.

(** What the code calls a top list: count the keys, sort the counts
    largest first, keep ten, drop the counts. *)
Definition top_ten (keys : list string) : list string :=
  map fst (slice_to (sort_desc snd Nat.ltb (fold_left dict_incr keys [])) 10).

Lemma top_ten_spec (keys : list string) :
  let occurrences k := count_occ string_dec keys k in
  NoDup (top_ten keys)
  /\ List.length (top_ten keys) <= 10
  /\ (forall k, In k (top_ten keys) -> In k keys)
  /\ (List.length (nodup string_dec keys) <= 10 ->
      forall k, In k keys -> In k (top_ten keys))
  /\ StronglySorted (fun a b => occurrences b <= occurrences a) (top_ten keys)
  /\ (forall a b, In a (top_ten keys) -> In b keys -> ~ In b (top_ten keys) ->
                  occurrences b <= occurrences a).
Proof.
  intros occurrences; unfold top_ten.
  set (C := fold_left dict_incr keys []).
  set (S := sort_desc snd Nat.ltb C).
  destruct (counted_keys keys [] (NoDup_nil _)) as [F1 F2]; fold C in F1, F2.
  assert (F3 : forall k v, In (k, v) C -> v = occurrences k).
  { intros k v H; rewrite <- (dict_get_In C k v 0 F1 H).
    subst C; now rewrite counted_get. }
  assert (P : Permutation S C) by apply Permutation_sort_desc.
  assert (Ss : StronglySorted (fun a b => snd b <= snd a) S).
  { eapply StronglySorted_weaken;
      [| apply sort_desc_sorted; [apply nat_lt_asym | apply nat_lt_negtrans]].
    intros a b H; now apply Nat.ltb_ge. }
  destruct (slice_to_prefix S 10) as [n E]; rewrite E.
  assert (Sp : S = firstn n S ++ skipn n S) by (now rewrite firstn_skipn).
  assert (InT : forall p, In p (firstn n S) -> In p C).
  { intros p Hp; apply (Permutation_in _ P), In_firstn with n, Hp. }
  assert (ND : NoDup (map fst (firstn n S))).
  { apply NoDup_app_remove_r with (l' := map fst (skipn n S)).
    rewrite <- map_app, <- Sp.
    apply Permutation_NoDup with (l := map fst C); auto.
    now apply Permutation_map, Permutation_sym. }
  split; [exact ND |]; split; [| split; [| split; [| split]]].
  - rewrite length_map, <- E, length_slice_to; apply (Nat.le_min_l 10).
  - intros k Hk; apply in_map_iff in Hk as ([k' v] & <- & Hp).
    apply InT in Hp.
    assert (Hk : In k' (map fst C))
      by (change k' with (fst (k', v)); now apply in_map).
    apply F2 in Hk as [[] | Hk]; exact Hk.
  - intros Hlen k Hk.
    assert (L : List.length S <= 10).
    { rewrite (Permutation_length P), <- (length_map fst C).
      assert (Q : Permutation (map fst C) (nodup string_dec keys)).
      { apply NoDup_Permutation; auto; [apply NoDup_nodup |].
        intros x; rewrite nodup_In, F2; simpl; tauto. }
      rewrite (Permutation_length Q).
      exact Hlen. }
    rewrite <- E, slice_to_all by lia.
    apply (Permutation_in _ (Permutation_map fst (Permutation_sym P))).
    apply F2; now right.
  - apply StronglySorted_map_In with (R := fun a b => snd b <= snd a).
    + intros [a va] [b vb] Ha Hb; simpl.
      now rewrite (F3 a va (InT _ Ha)), (F3 b vb (InT _ Hb)).
    + now apply StronglySorted_firstn.
  - intros a b Ha Hb Hn.
    apply in_map_iff in Ha as ([a' va] & <- & Ha); simpl.
    assert (Hb' : In b (map fst C)) by (apply F2; now right).
    apply in_map_iff in Hb' as ([b' vb] & <- & Hb'); simpl in *.
    rewrite <- (F3 a' va (InT _ Ha)), <- (F3 b' vb Hb').
    apply (Permutation_in _ (Permutation_sym P)) in Hb'.
    rewrite Sp in Hb', Ss; apply in_app_or in Hb' as [Hb' | Hb'].
    + exfalso; apply Hn; change b' with (fst (b', vb)); now apply in_map.
    + apply (StronglySorted_app_inv _ _ _ Ss (a', va) (b', vb) Ha Hb').
Qed.

(** [is_top_ten keys top]: [top] lists keys of [keys], each once and at most
    ten, the more frequent before the less frequent; a key left out is no
    more frequent than a listed one, and none is left out when there are at
    most ten distinct keys. *)
Definition is_top_ten (keys top : list string) : Prop :=
  NoDup top
  /\ List.length top <= 10
  /\ (forall k, In k top -> In k keys)
  /\ (List.length (nodup string_dec keys) <= 10 ->
      forall k, In k keys -> In k top)
  /\ StronglySorted
       (fun a b => count_occ string_dec keys b <= count_occ string_dec keys a)
       top
  /\ (forall a b, In a top -> In b keys -> ~ In b top ->
                  count_occ string_dec keys b <= count_occ string_dec keys a).

Lemma top_ten_is_top_ten (keys : list string) :
  is_top_ten keys (top_ten keys).
Proof. apply top_ten_spec. Qed.

Lemma job_insights_tops (list_of_set : list string -> list string)
      (file : option (list JobServer.JobPosting)) :
  let jobs := JobServer.load_jobs file in
  let insights := JobServer.get_job_insights list_of_set file in
  JobServer.top_companies insights = top_ten (map JobServer.company jobs)
  /\ JobServer.popular_skills insights
     = top_ten (flat_map (fun job =>
                            JobServer.extract_skills_from_job
                              (JobServer.description job)
                              (JobServer.requirements job))
                         jobs).
Proof.
  unfold JobServer.get_job_insights.
  destruct (JobServer.load_jobs file); split; reflexivity.
Qed.

(** X13.  In the job insights, [top_companies] is the top ten of the
    companies of the stored postings and [popular_skills] the top ten of
    the skills extracted from them; every popular skill is a title-cased
    term of the vocabulary. *)
Theorem job_insights_rank_by_frequency :
  forall (list_of_set : list string -> list string)
         (file : option (list JobServer.JobPosting)),
    let jobs := JobServer.load_jobs file in
    let insights := JobServer.get_job_insights list_of_set file in
    is_top_ten (map JobServer.company jobs) (JobServer.top_companies insights)
    /\ is_top_ten
         (flat_map (fun job =>
                      JobServer.extract_skills_from_job
                        (JobServer.description job)
                        (JobServer.requirements job))
                   jobs)
         (JobServer.popular_skills insights)
    /\ forall s, In s (JobServer.popular_skills insights) ->
                 In s (map Py.title JobServer.common_skills).
Proof.
  intros list_of_set file jobs insights; subst jobs insights.
  destruct (job_insights_tops list_of_set file) as [-> ->].
  split; [apply top_ten_is_top_ten | split; [apply top_ten_is_top_ten |]].
  intros s Hs.
  destruct (top_ten_is_top_ten
              (flat_map (fun job =>
                           JobServer.extract_skills_from_job
                             (JobServer.description job)
                             (JobServer.requirements job))
                        (JobServer.load_jobs file))) as (_ & _ & H & _).
  apply H, in_flat_map in Hs as (job & _ & Hs).
  apply In_extracted in Hs as (skill & Hin & _ & ->); now apply in_map.
Qed.

Lemma resume_insights_top (list_of_set : list string -> list string)
      (file : option (list ResumeServer.Resume)) :
  ResumeServer.top_skills (ResumeServer.get_resume_insights list_of_set file)
  = top_ten (flat_map ResumeServer.skills (ResumeServer.load_resumes file)).
Proof.
  unfold ResumeServer.get_resume_insights.
  destruct (ResumeServer.load_resumes file); reflexivity.
Qed.

(** X14.  In the resume insights, [top_skills] is the top ten of the skills
    listed on the stored resumes. *)
Theorem resume_insights_rank_by_frequency :
  forall (list_of_set : list string -> list string)
         (file : option (list ResumeServer.Resume)),
    is_top_ten
      (flat_map ResumeServer.skills (ResumeServer.load_resumes file))
      (ResumeServer.top_skills
         (ResumeServer.get_resume_insights list_of_set file)).
Proof.
  intros; rewrite resume_insights_top; apply top_ten_is_top_ten.
Qed.

(** A tie keeps the order of first appearance: SQL and Go both occur twice,
    Python once. *)
Example top_skills_ties :
  ResumeServer.top_skills
    (ResumeServer.get_resume_insights Sample.list_of_set
       (Some [Sample.resume "a" "u1" "A" "" None;
              Sample.resume "b" "u2" "B" "" None]))
  = ["Python"; "SQL"]
  /\ top_ten ["Python"; "SQL"; "Go"; "SQL"; "Go"] = ["SQL"; "Go"; "Python"].
Proof. split; reflexivity. Qed.

Lemma length_filter_map {A B : Type} (f : A -> B) (p : B -> bool)
      (l : list A) :
  List.length (filter p (map f l))
  = List.length (filter (fun x => p (f x)) l).
Proof.
  induction l as [|a l IH]; simpl; auto.
  destruct (p (f a)); simpl; auto.
Qed.

(** X15.  The job-type distribution counts exactly: its keys are the job
    types that occur, each once, the count of a type is the number of
    postings of that type, and the counts add up to [total_jobs]. *)
Theorem job_types_count_exactly :
  forall (list_of_set : list string -> list string)
         (file : option (list JobServer.JobPosting)),
    let jobs := JobServer.load_jobs file in
    let insights := JobServer.get_job_insights list_of_set file in
    NoDup (map fst (JobServer.job_types insights))
    /\ (forall t, In t (map fst (JobServer.job_types insights))
                  <-> exists job, In job jobs /\ JobServer.job_type job = t)
    /\ (forall t, dict_get (JobServer.job_types insights) t 0
                  = List.length
                      (filter (fun job => String.eqb (JobServer.job_type job) t)
                              jobs))
    /\ dict_total (JobServer.job_types insights) = JobServer.total_jobs insights.
Proof.
  intros list_of_set file jobs insights; subst jobs insights.
  assert (E : JobServer.job_types (JobServer.get_job_insights list_of_set file)
              = fold_left dict_incr
                          (map JobServer.job_type (JobServer.load_jobs file)) []
              /\ JobServer.total_jobs
                   (JobServer.get_job_insights list_of_set file)
                 = List.length (JobServer.load_jobs file)).
  { unfold JobServer.get_job_insights.
    destruct (JobServer.load_jobs file); split; reflexivity. }
  destruct E as [-> ->].
  destruct (counted_keys (map JobServer.job_type (JobServer.load_jobs file))
                         [] (NoDup_nil _)) as [F1 F2].
  split; [exact F1 | split; [| split]].
  - intros t; split.
    + intros H; apply F2 in H as [[] | H].
      apply in_map_iff in H as (job & <- & H); eauto.
    + intros (job & H & <-); apply F2; right; now apply in_map.
  - intros t; rewrite counted_get, <- count_occ_filter.
    apply length_filter_map.
  - pose proof (tally_total (fun x : string => x)
                  (map JobServer.job_type (JobServer.load_jobs file)) []) as T.
    simpl in T; rewrite length_map in T; exact T.
Qed.

(** ** The router *)

Definition seeker_intents : list Aggregator.Intent :=
  [ {| Aggregator.intent := "find_jobs"; Aggregator.type := "recommendation" |};
    {| Aggregator.intent := "job_stats"; Aggregator.type := "count" |};
    {| Aggregator.intent := "skill_analysis"; Aggregator.type := "improvement" |};
    {| Aggregator.intent := "market_insights"; Aggregator.type := "trends" |};
    {| Aggregator.intent := "resume_feedback"; Aggregator.type := "analysis" |};
    {| Aggregator.intent := "general"; Aggregator.type := "help" |} ].

Definition employer_intents : list Aggregator.Intent :=
  [ {| Aggregator.intent := "find_candidates";
       Aggregator.type := "recommendation" |};
    {| Aggregator.intent := "candidate_stats"; Aggregator.type := "count" |};
    {| Aggregator.intent := "skill_analysis"; Aggregator.type := "market" |};
    {| Aggregator.intent := "job_management"; Aggregator.type := "analysis" |};
    {| Aggregator.intent := "general"; Aggregator.type := "help" |} ].

(** X16.  Each parser answers with one of its own intents, every one paired
    with its fixed sub-intent: six for the job seeker, five for the
    employer.  So a seeker's query is never routed to job_management or
    find_candidates, and an employer's never to resume_feedback,
    market_insights or find_jobs. *)
Theorem intents_by_role :
  forall query : string,
    In (Aggregator.parse_job_seeker_query query) seeker_intents
    /\ In (Aggregator.parse_employer_query query) employer_intents
    /\ ~ In (Aggregator.intent (Aggregator.parse_job_seeker_query query))
            ["job_management"; "find_candidates"; "candidate_stats"]
    /\ ~ In (Aggregator.intent (Aggregator.parse_employer_query query))
            ["resume_feedback"; "market_insights"; "find_jobs"; "job_stats"].
Proof.
  intros query.
  unfold Aggregator.parse_job_seeker_query, Aggregator.parse_employer_query.
  cbv zeta; repeat split;
    repeat match goal with
           | |- context [if any_in ?ws ?t then _ else _] =>
               destruct (any_in ws t)
           end;
    simpl; intuition discriminate.
Qed.



(** ** The chat handler *)

Section ChatFacts.
Variable match_candidates_endpoint :
  ResumeServer.MatchRequest -> Aggregator.reply ResumeServer.MatchResponse.
Variable match_jobs_endpoint :
  JobServer.JobMatchRequest -> Aggregator.reply JobServer.MatchResponse.
Variable resume_insights_endpoint : Aggregator.reply ResumeServer.ResumeInsight.
Variable job_insights_endpoint : Aggregator.reply JobServer.JobInsight.
Variable format_2f : Q -> string.

Let handle :=
  Aggregator.handle_chat_query match_candidates_endpoint match_jobs_endpoint
    resume_insights_endpoint job_insights_endpoint format_2f.

Lemma handle_seeker (q : Aggregator.ChatQuery) :
  Aggregator.user_type q = "job_seeker" ->
  handle q
  = let intent :=
      Aggregator.intent (Aggregator.parse_job_seeker_query (Aggregator.query q)) in
    if String.eqb intent "find_jobs" then
      Aggregator.find_jobs match_candidates_endpoint match_jobs_endpoint
                           format_2f q
    else if String.eqb intent "skill_analysis" then
      Aggregator.seeker_skill_analysis resume_insights_endpoint
                                       job_insights_endpoint
    else if String.eqb intent "market_insights" then
      Aggregator.market_insights job_insights_endpoint
    else Aggregator.default_response "job_seeker".
Proof.
  intros E; subst handle; unfold Aggregator.handle_chat_query.
  rewrite E; reflexivity.
Qed.

Lemma handle_employer (q : Aggregator.ChatQuery) :
  Aggregator.user_type q = "employer" ->
  handle q
  = let intent :=
      Aggregator.intent (Aggregator.parse_employer_query (Aggregator.query q)) in
    if String.eqb intent "find_candidates" then
      Aggregator.find_candidates match_candidates_endpoint format_2f q
    else if String.eqb intent "skill_analysis" then
      Aggregator.employer_skill_analysis resume_insights_endpoint
    else Aggregator.default_response "employer".
Proof.
  intros E; subst handle; unfold Aggregator.handle_chat_query.
  rewrite E; reflexivity.
Qed.

Lemma handle_other (q : Aggregator.ChatQuery) :
  Aggregator.user_type q <> "job_seeker" ->
  Aggregator.user_type q <> "employer" ->
  handle q = Aggregator.default_response (Aggregator.user_type q).
Proof.
  intros H1 H2; subst handle; unfold Aggregator.handle_chat_query.
  apply String.eqb_neq in H1, H2; now rewrite H1, H2.
Qed.
End ChatFacts.

(** X18.  The first rule shadows the later ones.  A job seeker's query that
    holds a word of the job group is answered by the job search or by the
    generic help, whatever else it asks about; likewise an employer's query
    that holds a word of the candidate group. *)
Theorem first_rule_shadows_the_rest :
  forall (match_candidates_endpoint :
            ResumeServer.MatchRequest
            -> Aggregator.reply ResumeServer.MatchResponse)
         (match_jobs_endpoint :
            JobServer.JobMatchRequest
            -> Aggregator.reply JobServer.MatchResponse)
         (resume_insights_endpoint : Aggregator.reply ResumeServer.ResumeInsight)
         (job_insights_endpoint : Aggregator.reply JobServer.JobInsight)
         (format_2f : Q -> string) (q : Aggregator.ChatQuery),
    let handle :=
      Aggregator.handle_chat_query match_candidates_endpoint
        match_jobs_endpoint resume_insights_endpoint job_insights_endpoint
        format_2f in
    (Aggregator.user_type q = "job_seeker" ->
     any_in ["job"; "position"; "role"; "opportunity"]
            (lower (Aggregator.query q)) = true ->
     handle q = Aggregator.find_jobs match_candidates_endpoint
                                     match_jobs_endpoint format_2f q
     \/ handle q = Aggregator.default_response "job_seeker")
    /\ (Aggregator.user_type q = "employer" ->
        any_in ["candidate"; "applicant"; "resume"]
               (lower (Aggregator.query q)) = true ->
        handle q = Aggregator.find_candidates match_candidates_endpoint
                                              format_2f q
        \/ handle q = Aggregator.default_response "employer").
Proof.
  intros mc mj ri ji fmt q handle; subst handle; split; intros U K.
  - rewrite handle_seeker by exact U.
    unfold Aggregator.parse_job_seeker_query; cbv zeta; rewrite K.
    destruct (any_in ["best"; "top"; "recommend"; "suitable"]
                     (lower (Aggregator.query q))); [left; reflexivity |].
    destruct (any_in ["how many"; "count"] (lower (Aggregator.query q)));
      right; reflexivity.
  - rewrite handle_employer by exact U.
    unfold Aggregator.parse_employer_query; cbv zeta; rewrite K.
    destruct (any_in ["best"; "top"; "recommend"; "suitable"]
                     (lower (Aggregator.query q))); [left; reflexivity |].
    destruct (any_in ["how many"; "count"] (lower (Aggregator.query q)));
      right; reflexivity.
Qed.

(** The seeker's question about skills mentions jobs and gets the generic
    help; so does the employer's own suggested question. *)
Example shadowed_questions :
  Aggregator.route "job_seeker"
                   "What skills should I improve to get better jobs?"
  = Some {| Aggregator.intent := "general"; Aggregator.type := "help" |}
  /\ Aggregator.route "job_seeker" "Show me current job market trends"
     = Some {| Aggregator.intent := "general"; Aggregator.type := "help" |}
  /\ Aggregator.route "job_seeker" "What skills should I improve?"
     = Some {| Aggregator.intent := "skill_analysis";
               Aggregator.type := "improvement" |}.
Proof. repeat split. Qed.

(** X19.  Three intents of each parser have no branch in the handler: the
    counting questions (job_stats, candidate_stats), resume_feedback and
    job_management get the same generic help as an unrecognised query, and
    so does every query of a user type other than the two. *)
Theorem parsed_but_unanswered :
  forall (match_candidates_endpoint :
            ResumeServer.MatchRequest
            -> Aggregator.reply ResumeServer.MatchResponse)
         (match_jobs_endpoint :
            JobServer.JobMatchRequest
            -> Aggregator.reply JobServer.MatchResponse)
         (resume_insights_endpoint : Aggregator.reply ResumeServer.ResumeInsight)
         (job_insights_endpoint : Aggregator.reply JobServer.JobInsight)
         (format_2f : Q -> string) (q : Aggregator.ChatQuery),
    (Aggregator.user_type q = "job_seeker"
     /\ In (Aggregator.intent
              (Aggregator.parse_job_seeker_query (Aggregator.query q)))
           ["job_stats"; "resume_feedback"; "general"])
    \/ (Aggregator.user_type q = "employer"
        /\ In (Aggregator.intent
                 (Aggregator.parse_employer_query (Aggregator.query q)))
              ["candidate_stats"; "job_management"; "general"])
    \/ (Aggregator.user_type q <> "job_seeker"
        /\ Aggregator.user_type q <> "employer") ->
    Aggregator.handle_chat_query match_candidates_endpoint match_jobs_endpoint
      resume_insights_endpoint job_insights_endpoint format_2f q
    = Aggregator.default_response (Aggregator.user_type q).
Proof.
  intros mc mj ri ji fmt q [[U H] | [[U H] | [U1 U2]]].
  - rewrite handle_seeker, U by exact U; cbv zeta.
    simpl in H; destruct H as [<- | [<- | [<- | []]]]; reflexivity.
  - rewrite handle_employer, U by exact U; cbv zeta.
    simpl in H; destruct H as [<- | [<- | [<- | []]]]; reflexivity.
  - now apply handle_other.
Qed.

Definition count_query : Aggregator.ChatQuery :=
  {| Aggregator.user_id := "user_1";
     Aggregator.user_type := "employer";
     Aggregator.query := "how many candidates do we have";
     Aggregator.context := None |}.

Lemma parsed_but_unanswered_witness :
  Aggregator.intent
    (Aggregator.parse_employer_query (Aggregator.query count_query))
  = "candidate_stats"
  /\ System.chat Sample.encode Sample.cosine_similarity Sample.list_of_set
       (fun _ => "0.00")
       {| System.resumes_file := Some [Sample.alice];
          System.jobs_file := None |}
       count_query
     = Aggregator.default_response "employer".
Proof.
  split; [reflexivity |].
  unfold System.chat; apply parsed_but_unanswered.
  right; left; split; [reflexivity | simpl; auto].
Defined.

(** X20.  Whatever the query, the user type and the providers' replies,
    the response carries exactly three suggestions. *)
Theorem three_suggestions :
  forall (match_candidates_endpoint :
            ResumeServer.MatchRequest
            -> Aggregator.reply ResumeServer.MatchResponse)
         (match_jobs_endpoint :
            JobServer.JobMatchRequest
            -> Aggregator.reply JobServer.MatchResponse)
         (resume_insights_endpoint : Aggregator.reply ResumeServer.ResumeInsight)
         (job_insights_endpoint : Aggregator.reply JobServer.JobInsight)
         (format_2f : Q -> string) (q : Aggregator.ChatQuery),
    List.length
      (Aggregator.suggestions
         (Aggregator.handle_chat_query match_candidates_endpoint
            match_jobs_endpoint resume_insights_endpoint job_insights_endpoint
            format_2f q)) = 3.
Proof.
  intros mc mj ri ji fmt q; unfold Aggregator.handle_chat_query.
  repeat match goal with
         | |- context [if String.eqb ?a ?b then _ else _] =>
             destruct (String.eqb a b)
         end;
    try reflexivity.
  - unfold Aggregator.find_jobs; cbv zeta; now destruct (mj _).
  - unfold Aggregator.find_candidates; cbv zeta; now destruct (mc _).
Qed.

(** X21.  When the provider's reply has no ["matches"] key (the call
    failed), the search intents answer with the fallback narrative, its own
    suggestions and no data.  The handler asks the resume server for five
    candidates, excluding the asker, and the job server for five jobs
    without an excluded employer. *)
Theorem failed_provider_gets_fallback :
  forall (match_candidates_endpoint :
            ResumeServer.MatchRequest
            -> Aggregator.reply ResumeServer.MatchResponse)
         (match_jobs_endpoint :
            JobServer.JobMatchRequest
            -> Aggregator.reply JobServer.MatchResponse)
         (resume_insights_endpoint : Aggregator.reply ResumeServer.ResumeInsight)
         (job_insights_endpoint : Aggregator.reply JobServer.JobInsight)
         (format_2f : Q -> string) (q : Aggregator.ChatQuery) (body : string),
    let handle :=
      Aggregator.handle_chat_query match_candidates_endpoint
        match_jobs_endpoint resume_insights_endpoint job_insights_endpoint
        format_2f in
    (Aggregator.user_type q = "employer" ->
     Aggregator.intent (Aggregator.parse_employer_query (Aggregator.query q))
     = "find_candidates" ->
     match_candidates_endpoint
       {| ResumeServer.job_description :=
            Aggregator.context_get q "job_description" "software developer";
          ResumeServer.top_k := 5;
          ResumeServer.exclude_user_id := Some (Aggregator.user_id q) |}
     = Aggregator.Other body ->
     handle q
     = {| Aggregator.response :=
            "No matching candidates found. Try posting a job description first!";
          Aggregator.data := None;
          Aggregator.suggestions := Aggregator.no_candidate_suggestions |})
    /\ (Aggregator.user_type q = "job_seeker" ->
        Aggregator.intent
          (Aggregator.parse_job_seeker_query (Aggregator.query q))
        = "find_jobs" ->
        match_jobs_endpoint
          {| JobServer.resume_text := Aggregator.context_get q "resume_text" "";
             JobServer.top_k := 5;
             JobServer.exclude_employer_id := None |}
        = Aggregator.Other body ->
        handle q
        = {| Aggregator.response :=
               "I couldn't find any job matches right now. Try uploading your resume first!";
             Aggregator.data := None;
             Aggregator.suggestions := Aggregator.no_job_suggestions |}).
Proof.
  intros mc mj ri ji fmt q body handle; subst handle; split; intros U I E.
  - rewrite handle_employer, I by exact U; cbv zeta; simpl String.eqb.
    cbv iota; unfold Aggregator.find_candidates; cbv zeta; now rewrite E.
  - rewrite handle_seeker, I by exact U; cbv zeta; simpl String.eqb.
    cbv iota; unfold Aggregator.find_jobs; cbv zeta; now rewrite E.
Qed.

(** X22.  The narrative of a candidate or job search shows the number of
    matches and the first three of them: two replies with equally many
    matches and the same first three give the same text. *)
Theorem narrative_shows_three :
  forall (format_2f : Q -> string) (q : Aggregator.ChatQuery)
         (candidates candidates' :
            ResumeServer.MatchRequest
            -> Aggregator.reply ResumeServer.MatchResponse)
         (jobs jobs' :
            JobServer.JobMatchRequest
            -> Aggregator.reply JobServer.MatchResponse)
         (resume_data :
            ResumeServer.MatchRequest
            -> Aggregator.reply ResumeServer.MatchResponse)
         (c c' : ResumeServer.MatchResponse) (j j' : JobServer.MatchResponse),
    let candidates_request :=
      {| ResumeServer.job_description :=
           Aggregator.context_get q "job_description" "software developer";
         ResumeServer.top_k := 5;
         ResumeServer.exclude_user_id := Some (Aggregator.user_id q) |} in
    let jobs_request :=
      {| JobServer.resume_text := Aggregator.context_get q "resume_text" "";
         JobServer.top_k := 5;
         JobServer.exclude_employer_id := None |} in
    candidates candidates_request = Aggregator.Json c ->
    candidates' candidates_request = Aggregator.Json c' ->
    jobs jobs_request = Aggregator.Json j ->
    jobs' jobs_request = Aggregator.Json j' ->
    List.length (ResumeServer.matches c)
    = List.length (ResumeServer.matches c') ->
    firstn 3 (ResumeServer.matches c) = firstn 3 (ResumeServer.matches c') ->
    List.length (JobServer.matches j) = List.length (JobServer.matches j') ->
    firstn 3 (JobServer.matches j) = firstn 3 (JobServer.matches j') ->
    Aggregator.response (Aggregator.find_candidates candidates format_2f q)
    = Aggregator.response (Aggregator.find_candidates candidates' format_2f q)
    /\ Aggregator.response
         (Aggregator.find_jobs resume_data jobs format_2f q)
       = Aggregator.response
           (Aggregator.find_jobs resume_data jobs' format_2f q).
Proof.
  intros fmt q cs cs' js js' rd c c' j j' creq jreq Ec Ec' Ej Ej' Lc Fc Lj Fj.
  unfold Aggregator.find_candidates, Aggregator.find_jobs; cbv zeta.
  fold creq jreq; rewrite Ec, Ec', Ej, Ej'; simpl Aggregator.response.
  unfold slice_to; simpl Z.ltb; cbv iota.
  change (Z.to_nat 3) with 3.
  now rewrite Lc, Fc, Lj, Fj.
Qed.

Definition sample_entry (who : string) : ResumeServer.Match :=
  {| ResumeServer.resume_id := who;
     ResumeServer.match_name := who;
     ResumeServer.match_skills := ["Python"];
     ResumeServer.similarity_score := 1 # 2;
     ResumeServer.experience_snippet := "" |}.

Definition sample_reply (who : list string) : ResumeServer.MatchResponse :=
  {| ResumeServer.matches := map sample_entry who;
     ResumeServer.message := None;
     ResumeServer.total_candidates := Some (List.length who) |}.

Definition no_jobs_reply : JobServer.MatchResponse :=
  {| JobServer.matches := [];
     JobServer.message := Some "No jobs available";
     JobServer.total_jobs_considered := None |}.

Lemma narrative_shows_three_witness :
  Aggregator.response
    (Aggregator.find_candidates
       (fun _ => Aggregator.Json (sample_reply ["a"; "b"; "c"; "d"]))
       (fun _ => "0.50") count_query)
  = Aggregator.response
      (Aggregator.find_candidates
         (fun _ => Aggregator.Json (sample_reply ["a"; "b"; "c"; "e"]))
         (fun _ => "0.50") count_query).
Proof.
  apply (narrative_shows_three
           (fun _ => "0.50") count_query
           (fun _ => Aggregator.Json (sample_reply ["a"; "b"; "c"; "d"]))
           (fun _ => Aggregator.Json (sample_reply ["a"; "b"; "c"; "e"]))
           (fun _ => Aggregator.Json no_jobs_reply)
           (fun _ => Aggregator.Json no_jobs_reply)
           (fun _ => Aggregator.Other "")
           (sample_reply ["a"; "b"; "c"; "d"])
           (sample_reply ["a"; "b"; "c"; "e"])
           no_jobs_reply no_jobs_reply
           eq_refl eq_refl eq_refl eq_refl eq_refl eq_refl eq_refl eq_refl).
Defined.

(** X23.  Through the chat, an employer who asks for candidates never gets
    their own resume back: with a non-empty user id, the data of the
    response holds at most five matches, each built from a stored resume of
    another user. *)
Theorem chat_never_returns_the_asker :
  forall (encode : string -> list Q)
         (cosine_similarity : list Q -> list Q -> Q)
         (list_of_set : list string -> list string)
         (format_2f : Q -> string)
         (st : System.Stores) (q : Aggregator.ChatQuery),
    Aggregator.user_type q = "employer" ->
    Aggregator.intent (Aggregator.parse_employer_query (Aggregator.query q))
    = "find_candidates" ->
    Aggregator.user_id q <> "" ->
    exists reply,
      Aggregator.data
        (System.chat encode cosine_similarity list_of_set format_2f st q)
      = Some (Aggregator.CandidateMatches (Aggregator.Json reply))
      /\ List.length (ResumeServer.matches reply) <= 5
      /\ forall m, In m (ResumeServer.matches reply) ->
           exists r,
             In r (ResumeServer.load_resumes (System.resumes_file st))
             /\ ResumeServer.user_id r <> Aggregator.user_id q
             /\ from_resume cosine_similarity
                  (encode (Aggregator.context_get q "job_description"
                                                  "software developer"))
                  r m.
Proof.
  intros encode cosine_similarity list_of_set format_2f st q U I N.
  unfold System.chat; rewrite handle_employer, I by exact U.
  cbv zeta; simpl String.eqb; cbv iota.
  unfold Aggregator.find_candidates; cbv zeta; simpl Aggregator.data.
  eexists; split; [reflexivity | split].
  - rewrite match_candidates_matches, length_slice_to; simpl ResumeServer.top_k.
    change (5 <? 0)%Z with false; cbv iota; apply (Nat.le_min_l 5).
  - intros m Hm; rewrite match_candidates_matches in Hm.
    apply In_slice_to, In_sort_desc, in_flat_map in Hm as (r & Hr & Hm).
    simpl in Hr; apply In_filter_excluded in Hr as [Hr Hne]; auto.
    exists r; repeat split; auto.
    now apply resume_scored_from in Hm.
Qed.

Definition candidates_query : Aggregator.ChatQuery :=
  {| Aggregator.user_id := "u1";
     Aggregator.user_type := "employer";
     Aggregator.query := "Show me the best candidates for my latest job posting";
     Aggregator.context := Some [("job_description", "software developer position")] |}.

Lemma chat_never_returns_the_asker_witness :
  exists reply,
    Aggregator.data
      (System.chat Sample.encode Sample.cosine_similarity Sample.list_of_set
         (fun _ => "1.00")
         {| System.resumes_file := Some [Sample.alice; Sample.bob];
            System.jobs_file := None |}
         candidates_query)
    = Some (Aggregator.CandidateMatches (Aggregator.Json reply))
    /\ map ResumeServer.match_name (ResumeServer.matches reply) = ["Bob"].
Proof.
  assert (N : Aggregator.user_id candidates_query <> "") by discriminate.
  destruct (chat_never_returns_the_asker
              Sample.encode Sample.cosine_similarity Sample.list_of_set
              (fun _ => "1.00")
              {| System.resumes_file := Some [Sample.alice; Sample.bob];
                 System.jobs_file := None |}
              candidates_query eq_refl eq_refl N) as (reply & E & _).
  exists reply; split; [exact E |].
  vm_compute in E; injection E as <-; reflexivity.
Defined.

(** ** Parsing a resume *)

Lemma split_char_cons (sep : ascii) (s : string) :
  exists first others, split_char sep s = first :: others.
Proof.
  induction s as [|c s (first & others & IH)]; simpl; eauto.
  destruct (Ascii.eqb c sep); eauto.
  rewrite IH; eauto.
Qed.

(** Splitting and joining again gives the text back. *)
Lemma join_split_char (sep : ascii) (s : string) :
  join (String sep "") (split_char sep s) = s.
Proof.
  induction s as [|c s IH]; simpl; auto.
  destruct (split_char_cons sep s) as (first & others & E).
  destruct (Ascii.eqb c sep) eqn:Ec.
  - apply Ascii.eqb_eq in Ec; subst c.
    rewrite E in *; simpl; simpl in IH; now rewrite IH.
  - rewrite E in *; destruct others as [|o others]; simpl in *;
      now rewrite IH.
Qed.

Lemma split_char_first_has_no_sep (sep : ascii) (s first : string)
      (others : list string) :
  split_char sep s = first :: others ->
  forall pre post, first <> (pre ++ String sep post)%string.
Proof.
  revert first others; induction s as [|c s IH]; simpl; intros first others E.
  - injection E as <- <-; intros [|x pre] post; discriminate.
  - destruct (Ascii.eqb c sep) eqn:Ec.
    + injection E as <- <-; intros [|x pre] post; discriminate.
    + destruct (split_char_cons sep s) as (f & o & Es); rewrite Es in E.
      injection E as <- <-; intros [|x pre] post; simpl; intros H.
      * injection H as -> _; now rewrite Ascii.eqb_refl in Ec.
      * injection H as _ H; now apply (IH f o Es pre post).
Qed.

(** X24.  The parsed name is the raw first line of the text: the text up
    to its first line feed, not stripped, and never the default
    ["Unknown"] of the code (an empty text gives the empty name). *)
Theorem parsed_name_is_first_line :
  forall (list_of_set : list string -> list string) (text : string),
    let name :=
      ResumeServer.parsed_name
        (ResumeServer.parse_resume_text list_of_set text) in
    (text = name \/ exists rest, text = (name ++ LF ++ rest)%string)
    /\ forall pre post, name <> (pre ++ LF ++ post)%string.
Proof.
  intros list_of_set text name; subst name.
  unfold ResumeServer.parse_resume_text; cbv zeta; simpl ResumeServer.parsed_name.
  pose proof (join_split_char (ascii_of_nat 10) text) as J.
  destruct (split_char_cons (ascii_of_nat 10) text) as (first & others & E).
  rewrite E in *; split.
  - destruct others as [|o others]; [left; now rewrite <- J |].
    right; exists (join LF (o :: others)); now rewrite <- J.
  - apply (split_char_first_has_no_sep _ _ _ _ E).
Qed.










(** ** The mock authentication service *)

Lemma dict_mem_find {V : Type} (d : dict V) (k : string) :
  dict_mem d k = false <-> dict_find d k = None.
Proof.
  induction d as [|[k0 v0] d IH]; simpl; [tauto|].
  destruct (String.eqb k k0); simpl; [split; discriminate | exact IH].
Qed.

Lemma dict_find_set {V : Type} (d : dict V) (k k' : string) (v : V) :
  dict_find (dict_set d k v) k'
  = if String.eqb k' k then Some v else dict_find d k'.
Proof.
  induction d as [|[k0 v0] d IH]; simpl; auto.
  destruct (String.eqb k k0) eqn:E; simpl.
  - apply String.eqb_eq in E as ->; now destruct (String.eqb k' k0).
  - rewrite IH; destruct (String.eqb k' k0) eqn:E'; auto.
    apply String.eqb_eq in E' as ->; now rewrite String.eqb_sym, E.
Qed.

Lemma dict_set_new {V : Type} (d : dict V) (k : string) (v : V) :
  dict_find d k = None -> dict_set d k v = d ++ [(k, v)].
Proof.
  induction d as [|[k0 v0] d IH]; simpl; auto.
  destruct (String.eqb k k0); [discriminate|]; intros H; now rewrite IH.
Qed.

Lemma dict_find_In {V : Type} (d : dict V) (k : string) (v : V) :
  dict_find d k = Some v -> In (k, v) d.
Proof.
  induction d as [|[k0 v0] d IH]; simpl; [discriminate|].
  destruct (String.eqb k k0) eqn:E; auto.
  apply String.eqb_eq in E as ->; intros H; injection H as ->; now left.
Qed.

Lemma dict_find_NoDup {V : Type} (d : dict V) (k : string) (v : V) :
  NoDup (map fst d) -> In (k, v) d -> dict_find d k = Some v.
Proof.
  induction d as [|[k0 v0] d IH]; simpl; [easy|].
  intros H [E | Hin]; inversion H as [|? ? Hn Hd]; subst.
  - injection E as -> ->; now rewrite String.eqb_refl.
  - destruct (String.eqb k k0) eqn:E; auto.
    apply String.eqb_eq in E; subst.
    exfalso; apply Hn; change k0 with (fst (k0, v)); now apply in_map.
Qed.

Lemma In_dict_set {V : Type} (d : dict V) (k k' : string) (v v' : V) :
  In (k', v') (dict_set d k v) -> (k', v') = (k, v) \/ In (k', v') d.
Proof.
  induction d as [|[k0 v0] d IH]; simpl.
  - intros [H | []]; left; now symmetry.
  - destruct (String.eqb k k0) eqn:E; simpl.
    + apply String.eqb_eq in E as ->; intros [H | H]; auto.
    + intros [H | H]; auto; apply IH in H; tauto.
Qed.

Lemma str_of_nat_inj (n m : nat) : str_of_nat n = str_of_nat m -> n = m.
Proof.
  unfold str_of_nat; intros H.
  apply (f_equal DecimalString.NilEmpty.uint_of_string) in H.
  rewrite !DecimalString.NilEmpty.usu in H; injection H as H.
  apply (f_equal Nat.of_uint) in H.
  now rewrite !DecimalNat.Unsigned.of_to in H.
Qed.

Lemma str_app_inv (a b c : string) : (a ++ b = a ++ c)%string -> b = c.
Proof. induction a as [|x a IH]; simpl; intros H; auto; injection H; auto. Qed.

(** X27.  The life of an account.  Registering an email that is not yet
    known hands out the id [user_n], [n] being the new number of users;
    logging in with the registered password then succeeds and the session
    token it returns validates to that user; a different password is turned
    down and changes nothing; a second registration of the email is turned
    down and changes nothing. *)
Theorem account_life_cycle :
  forall (auth : Client.MockAuth) (email password other user_type : string),
    dict_mem (Client.users auth) email = false ->
    other <> password ->
    let user_id :=
      ("user_" ++ str_of_nat (List.length (Client.users auth) + 1))%string in
    let user :=
      {| Client.session_user_id := user_id;
         Client.session_email := email;
         Client.session_user_type := user_type |} in
    exists registered token logged,
      Client.register_user auth email password user_type
      = (registered, Client.Registered user_id)
      /\ List.length (Client.users registered)
         = S (List.length (Client.users auth))
      /\ Client.login_user registered email password
         = (logged, Client.LoggedIn token user)
      /\ Client.validate_session logged token = Client.ValidSession user
      /\ Client.login_user registered email other
         = (registered, Client.NotLoggedIn "Invalid password")
      /\ Client.register_user registered email other user_type
         = (registered, Client.NotRegistered "User already exists").
Proof.
  intros auth email password other user_type H N user_id user.
  unfold Client.register_user at 1; rewrite H; fold user_id.
  apply dict_mem_find in H.
  eexists; eexists; eexists; split; [reflexivity |].
  split; [simpl; rewrite (dict_set_new _ _ _ H), length_app; simpl; lia |].
  unfold Client.login_user, Client.validate_session, Client.register_user.
  simpl Client.users; simpl Client.sessions.
  rewrite !dict_find_set, String.eqb_refl; simpl Client.password.
  rewrite String.eqb_refl; cbv iota; simpl negb; cbv iota.
  split; [reflexivity |]; simpl Client.sessions.
  rewrite dict_find_set, String.eqb_refl.
  split; [reflexivity |].
  apply String.eqb_neq in N; rewrite String.eqb_sym, N; simpl; split; auto.
  assert (M : dict_mem
                (dict_set (Client.users auth) email
                   {| Client.user_id := user_id; Client.email := email;
                      Client.password := password;
                      Client.user_type := user_type;
                      Client.created_at := "2024-01-01" |}) email = true).
  { destruct (dict_mem _ email) eqn:E; auto.
    apply dict_mem_find in E.
    rewrite dict_find_set, String.eqb_refl in E; discriminate. }
  now rewrite M.
Qed.

Lemma account_life_cycle_witness :
  dict_mem (Client.users Client.new_auth) "ann@example.org" = false
  /\ exists registered token logged,
       Client.register_user Client.new_auth "ann@example.org" "s3cret"
                            "employer"
       = (registered, Client.Registered "user_1")
       /\ Client.login_user registered "ann@example.org" "s3cret"
          = (logged,
             Client.LoggedIn token
               {| Client.session_user_id := "user_1";
                  Client.session_email := "ann@example.org";
                  Client.session_user_type := "employer" |}).
Proof.
  assert (N : "guess" <> "s3cret") by discriminate.
  split; [reflexivity |].
  destruct (account_life_cycle Client.new_auth "ann@example.org" "s3cret"
              "guess" "employer" eq_refl N)
    as (registered & token & logged & R & _ & L & _).
  exists registered, token, logged; split; [exact R | exact L].
Defined.

(** The states of the service: a fresh one, and what registrations and
    logins make of it. *)
Inductive auth_reachable : Client.MockAuth -> Prop :=
| reach_new : auth_reachable Client.new_auth
| reach_register auth email password user_type :
    auth_reachable auth ->
    auth_reachable (fst (Client.register_user auth email password user_type))
| reach_login auth email password :
    auth_reachable auth ->
    auth_reachable (fst (Client.login_user auth email password)).

Definition user_name (i : nat) : string := ("user_" ++ str_of_nat i)%string.

Definition auth_invariant (auth : Client.MockAuth) : Prop :=
  map (fun kv => Client.user_id (snd kv)) (Client.users auth)
  = map user_name (seq 1 (List.length (Client.users auth)))
  /\ NoDup (map fst (Client.users auth))
  /\ forall token s,
       In (token, s) (Client.sessions auth) ->
       exists u, In (Client.session_email s, u) (Client.users auth)
                 /\ Client.user_id u = Client.session_user_id s
                 /\ Client.user_type u = Client.session_user_type s.

Lemma dict_find_None_notin {V : Type} (d : dict V) (k : string) :
  dict_find d k = None -> ~ In k (map fst d).
Proof.
  induction d as [|[k0 v0] d IH]; simpl; auto.
  destruct (String.eqb k k0) eqn:E; [discriminate|].
  apply String.eqb_neq in E; intros H [F | F]; auto; now apply IH.
Qed.

Lemma register_keeps_invariant (auth : Client.MockAuth)
      (email password user_type : string) :
  auth_invariant auth ->
  auth_invariant (fst (Client.register_user auth email password user_type)).
Proof.
  intros (I1 & I2 & I3); unfold Client.register_user.
  destruct (dict_mem (Client.users auth) email) eqn:M; simpl;
    [repeat split; auto |].
  apply dict_mem_find in M.
  unfold auth_invariant; simpl; rewrite (dict_set_new _ _ _ M).
  rewrite !map_app, length_app; cbn [List.length].
  rewrite Nat.add_1_r, seq_S, map_app, I1; simpl.
  repeat split.
  - apply NoDup_app_remove_l with (l := []); simpl.
    apply Permutation_NoDup with
      (l := email :: map fst (Client.users auth));
      [apply Permutation_cons_append |].
    constructor; auto; now apply dict_find_None_notin.
  - intros token s H; destruct (I3 token s H) as (u & Hu & E1 & E2).
    exists u; repeat split; auto; apply in_or_app; now left.
Qed.

Lemma login_keeps_invariant (auth : Client.MockAuth) (email password : string) :
  auth_invariant auth ->
  auth_invariant (fst (Client.login_user auth email password)).
Proof.
  intros I; unfold Client.login_user.
  destruct (dict_find (Client.users auth) email) as [user|] eqn:F;
    [| exact I].
  destruct (negb (String.eqb (Client.password user) password));
    [exact I |].
  destruct I as (I1 & I2 & I3); unfold auth_invariant; simpl.
  split; [exact I1 | split; [exact I2 |]].
  intros token s H; apply In_dict_set in H as [H | H];
    [| exact (I3 _ _ H)].
  injection H as -> ->; simpl.
  exists user; repeat split; now apply dict_find_In.
Qed.

Lemma reachable_invariant (auth : Client.MockAuth) :
  auth_reachable auth -> auth_invariant auth.
Proof.
  induction 1.
  - repeat split; simpl; [constructor | intros ? ? []].
  - now apply register_keeps_invariant.
  - now apply login_keeps_invariant.
Qed.

Lemma user_names_differ (n : nat) : NoDup (map user_name (seq 1 n)).
Proof.
  assert (H : forall l, NoDup l -> NoDup (map user_name l)).
  { induction 1 as [|a l Hn Hd IH]; simpl; constructor; auto.
    intros Hin; apply in_map_iff in Hin as (b & E & Hb).
    apply str_app_inv, str_of_nat_inj in E; now subst. }
  apply H, seq_NoDup.
Qed.

(** X28.  In every state the service can reach from a fresh one by
    registrations and logins, the [n] users carry the ids [user_1] to
    [user_n] in order of registration, so no two users share an id, and a
    session token that validates belongs to a registered user: the user
    registered under the session's email, with the session's id and type. *)
Theorem sessions_belong_to_users :
  forall auth : Client.MockAuth,
    auth_reachable auth ->
    map (fun kv => Client.user_id (snd kv)) (Client.users auth)
    = map user_name (seq 1 (List.length (Client.users auth)))
    /\ NoDup (map (fun kv => Client.user_id (snd kv)) (Client.users auth))
    /\ forall token s,
         Client.validate_session auth token = Client.ValidSession s ->
         exists u,
           dict_find (Client.users auth) (Client.session_email s) = Some u
           /\ Client.user_id u = Client.session_user_id s
           /\ Client.user_type u = Client.session_user_type s.
Proof.
  intros auth R; destruct (reachable_invariant auth R) as (I1 & I2 & I3).
  split; [exact I1 | split].
  - rewrite I1; apply user_names_differ.
  - intros token s V; unfold Client.validate_session in V.
    destruct (dict_find (Client.sessions auth) token) as [s'|] eqn:F;
      [| discriminate].
    injection V as ->; apply dict_find_In in F.
    destruct (I3 token s F) as (u & Hu & E1 & E2).
    exists u; repeat split; auto; now apply dict_find_NoDup.
Qed.

Definition two_users_one_session : Client.MockAuth :=
  fst (Client.login_user
         (fst (Client.register_user
                 (fst (Client.register_user Client.new_auth
                         "ann@example.org" "s3cret" "employer"))
                 "bob@example.org" "hunter2" "job_seeker"))
         "bob@example.org" "hunter2").

Lemma sessions_belong_to_users_witness :
  auth_reachable two_users_one_session
  /\ map (fun kv => Client.user_id (snd kv))
         (Client.users two_users_one_session) = ["user_1"; "user_2"]
  /\ Client.validate_session two_users_one_session "session_user_2_0"
     = Client.ValidSession
         {| Client.session_user_id := "user_2";
            Client.session_email := "bob@example.org";
            Client.session_user_type := "job_seeker" |}.
Proof.
  assert (R : auth_reachable two_users_one_session)
    by (repeat constructor).
  split; [exact R | split; [| reflexivity]].
  exact (proj1 (sessions_belong_to_users two_users_one_session R)).
Defined.

(** ** The mock workflow orchestrator *)

Lemma dict_get_find {V : Type} (d : dict V) (k : string) (v default : V) :
  dict_find d k = Some v -> dict_get d k default = v.
Proof.
  induction d as [|[k0 v0] d IH]; simpl; [discriminate|].
  destruct (String.eqb k k0); auto; intros H; now injection H.
Qed.

Lemma mock_results_named (steps : list (dict string)) :
  (forall step, In step steps -> dict_find step "name" <> None) ->
  exists results,
    Client.mock_results steps = Some results
    /\ map Client.step_name results
       = map (fun step => dict_get step "name" "") steps
    /\ forall r, In r results ->
         Client.status r = "completed"
         /\ Client.output r = ("Mock output for " ++ Client.step_name r)%string.
Proof.
  induction steps as [|step steps IH]; intros H; simpl.
  - exists []; split; [reflexivity | split; [reflexivity | intros r []]].
  - destruct (dict_find step "name") as [name|] eqn:F;
      [| now destruct (H step (or_introl eq_refl))].
    destruct (IH (fun s Hs => H s (or_intror Hs))) as (rs & -> & M & A).
    eexists; split; [reflexivity | split]; simpl.
    + now rewrite M, (dict_get_find _ _ _ _ F).
    + intros r [<- | Hr]; auto.
Qed.



(** X29.  Create, then execute: a workflow whose steps all have a name gets
    the id [workflow_n], [n] being one more than the number of workflows
    stored before, and, executed, yields one result per step, in order,
    each completed with the output "Mock output for <name>"; the run is
    recorded at the end of the history under the id [exec_m], [m] the new
    length of the history. *)
Theorem workflow_round_trip :
  forall (self : Client.MockWorkflowOrchestrator) (name : string)
         (steps : list (dict string)) (input_data : dict string),
    (forall step, In step steps -> dict_find step "name" <> None) ->
    let created := fst (Client.create_workflow self name steps) in
    let workflow_id := snd (Client.create_workflow self name steps) in
    let execution_id :=
      ("exec_"
       ++ str_of_nat (List.length (Client.execution_history self) + 1))%string in
    workflow_id
    = ("workflow_" ++ str_of_nat (List.length (Client.workflows self) + 1))%string
    /\ exists results,
         Client.execute_workflow created workflow_id input_data
         = ({| Client.workflows := Client.workflows created;
               Client.execution_history :=
                 Client.execution_history self
                 ++ [ {| Client.execution_id := execution_id;
                         Client.workflow_id := workflow_id;
                         Client.input_data := input_data;
                         Client.results := results;
                         Client.execution_status := "completed";
                         Client.executed_at := "2024-01-01" |} ] |},
            Client.Executed execution_id results)
         /\ map Client.step_name results
            = map (fun step => dict_get step "name" "") steps
         /\ forall r, In r results ->
              Client.status r = "completed"
              /\ Client.output r
                 = ("Mock output for " ++ Client.step_name r)%string.
Proof.
  intros self name steps input_data H created workflow_id execution_id.
  split; [reflexivity |].
  destruct (mock_results_named steps H) as (results & M & N & A).
  exists results; split; [| split; assumption].
  subst created workflow_id execution_id.
  unfold Client.execute_workflow, Client.create_workflow; simpl.
  now rewrite dict_find_set, String.eqb_refl; simpl; rewrite M.
Qed.

Definition sample_steps : list (dict string) :=
  [ [("name", "parse resume"); ("tool", "resume_server")];
    [("name", "match jobs")] ].

Lemma workflow_round_trip_witness :
  (forall step, In step sample_steps -> dict_find step "name" <> None)
  /\ snd (Client.execute_workflow
            (fst (Client.create_workflow Client.new_orchestrator "onboard"
                                         sample_steps))
            "workflow_1" [])
     = Client.Executed "exec_1"
         [ {| Client.step_name := "parse resume";
              Client.status := "completed";
              Client.output := "Mock output for parse resume" |};
           {| Client.step_name := "match jobs";
              Client.status := "completed";
              Client.output := "Mock output for match jobs" |} ].
Proof.
  assert (H : forall step, In step sample_steps ->
                           dict_find step "name" <> None)
    by (intros step [<- | [<- | []]]; discriminate).
  split; [exact H |].
  destruct (workflow_round_trip Client.new_orchestrator "onboard"
              sample_steps [] H) as (_ & results & E & _).
  reflexivity.
Defined.

